(** * Verification of the travel-booking admin backend (server.js)

    A shallow embedding of the route handlers of [server.js] and of the
    helper [getPublicId], followed by theorems about them.

    Conventions of the embedding
    - JavaScript strings are [string]s (one [ascii] per code unit; the
      URLs and form texts the handlers work on are ASCII);
    - a JavaScript object used as a record with free keys ([req.body],
      the object [data] built by a handler) is a [gmap string _];
    - an array is a [list];
    - a collection of the document store is the list of its documents in
      store order, each with its [_id], a string; the store is reachable:
      its operations fail only where the driver casts or validates;
    - the [:id] of a route is the identifier the driver casts it to, or
      a text that is no identifier, for which the driver throws;
    - a request with files is the multipart form the upload middleware
      has decoded: the texts of its body and the uploaded files;
    - a handler is a function from the request and the state of the store
      to the response, the new state of the store and the calls issued to
      the remote asset host, in order;
    - what the platform provides and the source does not define
      (token verification, the outcome of a remote call, the casting and
      validation done by the store driver) is a parameter. *)

From Stdlib Require Import ZArith Ascii String Lia.
From stdpp Require Import base option list gmap strings pretty sorting.

Local Open Scope string_scope.
Local Open Scope list_scope.
Local Open Scope Z_scope.

#[local] Arguments String.append !_ _ / : simpl nomatch.

(** ** JavaScript built-ins on strings *)

Module Js.

(** [s.split(sep)[0]] for a one-character separator: the text before the
    first occurrence of [sep], the whole of [s] when there is none. *)
Fixpoint split_head (sep : ascii) (s : string) : string :=
  match s with
  | EmptyString => EmptyString
  | String c s' =>
      if Ascii.eqb c sep then EmptyString else String c (split_head sep s')
  end.

(** [s.split(sep)] for a one-character separator. The first component is
    the piece being accumulated. *)
Fixpoint split_on (sep : ascii) (s : string) : string * list string :=
  match s with
  | EmptyString => (EmptyString, [])
  | String c s' =>
      let '(piece, rest) := split_on sep s' in
      if Ascii.eqb c sep then (EmptyString, piece :: rest)
      else (String c piece, rest)
  end.

Definition split (sep : ascii) (s : string) : list string :=
  let '(piece, rest) := split_on sep s in piece :: rest.

(** Truthiness of a string: every string but the empty one. *)
Definition truthy_string (s : string) : bool :=
  match s with EmptyString => false | String _ _ => true end.

(** Truthiness of a value that is a string or [undefined]. *)
Definition truthy (v : option string) : bool :=
  match v with Some s => truthy_string s | None => false end.

(** [ToIntegerOrInfinity] clamped as [Array.prototype.slice] clamps a
    relative index against the length [len]. *)
Definition relative_index (len i : Z) : Z :=
  if i <? 0 then Z.max (len + i) 0 else Z.min i len.

(** [a.slice(start, end)] with integer arguments. *)
Definition slice {A} (a : list A) (start stop : Z) : list A :=
  let len := Z.of_nat (length a) in
  let k := relative_index len start in
  let final := relative_index len stop in
  take (Z.to_nat (final - k)) (drop (Z.to_nat k) a).

(** [a.splice(0, n)] with an integer [n]: the removed elements and what
    is left of the array, which the call updates in place. *)
Definition splice0 {A} (a : list A) (n : Z) : list A * list A :=
  let dc := Z.to_nat (Z.min (Z.max n 0) (Z.of_nat (length a))) in
  (take dc a, drop dc a).

(** White space and line terminators, which [trim] removes (those of
    one byte). *)
Definition is_space (c : ascii) : bool :=
  let n := nat_of_ascii c in
  ((Nat.leb 9 n && Nat.leb n 13) || Nat.eqb n 32)%bool.

Fixpoint trim_start (s : string) : string :=
  match s with
  | String c s' => if is_space c then trim_start s' else s
  | EmptyString => s
  end.

Fixpoint trim_end (s : string) : string :=
  match s with
  | EmptyString => EmptyString
  | String c s' =>
      match trim_end s' with
      | EmptyString => if is_space c then EmptyString else String c EmptyString
      | t => String c t
      end
  end.

(** [s.trim()] *)
Definition trim (s : string) : string := trim_end (trim_start s).

End Js.

(** ** Regular expressions

    The fragment of the regular expressions of JavaScript that the
    source uses, with the backtracking semantics of the language: the
    quantifiers are greedy, alternatives are tried in order and the first
    complete match wins. *)

Module Regex.

Inductive atom : Type :=
| Chr (c : ascii)      (* a literal character *)
| Digit                (* \d *)
| Word                 (* \w *)
| Dot.                 (* .  *)

Definition between (lo hi : nat) (c : ascii) : bool :=
  let n := nat_of_ascii c in (Nat.leb lo n && Nat.leb n hi)%bool.

Definition is_digit (c : ascii) : bool := between 48 57 c.

Definition is_word (c : ascii) : bool :=
  (between 97 122 c || between 65 90 c || is_digit c
   || Ascii.eqb c "_"%char)%bool.

(** Line terminators, which [.] does not match. *)
Definition is_line_terminator (c : ascii) : bool :=
  (Ascii.eqb c "010"%char || Ascii.eqb c "013"%char)%bool.

Definition atom_ok (a : atom) (c : ascii) : bool :=
  match a with
  | Chr d => Ascii.eqb c d
  | Digit => is_digit c
  | Word => is_word c
  | Dot => negb (is_line_terminator c)
  end.

Inductive regex : Type :=
| Text (t : string)            (* a literal text *)
| One (a : atom)
| Many1 (a : atom)             (* a+ *)
| Cat (r1 r2 : regex)
| Maybe (r : regex)            (* (?:r)? *)
| Capture (r : regex)          (* (r), the only capturing group *)
| EndOfInput.                  (* $ *)

(** [strip t s] is what follows [t] in [s] when [s] starts with [t]. *)
Fixpoint strip (t s : string) : option string :=
  match t, s with
  | EmptyString, _ => Some s
  | String a t', String b s' => if Ascii.eqb a b then strip t' s' else None
  | String _ _, EmptyString => None
  end.

Section Matcher.
Context {R : Type}.

(** The continuation receives what is left of the input and the text of
    the capturing group, when it has matched. *)
Definition cont : Type := string -> option string -> option R.

(** [a*], longest first. *)
Fixpoint many (a : atom) (s : string) (cap : option string) (k : cont)
    : option R :=
    match s with
    | String c s' =>
        if atom_ok a c then
          match many a s' cap k with
          | Some r => Some r
          | None => k s cap
          end
        else k s cap
    | EmptyString => k s cap
    end.

Fixpoint run (r : regex) (s : string) (cap : option string) (k : cont)
    : option R :=
    match r with
    | Text t =>
        match strip t s with Some s' => k s' cap | None => None end
    | One a =>
        match s with
        | String c s' => if atom_ok a c then k s' cap else None
        | EmptyString => None
        end
    | Many1 a =>
        match s with
        | String c s' => if atom_ok a c then many a s' cap k else None
        | EmptyString => None
        end
    | Cat r1 r2 => run r1 s cap (fun s' cap' => run r2 s' cap' k)
    | Maybe r' =>
        match run r' s cap k with
        | Some x => Some x
        | None => k s cap
        end
    | Capture r' =>
        run r' s cap
          (fun s' _ =>
             k s' (Some (substring 0 (String.length s - String.length s') s)))
    | EndOfInput =>
        match s with EmptyString => k s cap | String _ _ => None end
    end.
End Matcher.

(** [s.match(r)] for a regular expression without flags: the leftmost
    position of [s] at which [r] matches; the result is the text of the
    capturing group. [None] is [null]. *)
Fixpoint exec (r : regex) (s : string) : option (option string) :=
  match run r s None (fun _ cap => Some cap) with
  | Some cap => Some cap
  | None =>
      match s with
      | String _ s' => exec r s'
      | EmptyString => None
      end
  end.

(** *** What a match is

    [matches r w rest cap cap'] : [r] matches the word [w] when [rest]
    follows it, and takes the text of the group from [cap] to [cap']. *)

Fixpoint all_ok (a : atom) (w : string) : bool :=
  match w with
  | EmptyString => true
  | String c w' => (atom_ok a c && all_ok a w')%bool
  end.

Inductive matches : regex -> string -> string -> option string ->
                    option string -> Prop :=
| m_text t rest cap :
    matches (Text t) t rest cap cap
| m_one a c rest cap :
    atom_ok a c = true ->
    matches (One a) (String c EmptyString) rest cap cap
| m_many1 a w rest cap :
    w <> EmptyString -> all_ok a w = true ->
    matches (Many1 a) w rest cap cap
| m_cat r1 r2 w1 w2 rest c0 c1 c2 :
    matches r1 w1 (w2 +:+ rest) c0 c1 ->
    matches r2 w2 rest c1 c2 ->
    matches (Cat r1 r2) (w1 +:+ w2) rest c0 c2
| m_maybe_yes r w rest c0 c1 :
    matches r w rest c0 c1 ->
    matches (Maybe r) w rest c0 c1
| m_maybe_no r rest cap :
    matches (Maybe r) EmptyString rest cap cap
| m_capture r w rest c0 c1 :
    matches r w rest c0 c1 ->
    matches (Capture r) w rest c0 (Some w)
| m_end cap :
    matches EndOfInput EmptyString EmptyString cap cap.

(** The first occurrence of [t] in [s]: what precedes it and what
    follows it. *)
Fixpoint find_text (t s : string) : option (string * string) :=
  match strip t s with
  | Some post => Some (EmptyString, post)
  | None =>
      match s with
      | String c s' =>
          match find_text t s' with
          | Some (pre, post) => Some (String c pre, post)
          | None => None
          end
      | EmptyString => None
      end
  end.

End Regex.

(** ** [getPublicId] (server.js, lines 375-389, and its two later copies) *)

Import Regex.

(** [v\d+\/] *)
Definition version_regex : regex :=
  Cat (One (Chr "v")) (Cat (Many1 Digit) (One (Chr "/"))).

(** [\.\w+$] *)
Definition tail_regex : regex :=
  Cat (One (Chr ".")) (Cat (Many1 Word) EndOfInput).

(** [/\/upload\/(?:v\d+\/)?(.+)\.\w+$/] *)
Definition publicId_regex : regex :=
  Cat (Text "/upload/")
   (Cat (Maybe version_regex)
    (Cat (Capture (Many1 Dot)) tail_regex)).

(** The version segment of a URL, when there is one: [v], digits, [/]. *)
Definition version_segment (ver : string) : Prop :=
  ver = EmptyString \/
  exists ds, ds <> EmptyString /\ all_ok Digit ds = true /\
             ver = "v" +:+ ds +:+ "/".

(** A file name extension: word characters, at least one. *)
Definition extension (ext : string) : Prop :=
  ext <> EmptyString /\ all_ok Word ext = true.

Definition begins_with_v (id : string) : bool :=
  match id with String c _ => Ascii.eqb c "v" | EmptyString => false end.

(** In the text [clean], the marker that follows [pre] is followed by
    the version segment [ver], which may be empty, the identifier [id]
    and the extension [ext], which ends the text. *)
Definition segment_at (clean pre ver id ext : string) : Prop :=
  clean = pre +:+ "/upload/" +:+ ver +:+ id +:+ "." +:+ ext /\
  version_segment ver /\ id <> EmptyString /\
  Regex.all_ok Regex.Dot id = true /\ extension ext.

(** The text begins with a version segment that something follows. *)
Definition begins_with_version (id : string) : Prop :=
  exists ds rest,
    ds <> EmptyString /\ Regex.all_ok Regex.Digit ds = true /\
    rest <> EmptyString /\ id = "v" +:+ ds +:+ "/" +:+ rest.

(** [None] is the [null] of the source. *)
Definition getPublicId (url : string) : option string :=
  let cleanUrl := Js.split_head "?" url in
  match exec publicId_regex cleanUrl with
  | None => None
  | Some m1 => m1
  end.


(** ** JSON values and [JSON.parse]

    The values [JSON.parse] returns. A number with an integer value is
    [Num]; any other number keeps its text ([Real]), no handler computes
    with one. An object is a finite map: a later member with the same key
    replaces an earlier one, as in the language. *)

Module Json.

#[local] Unset Elimination Schemes.
Inductive value : Type :=
| Null
| Bool (b : bool)
| Num (n : Z)
| Real (lexeme : string)
| Str (s : string)
| Arr (items : list value)
| Obj (fields : gmap string value).
#[local] Set Elimination Schemes.

(** Truthiness ([Boolean(v)]) of a value. *)
Definition truthy (v : value) : bool :=
  match v with
  | Null => false
  | Bool b => b
  | Num n => negb (n =? 0)
  | Real _ => true
  | Str s => Js.truthy_string s
  | Arr _ | Obj _ => true
  end.

(** Truthiness of a value that may be [undefined]. *)
Definition truthy_opt (v : option value) : bool :=
  match v with Some v => truthy v | None => false end.

Definition quote_char : ascii := "034"%char.
Definition backslash : ascii := "092"%char.

(** [quote s] is [s] between double quotes, to write JSON texts. *)
Definition quote (s : string) : string :=
  String quote_char (s +:+ String quote_char EmptyString).

Definition is_ws (c : ascii) : bool :=
  (Ascii.eqb c " "%char || Ascii.eqb c "009"%char
   || Ascii.eqb c "010"%char || Ascii.eqb c "013"%char)%bool.

Fixpoint skip_ws (s : string) : string :=
  match s with
  | String c s' => if is_ws c then skip_ws s' else s
  | EmptyString => s
  end.

(** The longest prefix of decimal digits, and what follows it. *)
Fixpoint span_digits (s : string) : string * string :=
  match s with
  | String c s' =>
      if Regex.is_digit c then
        let '(ds, rest) := span_digits s' in (String c ds, rest)
      else (EmptyString, s)
  | EmptyString => (EmptyString, s)
  end.

Fixpoint Z_of_digits (acc : Z) (ds : string) : Z :=
  match ds with
  | String c ds' => Z_of_digits (10 * acc + (Z.of_nat (nat_of_ascii c) - 48)) ds'
  | EmptyString => acc
  end.

Definition hex_digit (c : ascii) : option Z :=
  let n := Z.of_nat (nat_of_ascii c) in
  if Regex.is_digit c then Some (n - 48)
  else if Regex.between 97 102 c then Some (n - 87)
  else if Regex.between 65 70 c then Some (n - 55)
  else None.

Definition byte (n : Z) : ascii := ascii_of_nat (Z.to_nat n).

(** The UTF-8 bytes of a code unit given by a [\u] escape. *)
Definition utf8 (n : Z) (s : string) : string :=
  if n <? 128 then String (byte n) s
  else if n <? 2048 then
    String (byte (192 + n / 64)) (String (byte (128 + n mod 64)) s)
  else
    String (byte (224 + n / 4096))
      (String (byte (128 + (n / 64) mod 64))
         (String (byte (128 + n mod 64)) s)).

(** The character a one-letter escape stands for. *)
Definition escape (c : ascii) : option ascii :=
  if Ascii.eqb c quote_char then Some quote_char
  else if Ascii.eqb c backslash then Some backslash
  else if Ascii.eqb c "/"%char then Some "/"%char
  else if Ascii.eqb c "b"%char then Some "008"%char
  else if Ascii.eqb c "f"%char then Some "012"%char
  else if Ascii.eqb c "n"%char then Some "010"%char
  else if Ascii.eqb c "r"%char then Some "013"%char
  else if Ascii.eqb c "t"%char then Some "009"%char
  else None.

(** A string after its opening quote: its content and what follows the
    closing quote. *)
Fixpoint string_body (s : string) : option (string * string) :=
  match s with
  | EmptyString => None
  | String c s' =>
      if Ascii.eqb c quote_char then Some (EmptyString, s')
      else if Ascii.eqb c backslash then
        match s' with
        | String e s'' =>
            match escape e with
            | Some ch =>
                match string_body s'' with
                | Some (t, rest) => Some (String ch t, rest)
                | None => None
                end
            | None =>
                if Ascii.eqb e "u"%char then
                  match s'' with
                  | String h1 (String h2 (String h3 (String h4 s3))) =>
                      match hex_digit h1, hex_digit h2, hex_digit h3,
                            hex_digit h4, string_body s3 with
                      | Some a, Some b, Some c', Some d, Some (t, rest) =>
                          Some (utf8 (((a * 16 + b) * 16 + c') * 16 + d) t, rest)
                      | _, _, _, _, _ => None
                      end
                  | _ => None
                  end
                else None
            end
        | EmptyString => None
        end
      else if Nat.ltb (nat_of_ascii c) 32 then None
      else
        match string_body s' with
        | Some (t, rest) => Some (String c t, rest)
        | None => None
        end
  end.

(** A number: an optional minus sign, an integer part without leading
    zero, an optional fraction and an optional exponent. *)

Definition sign (s : string) : bool * string :=
  match s with
  | String c s' => if Ascii.eqb c "-"%char then (true, s') else (false, s)
  | EmptyString => (false, s)
  end.

(** The integer part is [0], or starts with another digit. *)
Definition int_ok (ip : string) : bool :=
  match ip with
  | EmptyString => false
  | String d ip' => negb (Ascii.eqb d "0"%char && Js.truthy_string ip')
  end.

(** The digits of the fraction, none without a fraction; [None] when no
    digit follows the point. *)
Definition fraction (s : string) : option (string * string) :=
  match s with
  | String c s' =>
      if Ascii.eqb c "."%char then
        let '(fd, rest) := span_digits s' in
        if Js.truthy_string fd then Some (fd, rest) else None
      else Some (EmptyString, s)
  | EmptyString => Some (EmptyString, s)
  end.

(** The exponent, 0 without one; [None] when no digit follows [e]. *)
Definition exponent (s : string) : option (Z * string) :=
  match s with
  | String c s' =>
      if (Ascii.eqb c "e"%char || Ascii.eqb c "E"%char)%bool then
        let '(eneg, s1) :=
          match s' with
          | String g s'' =>
              if Ascii.eqb g "-"%char then (true, s'')
              else if Ascii.eqb g "+"%char then (false, s'')
              else (false, s')
          | EmptyString => (false, s')
          end in
        let '(ed, rest) := span_digits s1 in
        if Js.truthy_string ed then
          Some ((if eneg then -1 else 1) * Z_of_digits 0 ed, rest)
        else None
      else Some (0, s)
  | EmptyString => Some (0, s)
  end.

(** The value of the number [mant * 10 ^ e10]; [lexeme] is its text. *)
Definition number_value (mant e10 : Z) (lexeme : string) : value :=
  if 0 <=? e10 then Num (mant * 10 ^ e10)
  else if mant mod 10 ^ (- e10) =? 0 then Num (mant / 10 ^ (- e10))
  else Real lexeme.

Definition number (s : string) : option (value * string) :=
  let '(neg, s1) := sign s in
  let '(ip, s2) := span_digits s1 in
  match fraction s2 with
  | None => None
  | Some (fd, s3) =>
      match exponent s3 with
      | None => None
      | Some (e, rest) =>
          if int_ok ip then
            let mant := (if neg then -1 else 1) * Z_of_digits 0 (ip +:+ fd) in
            let lexeme :=
              substring 0 (String.length s - String.length rest) s in
            Some (number_value mant (e - Z.of_nat (String.length fd)) lexeme,
                  rest)
          else None
      end
  end.

Definition literal (t : string) (v : value) (s : string)
  : option (value * string) :=
  match Regex.strip t s with Some rest => Some (v, rest) | None => None end.

(** A value at the head of [s]; every call that [fuel] counts consumes a
    character, so the length of the text is fuel enough ([parse_fuel]
    below). *)
Fixpoint value_at (fuel : nat) (s : string) : option (value * string) :=
  match fuel with
  | O => None
  | S fuel' =>
      match s with
      | EmptyString => None
      | String c s' =>
          if Ascii.eqb c "{"%char then
            match skip_ws s' with
            | String d s2 =>
                if Ascii.eqb d "}"%char then Some (Obj ∅, s2)
                else members fuel' (String d s2) ∅
            | EmptyString => None
            end
          else if Ascii.eqb c "["%char then
            match skip_ws s' with
            | String d s2 =>
                if Ascii.eqb d "]"%char then Some (Arr [], s2)
                else elements fuel' (String d s2) []
            | EmptyString => None
            end
          else if Ascii.eqb c quote_char then
            match string_body s' with
            | Some (t, rest) => Some (Str t, rest)
            | None => None
            end
          else if Ascii.eqb c "t"%char then literal "true" (Bool true) s
          else if Ascii.eqb c "f"%char then literal "false" (Bool false) s
          else if Ascii.eqb c "n"%char then literal "null" Null s
          else number s
      end
  end
with members (fuel : nat) (s : string) (acc : gmap string value)
  : option (value * string) :=
  match fuel with
  | O => None
  | S fuel' =>
      match s with
      | String c s' =>
          if Ascii.eqb c quote_char then
            match string_body s' with
            | Some (key, s1) =>
                match skip_ws s1 with
                | String colon s2 =>
                    if Ascii.eqb colon ":"%char then
                      match value_at fuel' (skip_ws s2) with
                      | Some (v, s3) =>
                          match skip_ws s3 with
                          | String d s4 =>
                              if Ascii.eqb d ","%char then
                                members fuel' (skip_ws s4) (<[key := v]> acc)
                              else if Ascii.eqb d "}"%char then
                                Some (Obj (<[key := v]> acc), s4)
                              else None
                          | EmptyString => None
                          end
                      | None => None
                      end
                    else None
                | EmptyString => None
                end
            | None => None
            end
          else None
      | EmptyString => None
      end
  end
with elements (fuel : nat) (s : string) (acc : list value)
  : option (value * string) :=
  match fuel with
  | O => None
  | S fuel' =>
      match value_at fuel' s with
      | Some (v, s1) =>
          match skip_ws s1 with
          | String d s2 =>
              if Ascii.eqb d ","%char then
                elements fuel' (skip_ws s2) (acc ++ [v])
              else if Ascii.eqb d "]"%char then Some (Arr (acc ++ [v]), s2)
              else None
          | EmptyString => None
          end
      | None => None
      end
  end.

(** [JSON.parse(text)]; [None] when it throws a [SyntaxError]. *)
Definition parse (text : string) : option value :=
  let s := skip_ws text in
  match value_at (2 * String.length s + 2) s with
  | Some (v, rest) =>
      match skip_ws rest with EmptyString => Some v | String _ _ => None end
  | None => None
  end.

End Json.

(** ** Property access on values *)

Module Access.
Import Json.

(** [v?.[i]] for a value [v] that may be [undefined]. *)
Definition index (v : option value) (i : nat) : option value :=
  match v with
  | Some (Arr items) => items !! i
  | Some (Obj fields) => fields !! pretty i
  | Some (Str s) =>
      match String.get i s with
      | Some c => Some (Str (String c EmptyString))
      | None => None
      end
  | _ => None
  end.

(** [v?.key] for a value [v] that may be [undefined]: an own property of
    an object, the [length] of an array or of a string. *)
Definition prop (v : option value) (key : string) : option value :=
  match v with
  | Some (Obj fields) => fields !! key
  | Some (Arr items) =>
      if String.eqb key "length" then Some (Num (Z.of_nat (length items)))
      else None
  | Some (Str s) =>
      if String.eqb key "length" then Some (Num (Z.of_nat (String.length s)))
      else None
  | _ => None
  end.

(** [a || b] *)
Definition or_else (a : option value) (b : value) : value :=
  match a with
  | Some v => if truthy v then v else b
  | None => b
  end.

(** The characters of a string, each as a string. *)
Fixpoint characters (s : string) : list value :=
  match s with
  | EmptyString => []
  | String c s' => Str (String c EmptyString) :: characters s'
  end.

(** The values [...v] spreads into an array; [None] when [v] is not
    iterable and the spread throws a [TypeError]. *)
Definition spread (v : value) : option (list value) :=
  match v with
  | Arr items => Some items
  | Str s => Some (characters s)
  | _ => None
  end.

End Access.

(** ** Documents of the store *)

Abbreviation object := (gmap string Json.value).

(** The attributes the handlers read or write are fields of the records;
    the other attributes of a document are in its last field, by name. *)

Record Admin : Type := mkAdmin {
  admin_id : string;
  username : string;
  password : string
}.

Record Activity : Type := mkActivity {
  act_images : list string;
  act_fields : object
}.

Record Destination : Type := mkDestination {
  dest_id : string;
  thumbnail : option string;
  images : list string;
  activities : list Activity;
  dest_fields : object
}.

Record Hotel : Type := mkHotel {
  hotel_id : string;
  hotel_images : list string;
  hotel_fields : object
}.

Record Visa : Type := mkVisa {
  visa_id : string;
  image : option string;
  visa_fields : object
}.

Record Flight : Type := mkFlight {
  flight_id : string;
  logo : option string;
  flight_fields : object
}.

Inductive model : Type := DestinationModel | HotelModel | FlightModel.

(** The filter object of a package search: the title is a regular
    expression matched without regard to case ([$options: "i"]). *)
Record Filter : Type := mkFilter {
  title_regex : string;
  price_range : option (option Z * option Z);   (* $gte, $lte *)
  days_is : option string
}.

(** ** Errors and responses *)

Inductive error : Type :=
| SyntaxError (text : string)     (* JSON.parse failed on [text] *)
| TypeError (what : string)
| CastError (value : string)      (* the cast of [value] to ObjectId failed *)
| Raised (reason : string).       (* raised by the platform *)

Inductive attempt (A : Type) : Type :=
| Returned (a : A)
| Thrown (e : error).
Arguments Returned {A} a.
Arguments Thrown {A} e.

(** How a promise of the asset host settles. *)
Inductive settled : Type :=
| Resolved (result : string)      (* "ok", "not found", ... *)
| Rejected (reason : string).

(** The text of a response that carries one. *)
Inductive message : Type :=
| Text (s : string)
| MessageOf (e : error).          (* err.message *)

Inductive response (A : Type) : Type :=
| Reply (status : nat) (body : A)            (* the success body *)
| Refusal (status : nat) (why : message).    (* message or error text *)
Arguments Reply {A} status body.
Arguments Refusal {A} status why.

Definition status_of {A} (r : response A) : nat :=
  match r with Reply st _ | Refusal st _ => st end.

(** What a handler leaves: the response, the documents of its collection
    and the identifiers it asked the asset host to delete, in order. *)
Record outcome (D A : Type) : Type := mkOutcome {
  reply : response A;
  stored : list D;
  destroyed : list string
}.
Arguments mkOutcome {D A} reply stored destroyed.
Arguments reply {D A} o.
Arguments stored {D A} o.
Arguments destroyed {D A} o.

(** The [:id] of a route as [findById], [findByIdAndUpdate] and
    [findByIdAndDelete] read it. The driver casts it to an [ObjectId]
    before it queries the store: [ObjectId id] is a parameter that is
    one, the identifier [id]; [NotObjectId text] is a text that is none,
    and the cast throws a [CastError]. The identifiers of the stored
    documents are [ObjectId]s. A string stands for the identifier it
    is. *)
Inductive route_id : Type :=
| ObjectId (id : string)
| NotObjectId (text : string).

Coercion ObjectId : string >-> route_id.

(** ** The platform

    What the handlers call and the source does not define. *)
Class Platform : Type := mkPlatform {
  (** [jwt.verify(token, secret)]: the [id] of the payload. *)
  jwt_verify : string -> attempt string;
  (** [cloudinary.uploader.destroy(id)] *)
  destroy : string -> settled;
  (** [Number(text)]; [None] is [NaN]. Prices are integers here. *)
  Number : string -> option Z;
  (** [ToIntegerOrInfinity] of a value other than an integer number, a
      boolean, [null] or [undefined]. *)
  to_integer_other : Json.value -> Z;
  (** [a + b] when [a] is not an integer number, or [b] is neither an
      integer number nor a boolean. *)
  plus_other : Json.value -> Json.value -> Json.value;
  (** [Destination.find(filter)] *)
  find_destinations : Filter -> list Destination -> attempt (list Destination);
  (** [new Destination(data)] and [save()]: casting, validation. *)
  new_destination : object -> attempt Destination;
  (** [new Flight(data)] and [save()]. *)
  new_flight : object -> attempt Flight;
  (** The casting of the attributes of an update, images apart. *)
  cast_update : model -> object -> attempt object;
  (** The casting to [String] of a value that is not a string. *)
  cast_string_other : Json.value -> attempt string
}.

(** ** Operations of a collection *)

Section Collection.
Context {D : Type} (key : D -> string).

Definition findById (id : string) (docs : list D) : option D :=
  List.find (fun d => String.eqb (key d) id) docs.

Fixpoint findByIdAndDelete (id : string) (docs : list D) : list D :=
  match docs with
  | [] => []
  | d :: rest =>
      if String.eqb (key d) id then rest
      else d :: findByIdAndDelete id rest
  end.

(** The collection once the document [id] is [d']. *)
Fixpoint put (id : string) (d' : D) (docs : list D) : list D :=
  match docs with
  | [] => []
  | d :: rest =>
      if String.eqb (key d) id then d' :: rest
      else d :: put id d' rest
  end.

End Collection.

(** [Promise.all]: rejected as soon as one of the promises is. *)
Fixpoint promise_all (results : list settled) : settled :=
  match results with
  | [] => Resolved EmptyString
  | Resolved _ :: rest => promise_all rest
  | Rejected reason :: _ => Rejected reason
  end.

(** [ids.filter(Boolean)], where [None] is [null]. *)
Definition filter_Boolean (ids : list (option string)) : list string :=
  omap (fun id => if Js.truthy id then id else None) ids.

(** ** The requests *)

Record ChangePassword : Type := mkChangePassword {
  authorization : option string;      (* req.headers.authorization *)
  oldPassword : option string;
  newPassword : option string
}.

Record SearchQuery : Type := mkSearchQuery {
  title : option string;
  minPrice : option string;
  maxPrice : option string;
  days : option string
}.

(** The files of a multipart request are given by their [path], the URL
    the asset host gave them. *)
Record PackageFiles : Type := mkPackageFiles {
  thumbnail_files : list string;        (* req.files.thumbnail *)
  images_files : list string;           (* req.files.images *)
  activityImages : list string          (* req.files.activityImages *)
}.

Record PackageForm : Type := mkPackageForm {
  package_body : gmap string string;    (* req.body *)
  package_files : PackageFiles
}.

Record HotelForm : Type := mkHotelForm {
  hotel_body : gmap string string;      (* req.body *)
  hotel_files : list string             (* req.files *)
}.

Record FlightForm : Type := mkFlightForm {
  flightNumber : option string;
  airline : option string;
  departure : option string;
  arrival : option string;
  duration : option string;
  services : option string;
  existingLogo : option string;
  logo_file : option string              (* req.file *)
}.

(** ** The handlers *)

Section Handlers.
Context `{Platform}.

Definition refuse {D A} (status : nat) (why : message) (docs : list D)
  : outcome D A :=
  mkOutcome (Refusal status why) docs [].

(** *** POST /api/admin/change-password (lines 80-105) *)

(** [req.headers.authorization?.split(" ")[1]] *)
Definition bearer_token (header : option string) : option string :=
  match header with
  | Some h => Js.split " " h !! 1%nat
  | None => None
  end.

(** What [admin.save()] throws when [password], which the schema
    requires, is not a string or is empty. *)
Definition password_required : error :=
  Raised "Admin validation failed: password: Path `password` is required.".

Definition changePassword (req : ChangePassword) (admins : list Admin)
  : outcome Admin string :=
  match bearer_token (authorization req) with
  | Some (String c t) =>
      let token := String c t in
      match jwt_verify token with
      | Thrown e => refuse 500 (MessageOf e) admins
      | Returned id =>
          match findById admin_id id admins with
          | None => refuse 404 (Text "Admin not found") admins
          | Some admin =>
              if negb (bool_decide (Some (password admin) = oldPassword req))
              then refuse 400 (Text "Old password is incorrect") admins
              else
                match newPassword req with
                | Some (String d n) =>
                    let admin' :=
                      mkAdmin (admin_id admin) (username admin) (String d n) in
                    mkOutcome (Reply 200 "Password changed successfully")
                      (put admin_id id admin' admins) []
                | _ => refuse 500 (MessageOf password_required) admins
                end
          end
      end
  | _ => refuse 401 (Text "Unauthorized") admins
  end.

(** *** GET /api/packagesearch (lines 390-421)

    The result carries the filters the handler queried the store with. *)

Definition title_only (t : string) : Filter := mkFilter t None None.

Definition search_filter (q : SearchQuery) (t : string) : Filter :=
  mkFilter t
    (match minPrice q, maxPrice q with
     | Some lo, Some hi =>
         if (Js.truthy_string lo && Js.truthy_string hi)%bool
         then Some (Number lo, Number hi) else None
     | _, _ => None
     end)
    (if Js.truthy (days q) then days q else None).

Definition packageSearch (q : SearchQuery) (db : list Destination)
  : response (list Destination) * list Filter :=
  match title q with
  | Some (String c t') =>
      let t := String c t' in
      let filter := search_filter q t in
      match find_destinations filter db with
      | Thrown _ => (Refusal 500 (Text "Server error"), [filter])
      | Returned results =>
          if (length results =? 0)%nat then
            match find_destinations (title_only t) db with
            | Thrown _ =>
                (Refusal 500 (Text "Server error"), [filter; title_only t])
            | Returned results' =>
                (Reply 200 results', [filter; title_only t])
            end
          else (Reply 200 results, [filter])
      end
  | _ => (Reply 200 [], [])
  end.

(** *** The DELETE handlers (lines 333-372, 564-591, 763-780, 890-907)

    Each begins with [findById(req.params.id)], which throws when the
    parameter is no [ObjectId]; the handler then answers the message of
    the error, with status 500. *)

(** The identifiers collected from a package, [None] where the extraction
    gave [null]. *)
Definition package_publicIds (pkg : Destination) : list (option string) :=
  (match thumbnail pkg with
   | Some url => if Js.truthy_string url then [getPublicId url] else []
   | None => []
   end)
  ++ (getPublicId <$> images pkg)
  ++ flat_map (fun act => getPublicId <$> act_images act) (activities pkg).

(** [await Promise.all(ids.map(id => destroy(id)))], then the removal of
    the record. *)
Definition destroy_then_remove {D} (key : D -> string) (id : string)
    (ids : list string) (done : string) (docs : list D)
  : outcome D string :=
  match promise_all (destroy <$> ids) with
  | Rejected reason =>
      mkOutcome (Refusal 500 (MessageOf (Raised reason))) docs ids
  | Resolved _ =>
      mkOutcome (Reply 200 done) (findByIdAndDelete key id docs) ids
  end.

Definition deletePackage (id : route_id) (db : list Destination)
  : outcome Destination string :=
  match id with
  | NotObjectId text => refuse 500 (MessageOf (CastError text)) db
  | ObjectId id =>
      match findById dest_id id db with
      | None => refuse 404 (Text "Package not found") db
      | Some pkg =>
          destroy_then_remove dest_id id
            (filter_Boolean (package_publicIds pkg))
            "Package and images deleted" db
      end
  end.

Definition deleteHotel (id : route_id) (db : list Hotel)
  : outcome Hotel string :=
  match id with
  | NotObjectId text => refuse 500 (MessageOf (CastError text)) db
  | ObjectId id =>
      match findById hotel_id id db with
      | None => refuse 404 (Text "Hotel not found") db
      | Some hotel =>
          destroy_then_remove hotel_id id
            (filter_Boolean (getPublicId <$> hotel_images hotel))
            "Hotel and images deleted" db
      end
  end.

(** The identifier of a single optional image: [if (url) { id =
    getPublicId(url); if (id) await destroy(id) }]. *)
Definition single_publicId (url : option string) : list string :=
  match url with
  | Some u =>
      if Js.truthy_string u then filter_Boolean [getPublicId u] else []
  | None => []
  end.

Definition deleteVisa (id : route_id) (db : list Visa) : outcome Visa string :=
  match id with
  | NotObjectId text => refuse 500 (MessageOf (CastError text)) db
  | ObjectId id =>
      match findById visa_id id db with
      | None => refuse 404 (Text "Visa not found") db
      | Some v =>
          destroy_then_remove visa_id id (single_publicId (image v))
            "Visa deleted successfully" db
      end
  end.

Definition deleteFlight (id : route_id) (db : list Flight)
  : outcome Flight string :=
  match id with
  | NotObjectId text => refuse 500 (MessageOf (CastError text)) db
  | ObjectId id =>
      match findById flight_id id db with
      | None => refuse 404 (Text "Flight not found") db
      | Some flight =>
          destroy_then_remove flight_id id (single_publicId (logo flight))
            "Flight deleted successfully" db
      end
  end.

(** *** PUT /api/admin/hotels/:id (lines 507-559) *)

(** The entries of the body that are neither empty nor ["null"]. *)
Definition non_empty (body : gmap string string) : object :=
  Json.Str <$> filter (fun kv => kv.2 <> EmptyString /\ kv.2 <> "null") body.

(** An array attribute sent as a JSON text, or else as a list separated
    by commas. *)
Definition parse_or_split (data : object) (field : string) : object :=
  match data !! field with
  | Some (Json.Str text) =>
      if Js.truthy_string text then
        match Json.parse text with
        | Some v => <[field := v]> data
        | None =>
            <[field := Json.Arr (Json.Str <$> (Js.trim <$> Js.split "," text))]>
              data
        end
      else data
  | _ => data
  end.

(** The casting of an array of the schema type [[String]]. *)
Fixpoint cast_strings (vs : list Json.value) : attempt (list string) :=
  match vs with
  | [] => Returned []
  | v :: rest =>
      match (match v with
             | Json.Str s => Returned s
             | _ => cast_string_other v
             end) with
      | Thrown e => Thrown e
      | Returned s =>
          match cast_strings rest with
          | Thrown e => Thrown e
          | Returned ss => Returned (s :: ss)
          end
      end
  end.

(** The object [data] before its images are set. *)
Definition hotel_data (body : gmap string string) : object :=
  foldl parse_or_split (non_empty body) ["popularAmenities"; "highlights"].

(** [req.body.existingImages ? JSON.parse(req.body.existingImages) : []];
    [None] when [JSON.parse] throws. *)
Definition old_images (body : gmap string string) : option Json.value :=
  match body !! "existingImages" with
  | Some text =>
      if Js.truthy_string text then Json.parse text else Some (Json.Arr [])
  | None => Some (Json.Arr [])
  end.

Definition updateHotel (id : route_id) (req : HotelForm) (db : list Hotel)
  : outcome Hotel (string * Hotel) :=
  let body := hotel_body req in
  let data := hotel_data body in
  match old_images body with
  | None =>
      refuse 500
        (MessageOf (SyntaxError (default EmptyString (body !! "existingImages"))))
        db
  | Some oldImages =>
      let newImages := Json.Str <$> hotel_files req in
      match Access.spread oldImages with
      | None => refuse 500 (MessageOf (TypeError "oldImages is not iterable")) db
      | Some olds =>
          (* data.images = [...oldImages, ...newImages];
             findByIdAndUpdate(id, { $set: data }, { new: true }), which
             casts the identifier, then the update *)
          match id with
          | NotObjectId text => refuse 500 (MessageOf (CastError text)) db
          | ObjectId id =>
              match cast_strings (olds ++ newImages),
                    cast_update HotelModel (delete "images" data) with
              | Returned imgs, Returned set =>
                  match findById hotel_id id db with
                  | None => refuse 404 (Text "Hotel not found") db
                  | Some hotel =>
                      let updatedHotel :=
                        mkHotel (hotel_id hotel) imgs
                          (set ∪ hotel_fields hotel) in
                      mkOutcome (Reply 200 ("Hotel updated", updatedHotel))
                        (put hotel_id id updatedHotel db) []
                  end
              | Thrown e, _ | _, Thrown e => refuse 500 (MessageOf e) db
              end
          end
      end
  end.

(** *** PUT /api/admin/packages/:id (lines 246-318) *)

(** [JSON.parse(text)], or [text] itself when that throws. *)
Definition parse_or_keep (text : string) : Json.value :=
  default (Json.Str text) (Json.parse text).

(** [ToIntegerOrInfinity(v)] *)
Definition to_integer (v : option Json.value) : Z :=
  match v with
  | None | Some Json.Null => 0
  | Some (Json.Bool b) => if b then 1 else 0
  | Some (Json.Num n) => n
  | Some v => to_integer_other v
  end.

(** The object the handler builds for an activity:
    [{ ...act, ...data.activities?.[idx], images: [...] }]. The stored
    activity [act] is a sub-document of the driver: what its spread
    copies are its own properties, among them [$__] and [_doc], the
    stored activity itself. *)
Record MergedActivity : Type := mkMergedActivity {
  spread_doc : Activity;               (* ...act *)
  spread_sent : option Json.value;     (* ...data.activities?.[idx] *)
  merged_images : list string          (* images *)
}.

(** The activities of the update. The uploaded files are one array that
    every round of the loop takes from ([splice]); [sent] is
    [data.activities], as the request gave it. *)
Fixpoint merge_activities (existing : list Activity) (idx : nat)
    (sent : option Json.value) (uploadedFiles : list string)
  : list MergedActivity :=
  match existing with
  | [] => []
  | act :: rest =>
      let existingImgs := act_images act in
      let newImgs :=
        Access.or_else (Access.prop (Access.index sent idx) "images")
          (Json.Arr []) in
      let '(count, uploadedFiles') :=
        Js.splice0 uploadedFiles (to_integer (Access.prop (Some newImgs) "length")) in
      mkMergedActivity act (Access.index sent idx) (existingImgs ++ count)
      :: merge_activities rest (S idx) sent uploadedFiles'
  end.

(** [data.activities] as the handler hands it to the store. *)
Definition merged_activities (req : PackageForm) (existingPackage : Destination)
  : list MergedActivity :=
  merge_activities (activities existingPackage) 0
    ((parse_or_keep <$> package_body req) !! "activities")
    (activityImages (package_files req)).

(** What the driver reads of such an object: it clones the update
    before it casts it, and the clone of a plain object that carries
    [$__] and [_doc] is its [_doc]. The attributes sent and the images
    the handler put beside them are not read. *)
Definition clone_activity (m : MergedActivity) : Activity := spread_doc m.

(** The attributes of [data] the handler does not set itself. *)
Definition other_attributes (data : object) : object :=
  delete "thumbnail" (delete "images" (delete "activities" data)).

Definition updatePackage (id : route_id) (req : PackageForm)
    (db : list Destination)
  : outcome Destination (string * Destination) :=
  match id with
  | NotObjectId text => refuse 500 (MessageOf (CastError text)) db
  | ObjectId id =>
      match findById dest_id id db with
      | None => refuse 404 (Text "Package not found") db
      | Some existingPackage =>
          let files := package_files req in
          let data : object := parse_or_keep <$> package_body req in
          let thumbnail' :=
            match thumbnail_files files with
            | f :: _ => Some f
            | [] => thumbnail existingPackage
            end in
          let images' :=
            match images_files files with
            | _ :: _ => images existingPackage ++ images_files files
            | [] => images existingPackage
            end in
          let activities' := merged_activities req existingPackage in
          (* findByIdAndUpdate(id, data, { new: true }) *)
          match cast_update DestinationModel (other_attributes data) with
          | Thrown e => refuse 500 (MessageOf e) db
          | Returned set =>
              let updatedPackage :=
                mkDestination (dest_id existingPackage) thumbnail' images'
                  (clone_activity <$> activities')
                  (set ∪ dest_fields existingPackage) in
              mkOutcome
                (Reply 200 ("Package updated successfully", updatedPackage))
                (put dest_id id updatedPackage db) []
          end
      end
  end.

(** *** POST /api/admin/packages (lines 172-245) *)

Definition jsonFields : list string :=
  ["itinerary"; "hotels"; "activities"; "pricing"; "policies"; "location";
   "termsConditions"; "highlights"; "inclusions"; "exclusions";
   "availableDates"; "transportation"].

(** One round of [jsonFields.forEach]: a text that does not parse is
    replaced by an empty array. *)
Definition parse_field (data : object) (field : string) : object :=
  match data !! field with
  | Some (Json.Str text) =>
      if Js.truthy_string text then
        match Json.parse text with
        | Some v => <[field := v]> data
        | None => <[field := Json.Arr []]> data
        end
      else data
  | _ => data
  end.

(** [a + b] *)
Definition plus (a b : Json.value) : Json.value :=
  match a, b with
  | Json.Num x, Json.Num y => Json.Num (x + y)
  | Json.Num x, Json.Bool y => Json.Num (x + if y then 1 else 0)
  | _, _ => plus_other a b
  end.

(** [act.images = paths]: on an object the attribute is set, on a
    primitive value the assignment has no effect, and an array keeps its
    elements. *)
Definition set_images (act : Json.value) (paths : list string) : Json.value :=
  match act with
  | Json.Obj fields => Json.Obj (<["images" := Json.Arr (Json.Str <$> paths)]> fields)
  | _ => act
  end.

(** The rounds of [data.activities.forEach]; [imgIdx] is the index the
    loop advances. *)
Fixpoint assign_images (acts : list Json.value) (imgIdx : Json.value)
    (files : list string) : attempt (list Json.value) :=
  match acts with
  | [] => Returned []
  | act :: rest =>
      match act with
      | Json.Null =>
          Thrown (TypeError "Cannot read properties of null (reading 'imageCount')")
      | _ =>
          let count :=
            Access.or_else (Access.prop (Some act) "imageCount") (Json.Num 1) in
          let paths :=
            Js.slice files (to_integer (Some imgIdx))
              (to_integer (Some (plus imgIdx count))) in
          match assign_images rest (plus imgIdx count) files with
          | Thrown e => Thrown e
          | Returned rest' => Returned (set_images act paths :: rest')
          end
      end
  end.

(** [data] after [jsonFields.forEach]. *)
Definition parsed_fields (body : gmap string string) : object :=
  foldl parse_field (Json.Str <$> body) jsonFields.

(** [data] once it has its identifier and the uploaded thumbnail and
    images. *)
Definition data_with_files (uuid : string) (req : PackageForm) : object :=
  let files := package_files req in
  let data := parsed_fields (package_body req) in
  let data := <["id" := Json.Str uuid]> data in
  let data :=
    match thumbnail_files files with
    | f :: _ => <["thumbnail" := Json.Str f]> data
    | [] => data
    end in
  match images_files files with
  | _ :: _ => <["images" := Json.Arr (Json.Str <$> images_files files)]> data
  | [] => data
  end.

(** The object [data] the handler hands to [new Destination]. *)
Definition package_data (uuid : string) (req : PackageForm) : attempt object :=
  let files := package_files req in
  let data := data_with_files uuid req in
  if (Json.truthy_opt (data !! "activities")
      && negb (Nat.eqb (length (activityImages files)) 0))%bool then
    match data !! "activities" with
    | Some (Json.Arr acts) =>
        match assign_images acts (Json.Num 0) (activityImages files) with
        | Thrown e => Thrown e
        | Returned acts' => Returned (<["activities" := Json.Arr acts']> data)
        end
    | _ => Thrown (TypeError "data.activities.forEach is not a function")
    end
  else Returned data.

(** [uuid] is what [uuidv4()] returns. *)
Definition createPackage (uuid : string) (req : PackageForm)
    (db : list Destination)
  : outcome Destination (string * Destination) :=
  match package_data uuid req with
  | Thrown e => refuse 500 (MessageOf e) db
  | Returned data =>
      match new_destination data with
      | Thrown e => refuse 500 (MessageOf e) db
      | Returned newPackage =>
          mkOutcome (Reply 200 ("Package added successfully", newPackage))
            (db ++ [newPackage]) []
      end
  end.

(** *** POST /api/flights and PUT /api/flight/:id (lines 815-835, 862-887) *)

(** [JSON.parse(v)] for a field that may be [undefined], which is not a
    JSON text either. *)
Definition parse_sent (v : option string) : option Json.value :=
  match v with
  | Some text => Json.parse text
  | None => None
  end.

(** An object literal: a key whose value is [undefined] is left out. *)
Definition with_field (key : string) (v : option Json.value) (o : object)
  : object :=
  match v with
  | Some x => <[key := x]> o
  | None => o
  end.

(** The attributes both handlers take from the body, [None] when one of
    the three JSON texts does not parse. *)
Definition flight_data (req : FlightForm) : option object :=
  match parse_sent (departure req), parse_sent (arrival req),
        parse_sent (services req) with
  | Some dep, Some arr, Some srv =>
      Some (with_field "flightNumber" (Json.Str <$> flightNumber req)
             (with_field "airline" (Json.Str <$> airline req)
               (with_field "duration" (Json.Str <$> duration req)
                 (<["departure" := dep]>
                   (<["arrival" := arr]>
                     (<["services" := srv]> ∅))))))
  | _, _, _ => None
  end.

Definition createFlight (req : FlightForm) (db : list Flight)
  : outcome Flight Flight :=
  match flight_data req with
  | None => refuse 500 (Text "Failed to add flight") db
  | Some data =>
      let logo_value :=
        match logo_file req with
        | Some path => Json.Str path
        | None => Json.Null
        end in
      match new_flight (<["logo" := logo_value]> data) with
      | Thrown _ => refuse 500 (Text "Failed to add flight") db
      | Returned flight => mkOutcome (Reply 201 flight) (db ++ [flight]) []
      end
  end.

(** [req.file ? req.file.path : existingLogo || null] *)
Definition new_logo (req : FlightForm) : option string :=
  match logo_file req with
  | Some path => Some path
  | None => if Js.truthy (existingLogo req) then existingLogo req else None
  end.

Definition updateFlight (id : route_id) (req : FlightForm) (db : list Flight)
  : outcome Flight Flight :=
  match flight_data req with
  | None => refuse 500 (Text "Failed to update flight") db
  | Some data =>
      match id with
      | NotObjectId _ => refuse 500 (Text "Failed to update flight") db
      | ObjectId id =>
          match cast_update FlightModel data with
          | Thrown _ => refuse 500 (Text "Failed to update flight") db
          | Returned set =>
              match findById flight_id id db with
              | None => refuse 404 (Text "Flight not found") db
              | Some flight =>
                  let updatedFlight :=
                    mkFlight (flight_id flight) (new_logo req)
                      (set ∪ flight_fields flight) in
                  mkOutcome (Reply 200 updatedFlight)
                    (put flight_id id updatedFlight db) []
              end
          end
      end
  end.

End Handlers.

(** ** A platform and documents to run the handlers on *)

Module Demo.

Definition to_lower (c : ascii) : ascii :=
  if Regex.between 65 90 c then ascii_of_nat (nat_of_ascii c + 32) else c.

Fixpoint lower (s : string) : string :=
  match s with
  | EmptyString => EmptyString
  | String c s' => String (to_lower c) (lower s')
  end.

Definition contains (t s : string) : bool :=
  match Regex.find_text t s with Some _ => true | None => false end.

(** The number a text of decimal digits denotes. *)
Definition decimal (s : string) : option Z :=
  match Json.span_digits s with
  | (String c ds, EmptyString) => Some (Json.Z_of_digits 0 (String c ds))
  | _ => None
  end.

(** A store that matches a title made of letters as a text, without
    regard to case. *)
Definition selects (f : Filter) (d : Destination) : bool :=
  (match dest_fields d !! "title" with
   | Some (Json.Str t) => contains (lower (title_regex f)) (lower t)
   | _ => false
   end
   && match price_range f with
      | None => true
      | Some (Some lo, Some hi) =>
          match dest_fields d !! "price" with
          | Some (Json.Num p) => (lo <=? p) && (p <=? hi)
          | _ => false
          end
      | Some _ => false
      end
   && match days_is f with
      | None => true
      | Some n =>
          match dest_fields d !! "days" with
          | Some (Json.Str m) => String.eqb n m
          | _ => false
          end
      end)%bool.

Definition strings_of (v : option Json.value) : list string :=
  match v with
  | Some (Json.Arr items) =>
      omap (fun x => match x with Json.Str s => Some s | _ => None end) items
  | _ => []
  end.

Definition string_of (v : option Json.value) : option string :=
  match v with Some (Json.Str s) => Some s | _ => None end.

Definition platform : Platform := {|
  jwt_verify token :=
    if String.eqb token "signed.for.admin-1" then Returned "admin-1"
    else Thrown (Raised "invalid signature");
  destroy id :=
    if String.eqb id "destinations/offline" then Rejected "Request Timeout"
    else if String.eqb id "destinations/gone" then Resolved "not found"
    else Resolved "ok";
  Number := decimal;
  to_integer_other _ := 0;
  plus_other a _ := a;
  find_destinations f db := Returned (List.filter (selects f) db);
  new_destination data :=
    match data !! "title" with
    | Some (Json.Str (String c t)) =>
        Returned (mkDestination (default EmptyString (string_of (data !! "id")))
                    (string_of (data !! "thumbnail"))
                    (strings_of (data !! "images")) [] data)
    | _ =>
        Thrown (Raised "Destination validation failed: title: Path `title` is required.")
    end;
  new_flight data :=
    match data !! "flightNumber" with
    | Some (Json.Str (String c t)) =>
        Returned (mkFlight (String c t) (string_of (data !! "logo")) data)
    | _ =>
        Thrown (Raised "Flight validation failed: flightNumber: Path `flightNumber` is required.")
    end;
  cast_update _ data := Returned data;
  cast_string_other _ := Thrown (Raised "Cast to string failed")
|}.

Definition url (name : string) : string :=
  "https://res.cloudinary.com/demo/image/upload/v1700000000/destinations/"
  +:+ name +:+ ".jpg".

End Demo.

(** ** Notions the theorems are stated with *)

Section Notions.
Context `{Platform}.

(** The administrator a request presents a valid session token of. *)
Definition session_of (req : ChangePassword) : option string :=
  match bearer_token (authorization req) with
  | Some (String c t) =>
      match jwt_verify (String c t) with
      | Returned id => Some id
      | Thrown _ => None
      end
  | _ => None
  end.

End Notions.

Definition is_error {A} (r : response A) : Prop :=
  exists status why, r = Refusal status why /\ status <> 200%nat.

Module Sample.

Definition admin : Admin := mkAdmin "admin-1" "admin" "secret".

Definition goa : Destination :=
  mkDestination "p1" (Some (Demo.url "cover"))
    [Demo.url "beach"; Demo.url "fort"]
    [mkActivity [Demo.url "kayak"] ∅; mkActivity [] ∅]
    (<["title" := Json.Str "Goa Beach Escape"]>
       (<["price" := Json.Num 5000]> (<["days" := Json.Str "4"]> ∅))).

Definition kerala : Destination :=
  mkDestination "p2" None [] []
    (<["title" := Json.Str "Kerala Backwaters"]>
       (<["price" := Json.Num 1500]> (<["days" := Json.Str "3"]> ∅))).

Definition nine : list string :=
  Demo.url <$> ["a1"; "a2"; "a3"; "a4"; "a5"; "a6"; "a7"; "a8"; "a9"].

Definition hotel : Hotel :=
  mkHotel "h1" [Demo.url "lobby"; Demo.url "pool"]
    (<["title" := Json.Str "Sea View"]> ∅).

Definition big_hotel : Hotel :=
  mkHotel "h2" nine (<["title" := Json.Str "Grand"]> ∅).

(** A visa whose image the asset host cannot be reached for. *)
Definition visa : Visa :=
  mkVisa "v1" (Some (Demo.url "offline"))
    (<["name" := Json.Str "Tourist"]> ∅).

Definition flight : Flight :=
  mkFlight "f1" (Some (Demo.url "logo"))
    (<["flightNumber" := Json.Str "AI-100"]> ∅).

End Sample.

(** From the specification (section 4.1): [orphaned = existing −
    retainedRefs], the set difference by identifier. *)
Definition spec_orphaned (existing retained : list string) : gset string :=
  list_to_set (omap getPublicId existing)
  ∖ list_to_set (omap getPublicId retained).

Section Remote.
Context `{Platform}.

Definition resolves (id : string) : Prop := exists r, destroy id = Resolved r.
Definition rejects (id : string) : Prop := exists r, destroy id = Rejected r.

End Remote.




Module Forms.

(** The JSON text of an array of strings without escapes. *)
Fixpoint json_items (l : list string) : string :=
  match l with
  | [] => EmptyString
  | [s] => Json.quote s
  | s :: rest => Json.quote s +:+ "," +:+ json_items rest
  end.

Definition json_strings (l : list string) : string :=
  "[" +:+ json_items l +:+ "]".

Definition no_files : PackageFiles := mkPackageFiles [] [] [].

Definition flight_form : FlightForm :=
  mkFlightForm (Some "AI-101") (Some "Air India")
    (Some ("{" +:+ Json.quote "iataCode" +:+ ":" +:+ Json.quote "DEL" +:+ ","
           +:+ Json.quote "time" +:+ ":" +:+ Json.quote "10:00" +:+ "}"))
    (Some ("{" +:+ Json.quote "iataCode" +:+ ":" +:+ Json.quote "GOI" +:+ ","
           +:+ Json.quote "time" +:+ ":" +:+ Json.quote "12:30" +:+ "}"))
    (Some "2h 30m") (Some "[]") None None.

End Forms.

(** ** The other routes

    What these routes call and the source does not define. *)

(** The filter object of a flight search. *)
Record FlightQuery : Type := mkFlightQuery {
  departure_iataCode : string;          (* "departure.iataCode" *)
  arrival_iataCode : string;            (* "arrival.iataCode" *)
  departureDate_is : option string
}.

Class Services : Type := mkServices {
  (** [jwt.sign({ id }, secret, { expiresIn: "1d" })] *)
  jwt_sign : string -> attempt string;
  (** [Admin.findOne({ username: undefined })] *)
  findOne_undefined : list Admin -> option Admin;
  (** [new Hotel(data)] and [save()]. *)
  new_hotel : object -> attempt Hotel;
  (** [new Visa(data)] and [save()]. *)
  new_visa : object -> attempt Visa;
  (** The casting of the attributes of a visa update, image apart. *)
  cast_visa_update : object -> attempt object;
  (** [Flight.find(query)] *)
  find_flights : FlightQuery -> list Flight -> attempt (list Flight);
  (** [Destination.distinct("price")]: integers here. *)
  distinct_prices : list Destination -> attempt (list Z);
  (** [$month] of a date given in milliseconds: 1 to 12. *)
  month_of : Z -> nat
}.

Record Login : Type := mkLogin {
  login_username : option string;
  login_password : option string
}.

(** An enquiry: its date, [None] when it is stored as [null]. *)
Record Enquiry : Type := mkEnquiry {
  enquiry_date : option Z;
  enquiry_fields : object
}.

(** A file as the upload middleware describes it. *)
Record UploadedFile : Type := mkUploadedFile {
  file_path : option string;
  file_filename : option string;
  file_secure_url : option string
}.

Record VisaForm : Type := mkVisaForm {
  visa_body : gmap string string;       (* req.body *)
  visa_files : list UploadedFile        (* req.files.image, or req.file *)
}.

Record FlightSearch : Type := mkFlightSearch {
  origin : option string;
  destination : option string;
  departureDate : option string
}.

Section OtherHandlers.
Context `{Platform} `{Services}.

(** *** POST /api/admin/login (lines 67-79), and the default
    administrator (lines 51-64) *)

(** [Admin.findOne({ username })] *)
Definition findOne_username (u : option string) (admins : list Admin)
  : option Admin :=
  match u with
  | Some u => List.find (fun a => String.eqb (username a) u) admins
  | None => findOne_undefined admins
  end.

(** The body of the success response is the token. *)
Definition login (req : Login) (admins : list Admin) : response string :=
  match findOne_username (login_username req) admins with
  | Some admin =>
      if negb (bool_decide (Some (password admin) = login_password req))
      then Refusal 400 (Text "Invalid username or password")
      else
        match jwt_sign (admin_id admin) with
        | Returned token => Reply 200 token
        | Thrown e => Refusal 500 (MessageOf e)
        end
  | None => Refusal 400 (Text "Invalid username or password")
  end.

(** The administrators once the server has started: [env_user] and
    [env_pass] are [ADMIN_USERNAME] and [ADMIN_PASSWORD], [fresh] is the
    identifier a new document gets. [Admin.create] validates the schema,
    which requires both attributes; what it throws is logged. *)
Definition seedAdmin (fresh : string) (env_user env_pass : option string)
    (admins : list Admin) : list Admin :=
  match findOne_username env_user admins with
  | Some _ => admins
  | None =>
      match env_user, env_pass with
      | Some (String a u), Some (String b p) =>
          admins ++ [mkAdmin fresh (String a u) (String b p)]
      | _, _ => admins
      end
  end.

(** *** The GET handlers of one document (lines 160-169, 461-470,
    848-859) *)

Definition getById {D} (key : D -> string) (missing : string)
    (failure : error -> message) (id : route_id) (db : list D) : response D :=
  match id with
  | NotObjectId text => Refusal 500 (failure (CastError text))
  | ObjectId id =>
      match findById key id db with
      | Some d => Reply 200 d
      | None => Refusal 404 (Text missing)
      end
  end.

(** The handlers of packages and hotels answer the message of the
    error, the handler of flights a message of its own. *)
Definition getPackage := getById dest_id "Package not found" MessageOf.
Definition getHotel := getById hotel_id "Hotel not found" MessageOf.
Definition getFlight :=
  getById flight_id "Flight not found" (fun _ => Text "Failed to get flight").

(** GET /api/admin/visas/:id (lines 650-667): the stored visa with
    [requiredDocuments] an array, the empty one when the stored value is
    none, and with [image] the stored image or else the empty string. *)
Definition getVisa (id : route_id) (db : list Visa) : response Visa :=
  match id with
  | NotObjectId text => Refusal 500 (MessageOf (CastError text))
  | ObjectId id =>
      match findById visa_id id db with
      | Some v =>
          let documents :=
            match visa_fields v !! "requiredDocuments" with
            | Some (Json.Arr items) => Json.Arr items
            | _ => Json.Arr []
            end in
          Reply 200
            (mkVisa (visa_id v)
               (Some (if Js.truthy (image v) then default EmptyString (image v)
                      else EmptyString))
               (<["requiredDocuments" := documents]> (visa_fields v)))
      | None => Refusal 404 (Text "Visa not found")
      end
  end.

End OtherHandlers.

(** [s.toUpperCase()], on the letters of one byte. *)
Module JsText.

Definition upper (c : ascii) : ascii :=
  if Regex.between 97 122 c then ascii_of_nat (nat_of_ascii c - 32) else c.

Fixpoint toUpperCase (s : string) : string :=
  match s with
  | EmptyString => EmptyString
  | String c s' => String (upper c) (toUpperCase s')
  end.

(** [a || b] for values that are strings or [undefined]. *)
Definition or_string (a b : option string) : option string :=
  if Js.truthy a then a else b.

End JsText.

(** The order [$sort: { _id: 1 }] puts the keys of the months in:
    [null] before the numbers. *)
Definition key_le (a b : option nat) : Prop :=
  match a, b with
  | None, _ => True
  | Some _, None => False
  | Some x, Some y => (x <= y)%nat
  end.

#[global] Instance key_le_dec (a b : option nat) : Decision (key_le a b).
Proof. destruct a, b; simpl; apply _. Defined.

Record Stats : Type := mkStats {
  n_packages : nat;
  n_hotels : nat;
  n_visas : nat;
  n_flights : nat;
  n_enquiries : nat
}.

Section OtherRoutes.
Context `{Platform} `{Services}.

(** *** POST /api/admin/hotels (lines 472-504) *)

Definition hotel_create_data (req : HotelForm) : object :=
  let data :=
    foldl parse_or_split (Json.Str <$> hotel_body req)
      ["popularAmenities"; "highlights"] in
  match hotel_files req with
  | _ :: _ => <["images" := Json.Arr (Json.Str <$> hotel_files req)]> data
  | [] => data
  end.

Definition createHotel (req : HotelForm) (db : list Hotel)
  : outcome Hotel (string * Hotel) :=
  match new_hotel (hotel_create_data req) with
  | Thrown e => refuse 500 (MessageOf e) db
  | Returned newHotel =>
      mkOutcome (Reply 200 ("Hotel added", newHotel)) (db ++ [newHotel]) []
  end.

(** *** POST /api/admin/visas and PUT /api/admin/visas/:id
    (lines 669-759) *)

(** [text.split(",").map(d => d.trim()).filter(d => d)] *)
Definition split_documents (text : string) : list string :=
  List.filter Js.truthy_string (Js.trim <$> Js.split "," text).

(** The handling of [data.requiredDocuments], the same in both routes. *)
Definition parse_documents (data : object) : object :=
  match data !! "requiredDocuments" with
  | Some (Json.Str text) =>
      if Js.truthy_string text then
        match Json.parse text with
        | Some v => <["requiredDocuments" := v]> data
        | None =>
            <["requiredDocuments" :=
                Json.Arr (Json.Str <$> split_documents text)]> data
        end
      else <["requiredDocuments" := Json.Arr []]> data
  | Some v =>
      if Json.truthy v then data
      else <["requiredDocuments" := Json.Arr []]> data
  | None => <["requiredDocuments" := Json.Arr []]> data
  end.

(** The object [data] of a creation; [None] when the uploaded file has
    no URL and the handler answers 400. *)
Definition visa_create_data (req : VisaForm) : option object :=
  let body := visa_body req in
  let data : object := Json.Str <$> body in
  match visa_files req with
  | file :: _ =>
      let url :=
        JsText.or_string (file_path file)
          (JsText.or_string (file_filename file) (file_secure_url file)) in
      if Js.truthy url then
        Some (parse_documents
                (<["image" := Json.Str (default EmptyString url)]> data))
      else None
  | [] =>
      let image :=
        if Js.truthy (body !! "existingImage")
        then default EmptyString (body !! "existingImage")
        else EmptyString in
      Some (parse_documents (<["image" := Json.Str image]> data))
  end.

Definition createVisa (req : VisaForm) (db : list Visa)
  : outcome Visa (string * Visa) :=
  match visa_create_data req with
  | None => refuse 400 (Text "Image upload failed") db
  | Some data =>
      match new_visa data with
      | Thrown e => refuse 500 (MessageOf e) db
      | Returned newVisa =>
          mkOutcome (Reply 200 ("Visa added successfully", newVisa))
            (db ++ [newVisa]) []
      end
  end.

(** The object [data] of an update; [file] is the path of [req.file]. *)
Definition visa_update_data (body : gmap string string) (file : option string)
  : object :=
  let data : object := Json.Str <$> body in
  let data :=
    match file with
    | Some path => <["image" := Json.Str path]> data
    | None =>
        if Js.truthy (body !! "existingImage")
        then <["image" :=
                 Json.Str (default EmptyString (body !! "existingImage"))]> data
        else data
    end in
  parse_documents data.

(** The handler does not test what [findByIdAndUpdate] returns: the
    visa of the response is [null] when none has the identifier. *)
Definition updateVisa (id : route_id) (body : gmap string string)
    (file : option string) (db : list Visa)
  : outcome Visa (string * option Visa) :=
  let data := visa_update_data body file in
  (* findByIdAndUpdate casts the identifier, then the update *)
  match id with
  | NotObjectId text => refuse 500 (MessageOf (CastError text)) db
  | ObjectId id =>
      match cast_visa_update (delete "image" data) with
      | Thrown e => refuse 500 (MessageOf e) db
      | Returned set =>
          match findById visa_id id db with
          | None =>
              mkOutcome (Reply 200 ("Visa updated successfully", None)) db []
          | Some v =>
              let updatedVisa :=
                mkVisa (visa_id v)
                  (match data !! "image" with
                   | Some (Json.Str url) => Some url
                   | _ => image v
                   end)
                  (set ∪ visa_fields v) in
              mkOutcome
                (Reply 200 ("Visa updated successfully", Some updatedVisa))
                (put visa_id id updatedVisa db) []
          end
      end
  end.

(** *** GET /api/flights/search (lines 908-936)

    The result carries the queries the handler put to the store. *)
Definition flightSearch (q : FlightSearch) (db : list Flight)
  : response (list Flight) * list FlightQuery :=
  match origin q, destination q with
  | Some (String a o), Some (String b d) =>
      let query :=
        mkFlightQuery (JsText.toUpperCase (String a o))
          (JsText.toUpperCase (String b d))
          (if Js.truthy (departureDate q) then departureDate q else None) in
      match find_flights query db with
      | Returned flights => (Reply 200 flights, [query])
      | Thrown _ => (Refusal 500 (Text "Failed to search flights"), [query])
      end
  | _, _ => (Refusal 400 (Text "Origin and destination are required"), [])
  end.

(** *** GET /api/packageprices (lines 427-435):
    [prices.sort((a, b) => a - b)] *)
Definition packagePrices (db : list Destination) : response (list Z) :=
  match distinct_prices db with
  | Returned prices => Reply 200 (merge_sort Z.le prices)
  | Thrown _ => Refusal 500 (Text "Server error")
  end.

(** *** GET /api/query/monthly (lines 989-1016) *)

(** [{ $month: "$date" }] *)
Definition month_key (e : Enquiry) : option nat := month_of <$> enquiry_date e.

(** The pipeline: [$group] by month with [total: { $sum: 1 }], then
    [$sort] by [_id]. *)
Definition monthly_totals (docs : list Enquiry) : list (option nat * nat) :=
  (fun k => (k, length (List.filter (fun e => bool_decide (month_key e = k)) docs)))
  <$> remove_dups (merge_sort key_le (month_key <$> docs)).

Definition monthNames : list string :=
  ["January"; "February"; "March"; "April"; "May"; "June";
   "July"; "August"; "September"; "October"; "November"; "December"].

(** [monthNames[m._id - 1]]; [None] is [undefined]. *)
Definition month_name (k : option nat) : option string :=
  match k with
  | Some (S i) => monthNames !! i
  | _ => None
  end.

(** Each entry of the response: [month] and [enquiries]. *)
Definition queryMonthly (docs : list Enquiry)
  : response (list (option string * nat)) :=
  Reply 200 ((fun m => (month_name m.1, m.2)) <$> monthly_totals docs).

(** *** GET /api/admin/stats (lines 967-988) *)
Definition adminStats (packages : list Destination) (hotels : list Hotel)
    (visas : list Visa) (flights : list Flight) (enquiries : list Enquiry)
  : response Stats :=
  Reply 200
    (mkStats (length packages) (length hotels) (length visas) (length flights)
       (length enquiries)).

End OtherRoutes.

Module DemoServices.

Definition services : Services := {|
  jwt_sign id := Returned ("signed.for." +:+ id);
  findOne_undefined admins := head admins;
  new_hotel data :=
    match data !! "title" with
    | Some (Json.Str (String c t)) =>
        Returned (mkHotel (String c t) (Demo.strings_of (data !! "images")) data)
    | _ => Thrown (Raised "Hotel validation failed: title: Path `title` is required.")
    end;
  new_visa data :=
    match data !! "name" with
    | Some (Json.Str (String c t)) =>
        Returned (mkVisa (String c t) (Demo.string_of (data !! "image")) data)
    | _ => Thrown (Raised "Visa validation failed: name: Path `name` is required.")
    end;
  cast_visa_update data := Returned data;
  find_flights q db :=
    Returned
      (List.filter
         (fun f =>
            match flight_fields f !! "from", flight_fields f !! "to" with
            | Some (Json.Str a), Some (Json.Str b) =>
                String.eqb a (departure_iataCode q)
                && String.eqb b (arrival_iataCode q)
            | _, _ => false
            end) db);
  distinct_prices db :=
    Returned
      (remove_dups
         (omap (fun d => match dest_fields d !! "price" with
                         | Some (Json.Num p) => Some p
                         | _ => None
                         end) db));
  (* a calendar of twelve months of thirty days *)
  month_of ms := (Z.to_nat ((ms / 2592000000) mod 12) + 1)%nat
|}.

Definition enquiry (ms : Z) : Enquiry := mkEnquiry (Some ms) ∅.

End DemoServices.

(** ** Notions the further theorems are stated with *)

(** [items.join(",")]: the text a form sends for a list of items. *)
Fixpoint comma_separated (items : list string) : string :=
  match items with
  | [] => EmptyString
  | [s] => s
  | s :: rest => s +:+ "," +:+ comma_separated rest
  end.

(** * Theorems *)

(** ** Strings *)

Lemma append_empty_r (s : string) : s +:+ EmptyString = s.
Proof. induction s as [|c s IH]; simpl; [reflexivity | now rewrite IH]. Qed.

Lemma append_assoc (a b c : string) : (a +:+ b) +:+ c = a +:+ (b +:+ c).
Proof. induction a as [|x a IH]; simpl; [reflexivity | now rewrite IH]. Qed.

Lemma length_append (a b : string) :
  String.length (a +:+ b) = (String.length a + String.length b)%nat.
Proof. induction a as [|x a IH]; simpl; [reflexivity | now rewrite IH]. Qed.

Lemma substring_all (w rest : string) :
  substring 0 (String.length w) (w +:+ rest) = w.
Proof. induction w as [|c w IH]; simpl; [now destruct rest | now rewrite IH]. Qed.

Lemma substring_consumed (w rest : string) :
  substring 0 (String.length (w +:+ rest) - String.length rest) (w +:+ rest) = w.
Proof.
  rewrite length_append.
  replace (String.length w + String.length rest - String.length rest)%nat
    with (String.length w) by lia.
  apply substring_all.
Qed.

(** ** The built-ins on examples *)

Example split_bearer : Js.split " " "Bearer abc.def" = ["Bearer"; "abc.def"].
Proof. reflexivity. Qed.

Example split_without_separator : Js.split " " "abc" = ["abc"].
Proof. reflexivity. Qed.

Example slice_inside : Js.slice [1; 2; 3; 4; 5] 1 3 = [2; 3].
Proof. reflexivity. Qed.

Example slice_past_the_end : Js.slice [1; 2; 3] 2 7 = [3].
Proof. reflexivity. Qed.

Example slice_from_the_end : Js.slice [1; 2; 3; 4; 5] 0 (-1) = [1; 2; 3; 4].
Proof. reflexivity. Qed.

Example splice_more_than_there_is :
  Js.splice0 [1; 2] 5 = ([1; 2], []).
Proof. reflexivity. Qed.

Example trim_both_sides : Js.trim "  wifi , pool  " = "wifi , pool".
Proof. reflexivity. Qed.

Example parse_array_of_strings :
  Json.parse ("[" +:+ Json.quote "u1" +:+ ", " +:+ Json.quote "u2" +:+ "]")
  = Some (Json.Arr [Json.Str "u1"; Json.Str "u2"]).
Proof. vm_compute. reflexivity. Qed.

Example parse_object :
  Json.parse ("{ " +:+ Json.quote "adult" +:+ ": 1200, "
              +:+ Json.quote "tags" +:+ ": [true, null, -2e1] }")
  = Some (Json.Obj
            (<["adult" := Json.Num 1200]>
               (<["tags" :=
                    Json.Arr [Json.Bool true; Json.Null; Json.Num (-20)]]> ∅))).
Proof. vm_compute. reflexivity. Qed.

Example parse_number_with_fraction : Json.parse "2.50" = Some (Json.Real "2.50").
Proof. vm_compute. reflexivity. Qed.

Example parse_rejects :
  Json.parse "{oops" = None /\ Json.parse "[1,]" = None /\
  Json.parse "01" = None /\ Json.parse EmptyString = None /\
  Json.parse "undefined" = None /\ Json.parse "wifi,pool" = None.
Proof. split_and!; vm_compute; reflexivity. Qed.

Example publicId_without_version :
  getPublicId "https://res.cloudinary.com/demo/image/upload/hotels/abc.png"
  = Some "hotels/abc".
Proof. reflexivity. Qed.

Example publicId_of_the_last_dot :
  getPublicId "https://host/upload/v7/destinations/a.b.webp" = Some "destinations/a.b".
Proof. reflexivity. Qed.

Example publicId_without_extension :
  getPublicId "https://host/upload/v7/destinations/abc" = None.
Proof. reflexivity. Qed.

(** ** [JSON.parse] has fuel enough *)

Module JsonFacts.
Import Json.

Lemma skip_ws_length s : (String.length (skip_ws s) <= String.length s)%nat.
Proof.
  induction s as [|c s IH]; simpl; [lia|]. destruct (is_ws c); simpl; lia.
Qed.

Lemma span_digits_length s ds rest :
  span_digits s = (ds, rest) ->
  (String.length rest + String.length ds = String.length s)%nat.
Proof.
  revert ds rest. induction s as [|c s IH]; simpl; intros ds rest.
  - intros [= <- <-]. reflexivity.
  - destruct (Regex.is_digit c).
    + destruct (span_digits s) as [ds' rest'] eqn:E. intros [= <- <-].
      simpl. specialize (IH _ _ eq_refl). lia.
    + intros [= <- <-]. simpl. lia.
Qed.

Lemma strip_length t s rest :
  Regex.strip t s = Some rest ->
  (String.length rest + String.length t = String.length s)%nat.
Proof.
  revert s. induction t as [|a t IH]; intros s; simpl.
  - intros [= ->]. lia.
  - destruct s as [|b s]; [discriminate|].
    destruct (Ascii.eqb a b); [|discriminate].
    intros Hs%IH. simpl. lia.
Qed.

Lemma string_body_length n : forall s t rest,
  (String.length s <= n)%nat ->
  string_body s = Some (t, rest) -> (String.length rest < String.length s)%nat.
Proof.
  induction n as [|n IH]; intros s t rest Hn.
  - destruct s; [discriminate | simpl in Hn; lia].
  - destruct s as [|c s]; [discriminate|]. simpl in Hn. cbn [string_body].
    destruct (Ascii.eqb c quote_char); [intros [= <- <-]; simpl; lia|].
    destruct (Ascii.eqb c backslash).
    + destruct s as [|e s]; [discriminate|]. simpl in Hn.
      destruct (escape e).
      * destruct (string_body s) as [[t' rest']|] eqn:E; [|discriminate].
        intros [= <- <-]. apply IH in E; [simpl; lia | lia].
      * destruct (Ascii.eqb e "u"); [|discriminate].
        destruct s as [|h1 [|h2 [|h3 [|h4 s]]]]; try discriminate.
        simpl in Hn.
        destruct (hex_digit h1), (hex_digit h2), (hex_digit h3), (hex_digit h4);
          try discriminate.
        destruct (string_body s) as [[t' rest']|] eqn:E; [|discriminate].
        intros [= <- <-]. apply IH in E; [simpl; lia | lia].
    + destruct (Nat.ltb _ 32); [discriminate|].
      destruct (string_body s) as [[t' rest']|] eqn:E; [|discriminate].
      intros [= <- <-]. apply IH in E; [simpl; lia | lia].
Qed.

Lemma fraction_length s fd rest :
  fraction s = Some (fd, rest) -> (String.length rest <= String.length s)%nat.
Proof.
  unfold fraction. destruct s as [|c s]; [intros [= <- <-]; lia|].
  destruct (Ascii.eqb c ".").
  - destruct (span_digits s) as [ds r] eqn:E.
    apply span_digits_length in E.
    destruct (Js.truthy_string ds); [|discriminate].
    intros [= <- <-]. simpl. lia.
  - intros [= <- <-]. lia.
Qed.

Lemma exponent_length s e rest :
  exponent s = Some (e, rest) -> (String.length rest <= String.length s)%nat.
Proof.
  unfold exponent. destruct s as [|c s]; [intros [= <- <-]; lia|].
  destruct (_ || _)%bool; [|intros [= <- <-]; lia].
  set (signed := match s with
                 | String g s'' =>
                     if Ascii.eqb g "-" then (true, s'')
                     else if Ascii.eqb g "+" then (false, s'') else (false, s)
                 | EmptyString => (false, s)
                 end).
  assert (String.length (snd signed) <= String.length s)%nat as Hs.
  { subst signed. destruct s as [|g s]; simpl; [lia|].
    destruct (Ascii.eqb g "-"); simpl; [lia|].
    destruct (Ascii.eqb g "+"); simpl; lia. }
  destruct signed as [eneg s1]. simpl in Hs.
  destruct (span_digits s1) as [ds r] eqn:E. apply span_digits_length in E.
  destruct (Js.truthy_string ds); [|discriminate].
  intros [= <- <-]. simpl. lia.
Qed.

Lemma number_length s v rest :
  number s = Some (v, rest) -> (String.length rest < String.length s)%nat.
Proof.
  unfold number.
  assert (String.length (snd (sign s)) <= String.length s)%nat as Hsign.
  { unfold sign. destruct s as [|c s]; simpl; [lia|].
    destruct (Ascii.eqb c "-"); simpl; lia. }
  destruct (sign s) as [neg s1]. simpl in Hsign.
  destruct (span_digits s1) as [ip s2] eqn:Eip.
  apply span_digits_length in Eip.
  destruct (fraction s2) as [[fd s3]|] eqn:Ef; [|discriminate].
  apply fraction_length in Ef.
  destruct (exponent s3) as [[e r]|] eqn:Ee; [|discriminate].
  apply exponent_length in Ee.
  destruct ip as [|d ip]; [discriminate|].
  destruct (int_ok _); [|discriminate].
  intros [= <- <-]. simpl in Eip. lia.
Qed.

Lemma literal_length t v s v' rest :
  t <> EmptyString ->
  literal t v s = Some (v', rest) -> (String.length rest < String.length s)%nat.
Proof.
  unfold literal. intros Ht.
  destruct (Regex.strip t s) as [r|] eqn:E; [|discriminate].
  apply strip_length in E. intros [= <- <-].
  destruct t; [done | simpl in E; lia].
Qed.

(** A value that is read with some fuel is read with any fuel that is at
    least the number of characters it takes. *)
Lemma fuel_enough n :
  (forall s v rest,
     value_at n s = Some (v, rest) ->
     (String.length rest < String.length s)%nat /\
     forall m, (String.length s - String.length rest <= m)%nat ->
               value_at m s = Some (v, rest)) /\
  (forall s acc v rest,
     members n s acc = Some (v, rest) ->
     (String.length rest < String.length s)%nat /\
     forall m, (String.length s - String.length rest <= m)%nat ->
               members m s acc = Some (v, rest)) /\
  (forall s acc v rest,
     elements n s acc = Some (v, rest) ->
     (String.length rest < String.length s)%nat /\
     forall m, (String.length s - String.length rest <= m)%nat ->
               elements m s acc = Some (v, rest)).
Proof.
  induction n as [|n (IHv & IHm & IHe)]; [split_and!; discriminate|].
  split_and!.
  - intros s v rest. cbn [value_at].
    destruct s as [|c s]; [discriminate|].
    destruct (Ascii.eqb c "{") eqn:Ec1.
    { pose proof (skip_ws_length s) as Hws.
      destruct (skip_ws s) as [|d s2] eqn:Es; [discriminate|].
      destruct (Ascii.eqb d "}") eqn:Ed.
      - intros [= <- <-]. simpl in *. split; [lia|].
        intros [|m] Hm; [lia|]. cbn [value_at]. now rewrite Ec1, Es, Ed.
      - intros [Hlt Hfuel]%IHm. simpl in *. split; [lia|].
        intros [|m] Hm; [lia|]. cbn [value_at]. rewrite Ec1, Es, Ed.
        apply Hfuel. simpl. lia. }
    destruct (Ascii.eqb c "[") eqn:Ec2.
    { pose proof (skip_ws_length s) as Hws.
      destruct (skip_ws s) as [|d s2] eqn:Es; [discriminate|].
      destruct (Ascii.eqb d "]") eqn:Ed.
      - intros [= <- <-]. simpl in *. split; [lia|].
        intros [|m] Hm; [lia|]. cbn [value_at]. now rewrite Ec1, Ec2, Es, Ed.
      - intros [Hlt Hfuel]%IHe. simpl in *. split; [lia|].
        intros [|m] Hm; [lia|]. cbn [value_at]. rewrite Ec1, Ec2, Es, Ed.
        apply Hfuel. simpl. lia. }
    destruct (Ascii.eqb c quote_char) eqn:Ec3.
    { destruct (string_body s) as [[t r]|] eqn:Eb; [|discriminate].
      intros [= <- <-].
      apply (string_body_length _ _ _ _ (Nat.le_refl _)) in Eb as Hlt.
      simpl. split; [lia|].
      intros [|m] Hm; [lia|]. cbn [value_at]. now rewrite Ec1, Ec2, Ec3, Eb. }
    assert (forall r : option (value * string),
              r = Some (v, rest) ->
              (String.length rest < String.length (String c s))%nat ->
              (forall m, value_at (S m) (String c s) = r) ->
              (String.length rest < String.length (String c s))%nat /\
              forall m,
                (String.length (String c s) - String.length rest <= m)%nat ->
                value_at m (String c s) = Some (v, rest)) as Hleaf.
    { intros r -> Hlt Hall. split; [exact Hlt|].
      intros [|m] Hm; [lia | apply Hall]. }
    destruct (Ascii.eqb c "t") eqn:Ec4.
    { intros Hl. apply (Hleaf _ Hl); [now apply literal_length in Hl|].
      intros m. cbn [value_at]. now rewrite Ec1, Ec2, Ec3, Ec4. }
    destruct (Ascii.eqb c "f") eqn:Ec5.
    { intros Hl. apply (Hleaf _ Hl); [now apply literal_length in Hl|].
      intros m. cbn [value_at]. now rewrite Ec1, Ec2, Ec3, Ec4, Ec5. }
    destruct (Ascii.eqb c "n") eqn:Ec6.
    { intros Hl. apply (Hleaf _ Hl); [now apply literal_length in Hl|].
      intros m. cbn [value_at]. now rewrite Ec1, Ec2, Ec3, Ec4, Ec5, Ec6. }
    intros Hl. apply (Hleaf _ Hl); [now apply number_length in Hl|].
    intros m. cbn [value_at]. now rewrite Ec1, Ec2, Ec3, Ec4, Ec5, Ec6.
  - intros s acc v rest. cbn [members].
    destruct s as [|c s]; [discriminate|].
    destruct (Ascii.eqb c quote_char) eqn:Ec; [|discriminate].
    destruct (string_body s) as [[key s1]|] eqn:Eb; [|discriminate].
    apply (string_body_length _ _ _ _ (Nat.le_refl _)) in Eb as Hb.
    pose proof (skip_ws_length s1) as Hw1.
    destruct (skip_ws s1) as [|colon s2] eqn:E1; [discriminate|].
    destruct (Ascii.eqb colon ":") eqn:Ecolon; [|discriminate].
    pose proof (skip_ws_length s2) as Hw2.
    destruct (value_at n (skip_ws s2)) as [[x s3]|] eqn:Ev; [|discriminate].
    apply IHv in Ev as [Hv Hvfuel].
    pose proof (skip_ws_length s3) as Hw3.
    destruct (skip_ws s3) as [|d s4] eqn:E3; [discriminate|].
    pose proof (skip_ws_length s4) as Hw4.
    destruct (Ascii.eqb d ",") eqn:Ed1.
    + intros [Hlt Hfuel]%IHm. simpl in *. split; [lia|].
      intros [|m] Hm; [lia|]. cbn [members].
      rewrite Ec, Eb, E1, Ecolon, Hvfuel by lia. rewrite E3, Ed1.
      apply Hfuel. lia.
    + destruct (Ascii.eqb d "}") eqn:Ed2; [|discriminate].
      intros [= <- <-]. simpl in *. split; [lia|].
      intros [|m] Hm; [lia|]. cbn [members].
      rewrite Ec, Eb, E1, Ecolon, Hvfuel by lia. now rewrite E3, Ed1, Ed2.
  - intros s acc v rest. cbn [elements].
    destruct (value_at n s) as [[x s1]|] eqn:Ev; [|discriminate].
    apply IHv in Ev as [Hv Hvfuel].
    pose proof (skip_ws_length s1) as Hw1.
    destruct (skip_ws s1) as [|d s2] eqn:E1; [discriminate|].
    pose proof (skip_ws_length s2) as Hw2.
    destruct (Ascii.eqb d ",") eqn:Ed1.
    + intros [Hlt Hfuel]%IHe. simpl in *. split; [lia|].
      intros [|m] Hm; [lia|]. cbn [elements].
      rewrite Hvfuel by lia. rewrite E1, Ed1. apply Hfuel. lia.
    + destruct (Ascii.eqb d "]") eqn:Ed2; [|discriminate].
      intros [= <- <-]. simpl in *. split; [lia|].
      intros [|m] Hm; [lia|]. cbn [elements].
      rewrite Hvfuel by lia. now rewrite E1, Ed1, Ed2.
Qed.

(** More fuel than [parse] gives does not change what is read: the text
    that [parse] rejects is not JSON. *)
Theorem parse_fuel (text : string) (n : nat) :
  let s := skip_ws text in
  (2 * String.length s + 2 <= n)%nat ->
  value_at n s = value_at (2 * String.length s + 2) s.
Proof.
  cbv zeta. intros Hn.
  destruct (value_at n (skip_ws text)) as [[v rest]|] eqn:E.
  - apply (proj1 (fuel_enough n)) in E as [_ Hfuel].
    symmetry. apply Hfuel. lia.
  - destruct (value_at (2 * _ + 2) (skip_ws text)) as [[v rest]|] eqn:E';
      [|reflexivity].
    apply (proj1 (fuel_enough _)) in E' as [_ Hfuel].
    rewrite Hfuel in E by lia. discriminate.
Qed.

End JsonFacts.

(** ** The matcher is sound for the relation [matches] *)

Module RegexFacts.
Import Regex.

Lemma strip_Some (t s s' : string) : strip t s = Some s' <-> s = t +:+ s'.
Proof.
  revert s; induction t as [|a t IH]; intros s; simpl.
  - split; congruence.
  - destruct s as [|b s]; [split; discriminate|].
    destruct (Ascii.eqb_spec a b) as [->|Hne].
    + rewrite IH. split; congruence.
    + split; [discriminate | intros [= ? ?]; congruence].
Qed.

Lemma strip_append (t s : string) : strip t (t +:+ s) = Some s.
Proof. now apply strip_Some. Qed.

Section Sound.
Context {R : Type}.
Implicit Types (k : @cont R) (s w rest : string) (cap : option string).

Lemma many_sound a s cap k x :
  many a s cap k = Some x ->
  exists w rest, s = w +:+ rest /\ all_ok a w = true /\ k rest cap = Some x.
Proof.
  induction s as [|c s IH]; simpl; intros Hx.
  - exists EmptyString, EmptyString. auto.
  - destruct (atom_ok a c) eqn:Hc.
    + destruct (many a s cap k) as [y|] eqn:Hm.
      * destruct (IH Hx) as (w & rest & -> & Hw & Hk).
        exists (String c w), rest. simpl. rewrite Hc, Hw. auto.
      * exists EmptyString, (String c s). auto.
    + exists EmptyString, (String c s). auto.
Qed.

Lemma run_sound r : forall s cap k x,
  run r s cap k = Some x ->
  exists w rest cap',
    s = w +:+ rest /\ matches r w rest cap cap' /\ k rest cap' = Some x.
Proof.
  induction r as [t|a|a|r1 IH1 r2 IH2|r IH|r IH|]; intros s cap k x; simpl.
  - destruct (strip t s) as [s'|] eqn:Hs; [|discriminate].
    apply strip_Some in Hs as ->. intros Hk.
    exists t, s', cap. split_and!; [reflexivity | constructor | exact Hk].
  - destruct s as [|c s]; [discriminate|].
    destruct (atom_ok a c) eqn:Hc; [|discriminate]. intros Hk.
    exists (String c EmptyString), s, cap.
    split_and!; [reflexivity | now constructor | exact Hk].
  - destruct s as [|c s]; [discriminate|].
    destruct (atom_ok a c) eqn:Hc; [|discriminate]. intros Hm.
    destruct (many_sound _ _ _ _ _ Hm) as (w & rest & -> & Hw & Hk).
    exists (String c w), rest, cap. split_and!; [reflexivity | | exact Hk].
    constructor; [discriminate | simpl; now rewrite Hc, Hw].
  - intros H1.
    destruct (IH1 _ _ _ _ H1) as (w1 & rest1 & c1 & -> & M1 & H2).
    destruct (IH2 _ _ _ _ H2) as (w2 & rest & c2 & -> & M2 & Hk).
    exists (w1 +:+ w2), rest, c2.
    split_and!; [now rewrite append_assoc | econstructor; eauto | exact Hk].
  - destruct (run r s cap k) as [y|] eqn:Hr.
    + intros [= ->].
      destruct (IH _ _ _ _ Hr) as (w & rest & c1 & -> & M & Hk).
      exists w, rest, c1.
      split_and!; [reflexivity | now apply m_maybe_yes | exact Hk].
    + intros Hk. exists EmptyString, s, cap.
      split_and!; [reflexivity | apply m_maybe_no | exact Hk].
  - intros Hr.
    destruct (IH _ _ _ _ Hr) as (w & rest & c1 & -> & M & Hk).
    rewrite substring_consumed in Hk.
    exists w, rest, (Some w).
    split_and!; [reflexivity | econstructor; eauto | exact Hk].
  - destruct s; [|discriminate]. intros Hk.
    exists EmptyString, EmptyString, cap.
    split_and!; [reflexivity | constructor | exact Hk].
Qed.

End Sound.

Lemma exec_sound r s cap :
  exec r s = Some cap ->
  exists pre w rest, s = pre +:+ w +:+ rest /\ matches r w rest None cap.
Proof.
  induction s as [|c s IH]; simpl.
  - destruct (run r EmptyString None _) as [y|] eqn:Hr; [|discriminate].
    intros [= ->].
    destruct (run_sound _ _ _ _ _ Hr) as (w & rest & c1 & E & M & [= ->]).
    exists EmptyString, w, rest. auto.
  - destruct (run r (String c s) None _) as [y|] eqn:Hr.
    + intros [= ->].
      destruct (run_sound _ _ _ _ _ Hr) as (w & rest & c1 & E & M & [= ->]).
      exists EmptyString, w, rest. auto.
    + intros Hx. destruct (IH Hx) as (pre & w & rest & -> & M).
      exists (String c pre), w, rest. auto.
Qed.

End RegexFacts.

(** ** [getPublicId] *)

Module PublicIdFacts.
Import Regex RegexFacts.

Ltac invert_matches :=
  repeat match goal with
         | M : matches (Cat _ _) _ _ _ _ |- _ => inversion M; subst; clear M
         | M : matches (Text _) _ _ _ _ |- _ => inversion M; subst; clear M
         | M : matches (One _) _ _ _ _ |- _ => inversion M; subst; clear M
         | M : matches (Many1 _) _ _ _ _ |- _ => inversion M; subst; clear M
         | M : matches (Capture _) _ _ _ _ |- _ => inversion M; subst; clear M
         | M : matches EndOfInput _ _ _ _ |- _ => inversion M; subst; clear M
         end.

Lemma atom_chr c d : atom_ok (Chr d) c = true -> c = d.
Proof. simpl. now intros ?%Ascii.eqb_eq. Qed.

(** What a match of the expression looks like. *)
Lemma publicId_shape w rest cap :
  matches publicId_regex w rest None cap ->
  exists ver id ext,
    w = "/upload/" +:+ ver +:+ id +:+ "." +:+ ext /\ rest = EmptyString /\
    cap = Some id /\ version_segment ver /\ id <> EmptyString /\
    all_ok Dot id = true /\ extension ext.
Proof.
  unfold publicId_regex, version_regex, tail_regex. intros M. invert_matches.
  match goal with M : matches (Maybe _) _ _ _ _ |- _ => inversion M; subst; clear M end.
  - invert_matches.
    repeat match goal with H : atom_ok (Chr _) _ = true |- _ =>
                             apply atom_chr in H; subst end.
    match goal with
    | Hd : all_ok Digit ?ds = true, Hi : all_ok Dot ?id = true,
      He : all_ok Word ?ext = true |- _ =>
        exists ("v" +:+ ds +:+ "/"), id, ext
    end.
    split_and!; try done.
    + rewrite !append_assoc, !append_empty_r. reflexivity.
    + right. eauto.
  - invert_matches.
    repeat match goal with H : atom_ok (Chr _) _ = true |- _ =>
                             apply atom_chr in H; subst end.
    match goal with
    | Hi : all_ok Dot ?id = true, He : all_ok Word ?ext = true |- _ =>
        exists EmptyString, id, ext
    end.
    split_and!; try done.
    + rewrite ?append_assoc, ?append_empty_r. reflexivity.
    + now left.
Qed.

Lemma split_head_query (u q : string) :
  Js.split_head "?" (u +:+ String "?" q) = Js.split_head "?" u.
Proof.
  induction u as [|c u IH]; simpl; [reflexivity|].
  destruct (Ascii.eqb c "?"); [reflexivity | now rewrite IH].
Qed.

(** *** Completeness, for a match at the first marker *)

Section Complete.
Context {R : Type}.
Implicit Types (k : @cont R) (cap : option string).

Lemma many_split a w rest cap k v :
  all_ok a w = true -> many a rest cap k = Some v ->
  many a (w +:+ rest) cap k = Some v.
Proof.
  induction w as [|c w IH]; simpl; [auto|].
  intros [Hc Hw]%andb_prop Hm. now rewrite Hc, (IH Hw Hm).
Qed.

Lemma many_none a e cap k :
  (forall t, all_ok Word t = true -> k t cap = None) ->
  all_ok Word e = true -> many a e cap k = None.
Proof.
  intros Hk. induction e as [|c e IH]; simpl; intros He.
  - now apply Hk.
  - pose proof He as [_ He']%andb_prop.
    destruct (atom_ok a c); [rewrite (IH He')|]; now apply Hk.
Qed.

Lemma many_to_end a e cap k :
  all_ok a e = true ->
  many a e cap (fun s' c' => run EndOfInput s' c' k) = k EmptyString cap.
Proof.
  induction e as [|c e IH]; cbn [many all_ok]; [reflexivity|].
  intros [Hc He]%andb_prop. rewrite Hc, (IH He).
  now destruct (k EmptyString cap).
Qed.

End Complete.

Lemma word_not_dot c : is_word c = true -> Ascii.eqb c "." = false.
Proof.
  intros Hw. destruct (Ascii.eqb_spec c "."%char) as [->|]; [|reflexivity].
  discriminate Hw.
Qed.

Lemma tail_complete {R} ext cap (k : @cont R) :
  extension ext ->
  run tail_regex ("." +:+ ext) cap k = k EmptyString cap.
Proof.
  intros [Hne Hw]. destruct ext as [|c ext]; [done|].
  unfold tail_regex. simpl in *. apply andb_prop in Hw as [Hc Hw]. rewrite Hc.
  now apply many_to_end.
Qed.

Lemma tail_fails {R} t cap (k : @cont R) :
  all_ok Word t = true -> run tail_regex t cap k = None.
Proof.
  unfold tail_regex. destruct t as [|c t]; simpl; [reflexivity|].
  intros [Hc _]%andb_prop. now rewrite (word_not_dot _ Hc).
Qed.

Lemma many1_until_dot {R} id ext cap (K : @cont R) v :
  id <> EmptyString -> all_ok Dot id = true -> all_ok Word ext = true ->
  K ("." +:+ ext) cap = Some v ->
  (forall t, all_ok Word t = true -> K t cap = None) ->
  run (Many1 Dot) (id +:+ "." +:+ ext) cap K = Some v.
Proof.
  intros Hne Hid Hext HK Hnone. destruct id as [|c id]; [done|].
  cbn [all_ok] in Hid. apply andb_prop in Hid as [Hc Hid].
  cbn [run String.append]. rewrite Hc.
  apply many_split; [exact Hid|].
  change ("." +:+ ext) with (String "." ext) in *.
  cbn [many]. change (atom_ok Dot ".") with true. cbv iota.
  now rewrite (many_none _ _ _ _ Hnone Hext).
Qed.

Lemma group_complete {R} id ext cap (k : @cont R) v :
  id <> EmptyString -> all_ok Dot id = true -> extension ext ->
  k EmptyString (Some id) = Some v ->
  run (Cat (Capture (Many1 Dot)) tail_regex) (id +:+ "." +:+ ext) cap k
  = Some v.
Proof.
  intros Hne Hid Hext Hk. cbn [run].
  apply many1_until_dot; [done | done | apply Hext | |].
  - rewrite tail_complete by done.
    now rewrite (substring_consumed id ("." +:+ ext)).
  - intros t Ht. now apply tail_fails.
Qed.

Lemma version_complete {R} ds rest cap (k : @cont R) v :
  ds <> EmptyString -> all_ok Digit ds = true ->
  k rest cap = Some v ->
  run version_regex ("v" +:+ ds +:+ "/" +:+ rest) cap k = Some v.
Proof.
  intros Hne Hds Hk. destruct ds as [|d ds]; [done|].
  unfold version_regex. simpl in *. apply andb_prop in Hds as [Hd Hds]. rewrite Hd.
  apply many_split; [exact Hds|]. exact Hk.
Qed.

Lemma exec_at_first_marker t r s pre post cap :
  find_text t s = Some (pre, post) ->
  run r post None (fun _ c => Some c) = Some cap ->
  exec (Cat (Text t) r) s = Some cap.
Proof.
  revert pre. induction s as [|c s IH]; intros pre; simpl.
  - destruct (strip t EmptyString) as [p|] eqn:Hs; [|discriminate].
    intros [= <- <-] Hr. now rewrite Hr.
  - destruct (strip t (String c s)) as [p|] eqn:Hs.
    + intros [= <- <-] Hr. now rewrite Hr.
    + destruct (find_text t s) as [[pre' post']|] eqn:Hf; [|discriminate].
      intros [= <- <-] Hr. eapply IH; eauto.
Qed.

Lemma getPublicId_at_first_marker url pre ver id ext :
  find_text "/upload/" (Js.split_head "?" url)
    = Some (pre, ver +:+ id +:+ "." +:+ ext) ->
  version_segment ver -> (ver = EmptyString -> begins_with_v id = false) ->
  id <> EmptyString -> all_ok Dot id = true -> extension ext ->
  getPublicId url = Some id.
Proof.
  intros Hf Hver Hv Hne Hid Hext. unfold getPublicId, publicId_regex.
  cbv zeta.
  erewrite (exec_at_first_marker _ _ _ _ _ (Some id) Hf); [reflexivity|].
  cbn [run]. destruct Hver as [->|(ds & Hds & Hall & ->)].
  - specialize (Hv eq_refl). destruct id as [|c id]; [done|].
    simpl in Hv. cbn [String.append]. unfold version_regex at 1.
    cbn [run atom_ok]. rewrite Hv.
    now apply (group_complete (String c id)).
  - rewrite !append_assoc.
    erewrite version_complete; [reflexivity | done | done |].
    now apply group_complete.
Qed.

End PublicIdFacts.

Lemma getPublicId_without_marker url :
  (forall pre post, Js.split_head "?" url <> pre +:+ "/upload/" +:+ post) ->
  getPublicId url = None.
Proof.
  intros Hno. unfold getPublicId. cbv zeta.
  destruct (Regex.exec publicId_regex (Js.split_head "?" url))
    as [[id|]|] eqn:He; [|reflexivity..].
  apply RegexFacts.exec_sound in He as (pre & w & rest & E & M).
  apply PublicIdFacts.publicId_shape in M
    as (ver & id' & ext & -> & -> & _).
  exfalso. apply (Hno pre (ver +:+ id' +:+ "." +:+ ext)).
  now rewrite E, append_empty_r.
Qed.

Lemma getPublicId_sound url id :
  getPublicId url = Some id ->
  exists pre ver ext,
    Js.split_head "?" url = pre +:+ "/upload/" +:+ ver +:+ id +:+ "." +:+ ext
    /\ version_segment ver /\ id <> EmptyString
    /\ Regex.all_ok Regex.Dot id = true /\ extension ext.
Proof.
  unfold getPublicId. cbv zeta.
  destruct (Regex.exec publicId_regex (Js.split_head "?" url))
    as [m|] eqn:He; [|discriminate].
  intros ->.
  apply RegexFacts.exec_sound in He as (pre & w & rest & E & M).
  apply PublicIdFacts.publicId_shape in M
    as (ver & id' & ext & -> & -> & [= <-] & Hv & Hne & Hd & Hx).
  exists pre, ver, ext. split_and!; try done.
  now rewrite E, append_empty_r.
Qed.

(** *** The match the expression finds: the leftmost, with the version
    segment when there is one *)

Module PublicIdLeftmost.
Import Regex RegexFacts PublicIdFacts.

Lemma word_without_dot x y : all_ok Word (x +:+ "." +:+ y) = false.
Proof.
  change ("." +:+ y) with (String "." y).
  induction x as [|c x IH]; [reflexivity|]. cbn [String.append all_ok].
  rewrite IH. apply andb_false_r.
Qed.

Lemma last_dot_unique a a' e e' :
  a +:+ "." +:+ e = a' +:+ "." +:+ e' ->
  all_ok Word e = true -> all_ok Word e' = true -> a = a' /\ e = e'.
Proof.
  revert a'. induction a as [|c a IH]; intros [|c' a'] E He He';
    cbn [String.append] in E; simplify_eq.
  - done.
  - pose proof (word_without_dot a' e') as Hw.
    change ("." +:+ e') with (String "." e') in Hw. congruence.
  - pose proof (word_without_dot a e) as Hw.
    change ("." +:+ e) with (String "." e) in Hw. congruence.
  - match goal with E : _ +:+ _ = _ +:+ _ |- _ =>
      destruct (IH _ E He He') as [-> ->] end.
    done.
Qed.

Lemma group_shape w rest c0 c1 :
  matches (Cat (Capture (Many1 Dot)) tail_regex) w rest c0 c1 ->
  exists id ext,
    w = id +:+ "." +:+ ext /\ rest = EmptyString /\ c1 = Some id /\
    id <> EmptyString /\ all_ok Dot id = true /\ extension ext.
Proof.
  unfold tail_regex. intros M. invert_matches.
  repeat match goal with H : atom_ok (Chr _) _ = true |- _ =>
                           apply atom_chr in H; subst end.
  match goal with
  | Hi : all_ok Dot ?id = true, He : all_ok Word ?ext = true |- _ =>
      exists id, ext
  end.
  split_and!; try done. now rewrite ?append_assoc, ?append_empty_r.
Qed.

Lemma version_shape w rest c0 c1 :
  matches version_regex w rest c0 c1 ->
  exists ds,
    ds <> EmptyString /\ all_ok Digit ds = true /\
    w = "v" +:+ ds +:+ "/" /\ c1 = c0.
Proof.
  unfold version_regex. intros M. invert_matches.
  repeat match goal with H : atom_ok (Chr _) _ = true |- _ =>
                           apply atom_chr in H; subst end.
  match goal with
  | Hd : all_ok Digit ?ds = true |- _ => exists ds
  end.
  split_and!; done.
Qed.

(** The version segment is not taken when the identifier only looks
    like one. *)
Lemma version_not_taken {R} id ext cap (k : @cont R) :
  all_ok Word ext = true -> ~ begins_with_version id ->
  run version_regex (id +:+ "." +:+ ext) cap
    (fun s' cap' => run (Cat (Capture (Many1 Dot)) tail_regex) s' cap' k)
  = None.
Proof.
  intros Hext Hnot.
  destruct (run version_regex _ cap _) as [x|] eqn:Hrun; [|reflexivity].
  exfalso. apply run_sound in Hrun as (w & rest & c1 & E & M & Hk).
  apply version_shape in M as (ds & Hne & Hds & -> & ->).
  apply run_sound in Hk as (w2 & rest2 & c2 & -> & M2 & _).
  apply group_shape in M2 as (id' & ext' & -> & -> & _ & Hid' & _ & _ & Hext').
  rewrite append_empty_r in E.
  replace (("v" +:+ ds +:+ "/") +:+ id' +:+ "." +:+ ext')
    with (("v" +:+ ds +:+ "/" +:+ id') +:+ "." +:+ ext') in E
    by (now rewrite !append_assoc).
  apply last_dot_unique in E as [-> _]; [|done..].
  apply Hnot. exists ds, id'. done.
Qed.

Lemma run_publicId {R} s (k : @cont R) :
  run publicId_regex ("/upload/" +:+ s) None k
  = match run version_regex s None
            (fun s' cap' => run (Cat (Capture (Many1 Dot)) tail_regex) s' cap' k)
    with
    | Some x => Some x
    | None => run (Cat (Capture (Many1 Dot)) tail_regex) s None k
    end.
Proof.
  transitivity
    (match strip "/upload/" ("/upload/" +:+ s) with
     | Some s' =>
         match run version_regex s' None
                 (fun s'' cap' =>
                    run (Cat (Capture (Many1 Dot)) tail_regex) s'' cap' k)
         with
         | Some x => Some x
         | None => run (Cat (Capture (Many1 Dot)) tail_regex) s' None k
         end
     | None => None
     end); [reflexivity | now rewrite strip_append].
Qed.

(** The expression at a marker. *)
Lemma run_at_marker ver id ext :
  version_segment ver -> id <> EmptyString -> all_ok Dot id = true ->
  extension ext -> (ver = EmptyString -> ~ begins_with_version id) ->
  run publicId_regex ("/upload/" +:+ ver +:+ id +:+ "." +:+ ext) None
    (fun _ c => Some c)
  = Some (Some id).
Proof.
  intros Hver Hne Hid Hext Hnot. rewrite run_publicId.
  destruct Hver as [->|(ds & Hds & Hall & ->)].
  - change (EmptyString +:+ id +:+ "." +:+ ext) with (id +:+ "." +:+ ext).
    rewrite version_not_taken; [| apply Hext | now apply Hnot].
    now apply group_complete.
  - rewrite !append_assoc.
    erewrite version_complete; [reflexivity | done | done |].
    now apply group_complete.
Qed.

Lemma run_at_marker_defined ver id ext :
  version_segment ver -> id <> EmptyString -> all_ok Dot id = true ->
  extension ext ->
  exists cap,
    run publicId_regex ("/upload/" +:+ ver +:+ id +:+ "." +:+ ext) None
      (fun _ c => Some c)
    = Some cap.
Proof.
  intros Hver Hne Hid Hext. rewrite run_publicId.
  destruct Hver as [->|(ds & Hds & Hall & ->)].
  - change (EmptyString +:+ id +:+ "." +:+ ext) with (id +:+ "." +:+ ext).
    destruct (run version_regex _ _ _); [eauto|].
    eexists. now apply group_complete.
  - rewrite !append_assoc. eexists.
    erewrite version_complete; [reflexivity | done | done |].
    now apply group_complete.
Qed.

Lemma exec_unfold r s :
  exec r s
  = match run r s None (fun _ cap => Some cap) with
    | Some cap => Some cap
    | None =>
        match s with
        | String _ s' => exec r s'
        | EmptyString => None
        end
    end.
Proof. now destruct s. Qed.

(** [exec] answers the match at the leftmost position that has one. *)
Lemma exec_leftmost r pre s cap :
  (forall a b, pre = a +:+ b -> b <> EmptyString ->
               run r (b +:+ s) None (fun _ c => Some c) = None) ->
  run r s None (fun _ c => Some c) = Some cap ->
  exec r (pre +:+ s) = Some cap.
Proof.
  induction pre as [|c pre IH]; intros Hnone Hrun.
  - cbn [String.append]. now rewrite exec_unfold, Hrun.
  - rewrite exec_unfold.
    rewrite (Hnone EmptyString (String c pre) eq_refl) by discriminate.
    cbn [String.append]. apply IH; [|exact Hrun].
    intros a b -> Hb. now apply (Hnone (String c a) b).
Qed.

Lemma exec_defined r pre s cap :
  run r s None (fun _ c => Some c) = Some cap ->
  exists cap', exec r (pre +:+ s) = Some cap'.
Proof.
  intros Hrun. induction pre as [|c pre IH].
  - cbn [String.append]. rewrite exec_unfold, Hrun. eauto.
  - rewrite exec_unfold. cbn [String.append].
    destruct (run r (String c (pre +:+ s)) None _); [eauto | exact IH].
Qed.

Lemma getPublicId_defined url pre ver id ext :
  segment_at (Js.split_head "?" url) pre ver id ext ->
  exists id', getPublicId url = Some id'.
Proof.
  intros (E & Hver & Hne & Hid & Hext). unfold getPublicId. cbv zeta.
  destruct (run_at_marker_defined ver id ext Hver Hne Hid Hext) as [cap Hrun].
  destruct (exec_defined _ pre _ _ Hrun) as [cap' Hexec].
  rewrite E, Hexec.
  apply exec_sound in Hexec as (pre' & w & rest & _ & M).
  apply publicId_shape in M as (_ & id' & _ & _ & _ & -> & _). eauto.
Qed.

Lemma getPublicId_leftmost url pre ver id ext :
  segment_at (Js.split_head "?" url) pre ver id ext ->
  (forall pre' ver' id' ext',
     segment_at (Js.split_head "?" url) pre' ver' id' ext' ->
     (String.length pre <= String.length pre')%nat) ->
  (ver = EmptyString -> ~ begins_with_version id) ->
  getPublicId url = Some id.
Proof.
  intros (E & Hver & Hne & Hid & Hext) Hleft Hnot.
  unfold getPublicId. cbv zeta. rewrite E.
  rewrite (exec_leftmost publicId_regex pre _ (Some id)); [reflexivity | |].
  - intros a b -> Hb.
    destruct (run publicId_regex _ None _) as [cap|] eqn:Hrun; [|reflexivity].
    exfalso. apply run_sound in Hrun as (w & rest & c1 & E' & M & _).
    apply publicId_shape in M
      as (ver' & id' & ext' & -> & -> & _ & Hver' & Hne' & Hid' & Hext').
    assert (String.length (a +:+ b) <= String.length a)%nat as Hlen.
    { apply (Hleft a ver' id' ext'). split_and!; try done.
      rewrite E, append_assoc, E', append_empty_r. reflexivity. }
    rewrite length_append in Hlen. destruct b; [done | simpl in Hlen; lia].
  - now apply run_at_marker.
Qed.

(** [exec] answers at the first position where the expression matches. *)
Lemma exec_position r s cap :
  exec r s = Some cap ->
  exists pre rest,
    s = pre +:+ rest /\
    run r rest None (fun _ c => Some c) = Some cap /\
    forall a b, pre = a +:+ b -> b <> EmptyString ->
                run r (b +:+ rest) None (fun _ c => Some c) = None.
Proof.
  induction s as [|c s IH]; rewrite exec_unfold.
  - destruct (run r EmptyString None _) as [y|] eqn:Hr; [|discriminate].
    intros [= ->]. exists EmptyString, EmptyString.
    split_and!; [reflexivity | exact Hr |].
    intros [|? a] b E Hb; [|discriminate E]. cbn in E. now subst b.
  - destruct (run r (String c s) None _) as [y|] eqn:Hr.
    + intros [= ->]. exists EmptyString, (String c s).
      split_and!; [reflexivity | exact Hr |].
      intros [|? a] b E Hb; [|discriminate E]. cbn in E. now subst b.
    + intros Hx. destruct (IH Hx) as (pre & rest & -> & Hrun & Hnone).
      exists (String c pre), rest. split_and!; [reflexivity | exact Hrun |].
      intros [|c' a] b E Hb; cbn [String.append] in E.
      * subst b. exact Hr.
      * injection E as _ E. now apply (Hnone a b).
Qed.

Lemma shorter_prefix (p p' x x' : string) :
  p +:+ x = p' +:+ x' -> (String.length p' < String.length p)%nat ->
  exists b, b <> EmptyString /\ p = p' +:+ b /\ x' = b +:+ x.
Proof.
  revert p. induction p' as [|c p' IH]; intros p E Hlen.
  - cbn [String.append] in E. exists p. split_and!; [|reflexivity|now symmetry].
    intros ->. simpl in Hlen. lia.
  - destruct p as [|d p]; [simpl in Hlen; lia|].
    cbn [String.append] in E. injection E as -> E.
    destruct (IH p E) as (b & Hb & -> & ->); [simpl in Hlen; lia|].
    exists b. done.
Qed.

Lemma all_ok_append a u v :
  all_ok a (u +:+ v) = (all_ok a u && all_ok a v)%bool.
Proof.
  induction u as [|c u IH]; [reflexivity|]. cbn [String.append all_ok].
  now rewrite IH, andb_assoc.
Qed.

(** The identifier returned is the one of the leftmost segment, without
    its version. *)
Lemma getPublicId_is_leftmost url id :
  getPublicId url = Some id ->
  exists pre ver ext,
    segment_at (Js.split_head "?" url) pre ver id ext /\
    (forall pre' ver' id' ext',
       segment_at (Js.split_head "?" url) pre' ver' id' ext' ->
       (String.length pre <= String.length pre')%nat) /\
    (ver = EmptyString -> ~ begins_with_version id).
Proof.
  unfold getPublicId. cbv zeta.
  destruct (exec publicId_regex (Js.split_head "?" url)) as [m|] eqn:He;
    [|discriminate].
  intros ->. apply exec_position in He as (pre & rest & E & Hrun & Hnone).
  destruct (run_sound _ _ _ _ _ Hrun) as (w & rest' & c1 & -> & M & [= ->]).
  apply publicId_shape in M
    as (ver & id' & ext & -> & -> & [= <-] & Hv & Hne & Hd & Hx).
  rewrite append_empty_r in *.
  exists pre, ver, ext. split_and!.
  - now split_and!.
  - intros pre' ver' id' ext' (E' & Hv' & Hne' & Hd' & Hx').
    destruct (le_lt_dec (String.length pre) (String.length pre'))
      as [Hle|Hlt]; [exact Hle|].
    exfalso. rewrite E in E'.
    destruct (shorter_prefix _ _ _ _ E' Hlt) as (b & Hb & -> & Eb).
    specialize (Hnone pre' b eq_refl Hb). rewrite <- Eb in Hnone.
    destruct (run_at_marker_defined ver' id' ext' Hv' Hne' Hd' Hx')
      as [cap Hcap].
    congruence.
  - intros -> (ds & tl & Hds & Hall & Htl & ->).
    cbn [String.append] in Hrun.
    assert (all_ok Dot tl = true) as Hdt.
    { rewrite !all_ok_append in Hd.
      repeat (apply andb_prop in Hd as [_ Hd]). exact Hd. }
    pose proof (run_at_marker ("v" +:+ ds +:+ "/") tl ext) as Hrun'.
    rewrite !append_assoc in Hrun'.
    rewrite !append_assoc in Hrun.
    cbn [String.append] in Hrun, Hrun'.
    rewrite Hrun' in Hrun.
    + injection Hrun as Hrun. apply (f_equal String.length) in Hrun.
      cbn [String.length] in Hrun. rewrite !length_append in Hrun.
      simpl in Hrun. lia.
    + right. exists ds. done.
    + exact Htl.
    + exact Hdt.
    + exact Hx.
    + intros Hempty. destruct ds; discriminate Hempty.
Qed.

End PublicIdLeftmost.

(** The first occurrence of the marker is the leftmost one. *)
Lemma first_marker_leftmost t s pre post pre' post' :
  Regex.find_text t s = Some (pre, post) -> s = pre' +:+ t +:+ post' ->
  (String.length pre <= String.length pre')%nat.
Proof.
  revert pre pre'. induction s as [|c s IH]; intros pre pre'; cbn [Regex.find_text].
  - destruct (Regex.strip t EmptyString); [|discriminate].
    intros [= <- _] _. simpl. lia.
  - destruct (Regex.strip t (String c s)) as [p|] eqn:Hs.
    + intros [= <- _] _. simpl. lia.
    + destruct (Regex.find_text t s) as [[p q]|] eqn:Hf; [|discriminate].
      intros [= <- <-] E. destruct pre' as [|c' pre'].
      * cbn [String.append] in E. rewrite E, RegexFacts.strip_append in Hs.
        discriminate.
      * cbn [String.append] in E. injection E as _ E.
        specialize (IH _ _ eq_refl E). simpl. lia.
Qed.

(** C4. Identifier extraction works on the URL without its query
    parameters. An identifier it returns is the text between an
    [/upload/] marker, or the version segment [vNNN/] that follows the
    marker, and the final file name extension: the one at the leftmost
    marker that is followed by such a text, after its version segment
    when it has one. Whenever the URL has a marker followed by such a
    text, an identifier is returned, and it is this one. The URL of the
    specification yields [destinations/abc123]; a URL without the
    marker yields no identifier. *)
Theorem getPublicId_extracts :
  (forall u q, getPublicId (u +:+ String "?" q) = getPublicId u) /\
  (forall url id,
     getPublicId url = Some id ->
     exists pre ver ext,
       segment_at (Js.split_head "?" url) pre ver id ext /\
       (forall pre' ver' id' ext',
          segment_at (Js.split_head "?" url) pre' ver' id' ext' ->
          (String.length pre <= String.length pre')%nat) /\
       (ver = EmptyString -> ~ begins_with_version id)) /\
  (forall url pre ver id ext,
     segment_at (Js.split_head "?" url) pre ver id ext ->
     exists id', getPublicId url = Some id') /\
  (forall url pre ver id ext,
     segment_at (Js.split_head "?" url) pre ver id ext ->
     (forall pre' ver' id' ext',
        segment_at (Js.split_head "?" url) pre' ver' id' ext' ->
        (String.length pre <= String.length pre')%nat) ->
     (ver = EmptyString -> ~ begins_with_version id) ->
     getPublicId url = Some id) /\
  getPublicId "https://host/upload/v123/destinations/abc123.jpg?x=1"
    = Some "destinations/abc123" /\
  (forall url,
     (forall pre post,
        Js.split_head "?" url <> pre +:+ "/upload/" +:+ post) ->
     getPublicId url = None).
Proof.
  split_and!.
  - intros u q. unfold getPublicId.
    now rewrite PublicIdFacts.split_head_query.
  - apply PublicIdLeftmost.getPublicId_is_leftmost.
  - apply PublicIdLeftmost.getPublicId_defined.
  - apply PublicIdLeftmost.getPublicId_leftmost.
  - reflexivity.
  - apply getPublicId_without_marker.
Qed.

(** The URL of the specification, and a URL without version whose
    identifier begins with [v]: both through the fourth part of the
    theorem. *)
Lemma getPublicId_extracts_witness :
  getPublicId "https://host/upload/v123/destinations/abc123.jpg?x=1"
    = Some "destinations/abc123" /\
  getPublicId "https://host/upload/visas/abc.jpg" = Some "visas/abc".
Proof.
  split.
  - apply (proj1 (proj2 (proj2 (proj2 getPublicId_extracts)))
             "https://host/upload/v123/destinations/abc123.jpg?x=1"
             "https://host" "v123/" "destinations/abc123" "jpg").
    + split_and!; [reflexivity | | discriminate | reflexivity
                   | split; [discriminate | reflexivity]].
      right. exists "123". split_and!; [discriminate | reflexivity..].
    + intros pre' ver' id' ext' [E _].
      apply (first_marker_leftmost "/upload/"
               (Js.split_head "?"
                  "https://host/upload/v123/destinations/abc123.jpg?x=1")
               "https://host" "v123/destinations/abc123.jpg" pre' _ eq_refl E).
    + discriminate.
  - apply (proj1 (proj2 (proj2 (proj2 getPublicId_extracts)))
             "https://host/upload/visas/abc.jpg"
             "https://host" EmptyString "visas/abc" "jpg").
    + split_and!; [reflexivity | now left | discriminate | reflexivity
                   | split; [discriminate | reflexivity]].
    + intros pre' ver' id' ext' [E _].
      apply (first_marker_leftmost "/upload/"
               (Js.split_head "?" "https://host/upload/visas/abc.jpg")
               "https://host" "visas/abc.jpg" pre' _ eq_refl E).
    + intros _ (ds & rest & Hne & Hds & _ & E).
      destruct ds as [|d ds]; [done|]. cbn in E. injection E as <- _.
      discriminate Hds.
Defined.

(** ** Collections *)

Section CollectionFacts.
Context {D : Type} (key : D -> string).

Lemma findById_key id docs d : findById key id docs = Some d -> key d = id.
Proof.
  unfold findById. intros Hf. apply List.find_some in Hf as [_ Hk].
  now apply String.eqb_eq.
Qed.

Lemma findById_put id d' docs d :
  findById key id docs = Some d -> key d' = id ->
  findById key id (put key id d' docs) = Some d'.
Proof.
  unfold findById. intros Hf Hk.
  induction docs as [|x docs IH]; simpl in *; [discriminate|].
  destruct (String.eqb (key x) id) eqn:Hx; simpl.
  - now rewrite Hk, String.eqb_refl.
  - rewrite Hx. auto.
Qed.

Lemma findById_deleted id docs :
  NoDup (key <$> docs) -> findById key id (findByIdAndDelete key id docs) = None.
Proof.
  unfold findById. induction docs as [|x docs IH]; simpl; [reflexivity|].
  intros [Hx Hnd]%NoDup_cons. destruct (String.eqb (key x) id) eqn:E; simpl.
  - apply String.eqb_eq in E.
    destruct (List.find _ docs) as [d|] eqn:Hf; [|reflexivity].
    apply List.find_some in Hf as [Hin Hk%String.eqb_eq].
    exfalso. apply Hx. rewrite E, <- Hk.
    apply list_elem_of_fmap. exists d.
    split; [reflexivity | now apply list_elem_of_In].
  - rewrite E. auto.
Qed.

End CollectionFacts.

(** ** Change of password *)

Section ChangePasswordFacts.
Context `{Platform}.

(** C8. The change of password succeeds only with a valid session token
    and an old password equal to the stored one, and then the stored
    password is the new one, as sent; with a valid token of a stored
    administrator, the right old password and a new password that is not
    empty it does succeed; without a valid token, or with another old
    password, the stored administrators are unchanged and the response
    is an error. *)
Theorem changePassword_spec (req : ChangePassword) (admins : list Admin) :
  let out := changePassword req admins in
  (status_of (reply out) = 200%nat ->
   exists id admin new,
     session_of req = Some id /\
     findById admin_id id admins = Some admin /\
     oldPassword req = Some (password admin) /\
     newPassword req = Some new /\
     stored out
       = put admin_id id (mkAdmin (admin_id admin) (username admin) new) admins /\
     password <$> findById admin_id id (stored out) = Some new) /\
  (forall id admin new,
     session_of req = Some id ->
     findById admin_id id admins = Some admin ->
     oldPassword req = Some (password admin) ->
     newPassword req = Some new -> new <> EmptyString ->
     reply out = Reply 200 "Password changed successfully" /\
     password <$> findById admin_id id (stored out) = Some new) /\
  (session_of req = None \/
   (exists id admin,
      session_of req = Some id /\ findById admin_id id admins = Some admin /\
      oldPassword req <> Some (password admin)) ->
   stored out = admins /\ is_error (reply out)).
Proof.
  cbv zeta. unfold changePassword, session_of.
  destruct (bearer_token (authorization req)) as [[|c t]|];
    try (split_and!;
         [ discriminate
         | intros ? ? ? [=]
         | intros _; split; [reflexivity | eexists _, _; split; [reflexivity|lia]]]).
  destruct (jwt_verify (String c t)) as [id|e];
    [|split_and!;
      [ discriminate
      | intros ? ? ? [=]
      | intros _; split; [reflexivity | eexists _, _; split; [reflexivity|lia]]]].
  destruct (findById admin_id id admins) as [admin|] eqn:Hfind.
  2:{ split_and!.
      - discriminate.
      - intros ? ? ? [= <-] ?. congruence.
      - intros _. split; [reflexivity | eexists _, _; split; [reflexivity|lia]]. }
  case_bool_decide as Hold; simpl.
  2:{ split_and!.
      - discriminate.
      - intros ? ? ? [= <-] ? Ho. congruence.
      - intros _. split; [reflexivity | eexists _, _; split; [reflexivity|lia]]. }
  destruct (newPassword req) as [[|d n]|] eqn:Hnew.
  - split_and!.
    + discriminate.
    + intros ? ? ? _ _ _ [= <-]. done.
    + intros [[=]|(id' & admin' & [= <-] & ? & Hne)]. congruence.
  - split_and!.
    + intros _. exists id, admin, (String d n).
      split_and!; try done.
      simpl. erewrite findById_put; [reflexivity | exact Hfind |].
      simpl. eapply findById_key, Hfind.
    + intros ? ? ? [= <-] ? _ [= <-] _. split; [reflexivity|].
      simpl. erewrite findById_put; [reflexivity | exact Hfind |].
      simpl. eapply findById_key, Hfind.
    + intros [[=]|(id' & admin' & [= <-] & ? & Hne)]. congruence.
  - split_and!.
    + discriminate.
    + intros ? ? ? _ _ _ [=].
    + intros [[=]|(id' & admin' & [= <-] & ? & Hne)]. congruence.
Qed.

End ChangePasswordFacts.

(** A change of password that succeeds, on the sample platform. *)
Lemma changePassword_spec_witness :
  let req :=
    mkChangePassword (Some "Bearer signed.for.admin-1") (Some "secret")
      (Some "s3cret") in
  reply (changePassword (H := Demo.platform) req [Sample.admin])
    = Reply 200 "Password changed successfully" /\
  password <$>
    findById admin_id "admin-1"
      (stored (changePassword (H := Demo.platform) req [Sample.admin]))
    = Some "s3cret".
Proof.
  cbv zeta.
  apply (proj1 (proj2 (changePassword_spec (H := Demo.platform)
                         (mkChangePassword (Some "Bearer signed.for.admin-1")
                            (Some "secret") (Some "s3cret"))
                         [Sample.admin]))
           "admin-1" Sample.admin "s3cret");
    [reflexivity | reflexivity | reflexivity | reflexivity | discriminate].
Defined.

(** ** Package search *)

Section SearchFacts.
Context `{Platform}.

(** C9. A package search without a title, or with an empty one, answers
    the empty array at once: the store is not queried, whatever the
    price range and the number of days sent. *)
Theorem packageSearch_without_title (q : SearchQuery) (db : list Destination) :
  Js.truthy (title q) = false ->
  packageSearch q db = (Reply 200 [], []).
Proof.
  unfold packageSearch. now destruct (title q) as [[|c t]|].
Qed.

(** C6. When the filter narrowed by price range and days finds nothing,
    the search queries the store again with the title alone, matched
    without regard to case, and answers what that finds. *)
Theorem packageSearch_falls_back (q : SearchQuery) (db : list Destination)
    (t : string) (results : list Destination) :
  title q = Some t -> t <> EmptyString ->
  find_destinations (search_filter q t) db = Returned [] ->
  find_destinations (title_only t) db = Returned results ->
  packageSearch q db
    = (Reply 200 results, [search_filter q t; title_only t]).
Proof.
  intros Ht Hne Hnarrow Htitle. unfold packageSearch. rewrite Ht.
  destruct t as [|c t]; [done|]. now rewrite Hnarrow, Htitle.
Qed.

End SearchFacts.

Lemma packageSearch_without_title_witness :
  packageSearch (H := Demo.platform)
    (mkSearchQuery (Some EmptyString) (Some "1000") (Some "2000") (Some "4"))
    [Sample.goa; Sample.kerala]
  = (Reply 200 [], []).
Proof.
  apply (packageSearch_without_title (H := Demo.platform)). reflexivity.
Defined.

(** The scenario of the specification: no package named Goa costs
    between 1000 and 2000, the search answers the packages named Goa. *)
Lemma packageSearch_falls_back_witness :
  packageSearch (H := Demo.platform)
    (mkSearchQuery (Some "goa") (Some "1000") (Some "2000") None)
    [Sample.goa; Sample.kerala]
  = (Reply 200 [Sample.goa],
     [mkFilter "goa" (Some (Some 1000, Some 2000)) None; title_only "goa"]).
Proof.
  apply (packageSearch_falls_back (H := Demo.platform)
           (mkSearchQuery (Some "goa") (Some "1000") (Some "2000") None)
           [Sample.goa; Sample.kerala] "goa" [Sample.goa]);
    [reflexivity | discriminate | vm_compute; reflexivity
    | vm_compute; reflexivity].
Defined.

(** ** Deletion of an entity *)

Section DeleteFacts.
Context `{Platform}.

Lemma promise_all_resolved ids :
  Forall resolves ids -> exists r, promise_all (destroy <$> ids) = Resolved r.
Proof.
  induction 1 as [|id ids [r Hr] _ IH]; simpl; [eauto|]. now rewrite Hr.
Qed.

Lemma promise_all_rejected ids :
  Exists rejects ids -> exists r, promise_all (destroy <$> ids) = Rejected r.
Proof.
  induction 1 as [id ids [r Hr]|id ids _ IH]; simpl.
  - rewrite Hr. eauto.
  - destruct (destroy id); eauto.
Qed.

Lemma destroy_then_remove_spec {D} (key : D -> string) id ids done docs :
  let out := destroy_then_remove key id ids done docs in
  destroyed out = ids /\
  (Forall resolves ids ->
   reply out = Reply 200 done /\ stored out = findByIdAndDelete key id docs) /\
  (Exists rejects ids -> status_of (reply out) = 500%nat /\ stored out = docs).
Proof.
  cbv zeta. unfold destroy_then_remove. split_and!.
  - now destruct (promise_all _).
  - intros [r ->]%promise_all_resolved. auto.
  - intros [r ->]%promise_all_rejected. auto.
Qed.

(** C3, as the code has it. A delete operation asks the asset host to
    delete every identifier it extracted, then removes the record: when
    all these deletions resolve, and so when there is none because no
    identifier could be extracted, the record is removed and success is
    reported; when one of them is rejected the record is not removed and
    the response has status 500. *)
Theorem delete_waits_for_remote_deletions :
  (forall id db pkg,
     findById dest_id id db = Some pkg ->
     let ids := filter_Boolean (package_publicIds pkg) in
     let out := deletePackage id db in
     destroyed out = ids /\
     (Forall resolves ids ->
      reply out = Reply 200 "Package and images deleted" /\
      stored out = findByIdAndDelete dest_id id db) /\
     (Exists rejects ids -> status_of (reply out) = 500%nat /\ stored out = db)) /\
  (forall id db hotel,
     findById hotel_id id db = Some hotel ->
     let ids := filter_Boolean (getPublicId <$> hotel_images hotel) in
     let out := deleteHotel id db in
     destroyed out = ids /\
     (Forall resolves ids ->
      reply out = Reply 200 "Hotel and images deleted" /\
      stored out = findByIdAndDelete hotel_id id db) /\
     (Exists rejects ids -> status_of (reply out) = 500%nat /\ stored out = db)) /\
  (forall id db v,
     findById visa_id id db = Some v ->
     let ids := single_publicId (image v) in
     let out := deleteVisa id db in
     destroyed out = ids /\
     (Forall resolves ids ->
      reply out = Reply 200 "Visa deleted successfully" /\
      stored out = findByIdAndDelete visa_id id db) /\
     (Exists rejects ids -> status_of (reply out) = 500%nat /\ stored out = db)) /\
  (forall id db flight,
     findById flight_id id db = Some flight ->
     let ids := single_publicId (logo flight) in
     let out := deleteFlight id db in
     destroyed out = ids /\
     (Forall resolves ids ->
      reply out = Reply 200 "Flight deleted successfully" /\
      stored out = findByIdAndDelete flight_id id db) /\
     (Exists rejects ids -> status_of (reply out) = 500%nat /\ stored out = db)).
Proof.
  split_and!; intros id db d Hfind; cbv zeta;
    unfold deletePackage, deleteHotel, deleteVisa, deleteFlight;
    rewrite Hfind; apply destroy_then_remove_spec.
Qed.

End DeleteFacts.

(** The deletion of a package whose images are all deleted remotely. *)
Lemma delete_waits_for_remote_deletions_witness :
  reply (deletePackage (H := Demo.platform) "p1" [Sample.goa; Sample.kerala])
    = Reply 200 "Package and images deleted" /\
  stored (deletePackage (H := Demo.platform) "p1" [Sample.goa; Sample.kerala])
    = [Sample.kerala].
Proof.
  apply (proj1 (proj2 (proj1 (delete_waits_for_remote_deletions
                                (H := Demo.platform))
                         "p1" [Sample.goa; Sample.kerala] Sample.goa eq_refl))).
  assert (E : filter_Boolean (package_publicIds Sample.goa)
              = ["destinations/cover"; "destinations/beach";
                 "destinations/fort"; "destinations/kayak"])
    by (vm_compute; reflexivity).
  cbv zeta. rewrite E.
  repeat (apply Forall_cons; split; [eexists; vm_compute; reflexivity|]).
  constructor.
Defined.

(** C3, as stated, fails: the asset host rejects the deletion of the
    image of a visa; the visa is still stored and the response is an
    error. *)
Lemma delete_fail_open_counterexample :
  let out := deleteVisa (H := Demo.platform) "v1" [Sample.visa] in
  destroyed out = ["destinations/offline"] /\
  destroy (Platform := Demo.platform) "destinations/offline"
    = Rejected "Request Timeout" /\
  findById visa_id "v1" (stored out) = Some Sample.visa /\
  reply out = Refusal 500 (MessageOf (Raised "Request Timeout")).
Proof. cbv zeta. split_and!; vm_compute; reflexivity. Qed.

(** The scenario of the specification: a visa whose image gives no
    identifier is removed without any remote deletion. *)
Lemma deleteVisa_without_identifier `{Platform} id db v url :
  findById visa_id id db = Some v -> image v = Some url ->
  getPublicId url = None ->
  deleteVisa id db
  = mkOutcome (Reply 200 "Visa deleted successfully")
      (findByIdAndDelete visa_id id db) [].
Proof.
  intros Hfind Himage Hnone. unfold deleteVisa, single_publicId.
  rewrite Hfind, Himage, Hnone. now destruct (Js.truthy_string url).
Qed.

(** ** Update of an entity *)

Section UpdateFacts.
Context `{Platform}.

(** C1, as the code has it. No update operation (package, hotel) asks
    the asset host to delete anything, whichever images of the stored
    set the update leaves out. *)
Theorem update_issues_no_remote_deletion :
  (forall id req db, destroyed (updateHotel id req db) = []) /\
  (forall id req db, destroyed (updatePackage id req db) = []).
Proof.
  split; intros id req db.
  - unfold updateHotel. cbv zeta. repeat case_match; reflexivity.
  - unfold updatePackage. cbv zeta. repeat case_match; reflexivity.
Qed.

Lemma cast_strings_Str (l : list string) :
  cast_strings (Json.Str <$> l) = Returned l.
Proof. induction l as [|s l IH]; csimpl; [reflexivity | now rewrite IH]. Qed.

(** C2, as the code has it. The image list a hotel update stores is
    exactly the retained refs (the array of strings sent as
    [existingImages]) followed by the newly uploaded refs, in order, and
    nothing is dropped from it: its length is the sum of the two lengths.
    The image list a package update stores is the list stored before
    followed by the newly uploaded refs. *)
Theorem update_stores_images :
  (forall id req db hotel retained set,
     old_images (hotel_body req) = Some (Json.Arr (Json.Str <$> retained)) ->
     cast_update HotelModel (delete "images" (hotel_data (hotel_body req)))
       = Returned set ->
     findById hotel_id id db = Some hotel ->
     exists hotel',
       reply (updateHotel id req db) = Reply 200 ("Hotel updated", hotel') /\
       findById hotel_id id (stored (updateHotel id req db)) = Some hotel' /\
       hotel_images hotel' = retained ++ hotel_files req /\
       length (hotel_images hotel')
         = (length retained + length (hotel_files req))%nat) /\
  (forall id req db pkg set,
     findById dest_id id db = Some pkg ->
     cast_update DestinationModel
       (other_attributes (parse_or_keep <$> package_body req)) = Returned set ->
     exists pkg',
       reply (updatePackage id req db)
         = Reply 200 ("Package updated successfully", pkg') /\
       findById dest_id id (stored (updatePackage id req db)) = Some pkg' /\
       images pkg' = images pkg ++ images_files (package_files req)).
Proof.
  split.
  - intros id req db hotel retained set Hold Hcast Hfind.
    unfold updateHotel. cbv zeta. rewrite Hold. cbn [Access.spread].
    rewrite <- fmap_app, cast_strings_Str, Hcast, Hfind.
    eexists. split_and!; [reflexivity | | reflexivity |].
    + cbn [stored]. eapply findById_put; [exact Hfind|].
      cbn. eapply findById_key, Hfind.
    + cbn. now rewrite length_app.
  - intros id req db pkg set Hfind Hcast.
    unfold updatePackage. cbv zeta. rewrite Hfind, Hcast.
    eexists. split_and!; [reflexivity | |].
    + cbn [stored]. eapply findById_put; [exact Hfind|].
      cbn. eapply findById_key, Hfind.
    + cbn. destruct (images_files (package_files req)); [|reflexivity].
      now rewrite app_nil_r.
Qed.

End UpdateFacts.

(** C1, as stated, fails: a hotel update retains one of two stored
    images; the other is orphaned, and no remote deletion is issued. *)
Lemma update_orphans_counterexample :
  let req :=
    mkHotelForm
      (<["existingImages" := Forms.json_strings [Demo.url "lobby"]]> ∅) [] in
  let out := updateHotel (H := Demo.platform) "h1" req [Sample.hotel] in
  spec_orphaned (hotel_images Sample.hotel) [Demo.url "lobby"]
    = {["destinations/pool"]} /\
  hotel_images <$> findById hotel_id "h1" (stored out)
    = Some [Demo.url "lobby"] /\
  destroyed out = [].
Proof. cbv zeta. split_and!; vm_compute; reflexivity. Qed.

(** C2, as stated, fails: nine retained images and two uploaded ones
    make a stored list of eleven, above the capacity of ten. *)
Lemma update_capacity_counterexample :
  let req :=
    mkHotelForm (<["existingImages" := Forms.json_strings Sample.nine]> ∅)
      [Demo.url "n1"; Demo.url "n2"] in
  let out := updateHotel (H := Demo.platform) "h2" req [Sample.big_hotel] in
  exists hotel',
    findById hotel_id "h2" (stored out) = Some hotel' /\
    hotel_images hotel' = Sample.nine ++ [Demo.url "n1"; Demo.url "n2"] /\
    (10 < length (hotel_images hotel'))%nat.
Proof.
  cbv zeta. eexists. split; [vm_compute; reflexivity|].
  split; [vm_compute; reflexivity | vm_compute; lia].
Qed.

(** A hotel update with two retained images and one uploaded: the
    scenario of the specification. *)
Lemma update_stores_images_witness :
  let req :=
    mkHotelForm
      (<["existingImages" :=
           Forms.json_strings [Demo.url "lobby"; Demo.url "pool"]]> ∅)
      [Demo.url "u3"] in
  exists hotel',
    reply (updateHotel (H := Demo.platform) "h1" req [Sample.hotel])
      = Reply 200 ("Hotel updated", hotel') /\
    findById hotel_id "h1"
      (stored (updateHotel (H := Demo.platform) "h1" req [Sample.hotel]))
      = Some hotel' /\
    hotel_images hotel' = [Demo.url "lobby"; Demo.url "pool"] ++ [Demo.url "u3"] /\
    length (hotel_images hotel') = (2 + 1)%nat.
Proof.
  cbv zeta.
  eapply (proj1 (update_stores_images (H := Demo.platform)) "h1"
            (mkHotelForm
               (<["existingImages" :=
                    Forms.json_strings [Demo.url "lobby"; Demo.url "pool"]]> ∅)
               [Demo.url "u3"])
            [Sample.hotel] Sample.hotel [Demo.url "lobby"; Demo.url "pool"]);
    [vm_compute; reflexivity | reflexivity | reflexivity].
Defined.

(** ** Flights *)

Section FlightFacts.
Context `{Platform}.

Lemma flight_data_fields req data :
  flight_data req = Some data ->
  data !! "flightNumber" = Json.Str <$> flightNumber req /\
  data !! "airline" = Json.Str <$> airline req /\
  data !! "duration" = Json.Str <$> duration req /\
  data !! "departure" = parse_sent (departure req) /\
  data !! "arrival" = parse_sent (arrival req) /\
  data !! "services" = parse_sent (services req).
Proof.
  unfold flight_data.
  destruct (parse_sent (departure req)) as [dep|]; [|discriminate].
  destruct (parse_sent (arrival req)) as [arr|]; [|discriminate].
  destruct (parse_sent (services req)) as [srv|]; [|discriminate].
  intros [= <-]. unfold with_field.
  destruct (flightNumber req), (airline req), (duration req); csimpl;
    split_and!; by simplify_map_eq.
Qed.

(** C10, as the code has it. A flight update that carries neither a
    logo file nor an [existingLogo] overwrites the stored logo with
    [null] when the handler carries it out, that is when the three JSON
    texts parse, the store accepts the attributes and the flight is
    stored; the attributes taken from the body, once cast, then replace
    the stored ones. Otherwise nothing is stored, so that a stored logo
    is preserved: a [departure], [arrival] or [services] that is absent
    or is not JSON, and attributes the store does not accept, are
    answered with status 500, and a flight that is not stored with
    status 404. *)
Theorem updateFlight_clears_logo (id : string) (req : FlightForm)
    (db : list Flight) :
  logo_file req = None -> Js.truthy (existingLogo req) = false ->
  let out := updateFlight id req db in
  (forall flight data set,
     flight_data req = Some data ->
     cast_update FlightModel data = Returned set ->
     findById flight_id id db = Some flight ->
     exists updated,
       reply out = Reply 200 updated /\
       findById flight_id id (stored out) = Some updated /\
       logo updated = None /\
       (forall k v, set !! k = Some v -> flight_fields updated !! k = Some v) /\
       (forall k, set !! k = None ->
                  flight_fields updated !! k = flight_fields flight !! k) /\
       data !! "flightNumber" = Json.Str <$> flightNumber req /\
       data !! "airline" = Json.Str <$> airline req /\
       data !! "duration" = Json.Str <$> duration req /\
       data !! "departure" = parse_sent (departure req) /\
       data !! "arrival" = parse_sent (arrival req) /\
       data !! "services" = parse_sent (services req)) /\
  (parse_sent (departure req) = None \/ parse_sent (arrival req) = None \/
   parse_sent (services req) = None ->
   out = mkOutcome (Refusal 500 (Text "Failed to update flight")) db []) /\
  (forall data e,
     flight_data req = Some data ->
     cast_update FlightModel data = Thrown e ->
     out = mkOutcome (Refusal 500 (Text "Failed to update flight")) db []) /\
  (forall data set,
     flight_data req = Some data ->
     cast_update FlightModel data = Returned set ->
     findById flight_id id db = None ->
     out = mkOutcome (Refusal 404 (Text "Flight not found")) db []).
Proof.
  intros Hfile Hlogo. cbv zeta. split_and!.
  - intros flight data set Hdata Hcast Hfind.
    unfold updateFlight, new_logo. rewrite Hdata, Hcast, Hfind, Hfile, Hlogo.
    destruct (flight_data_fields _ _ Hdata) as (? & ? & ? & ? & ? & ?).
    eexists. split_and!; [reflexivity | | reflexivity | | | done..].
    + cbn [stored]. eapply findById_put; [exact Hfind|].
      cbn. eapply findById_key, Hfind.
    + intros k v Hk. cbn. now apply lookup_union_Some_l.
    + intros k Hk. cbn. now apply lookup_union_r.
  - intros Hparse. unfold updateFlight.
    assert (flight_data req = None) as ->; [|reflexivity].
    unfold flight_data.
    destruct Hparse as [-> | [Hparse | Hparse]]; [reflexivity | |].
    + rewrite Hparse. now destruct (parse_sent (departure req)).
    + rewrite Hparse.
      now destruct (parse_sent (departure req)), (parse_sent (arrival req)).
  - intros data e Hdata Hcast. unfold updateFlight. now rewrite Hdata, Hcast.
  - intros data set Hdata Hcast Hfind. unfold updateFlight.
    now rewrite Hdata, Hcast, Hfind.
Qed.

End FlightFacts.

(** The sample flight, which has a logo, updated without one. *)
Lemma updateFlight_clears_logo_witness :
  exists updated,
    reply (updateFlight (H := Demo.platform) "f1" Forms.flight_form [Sample.flight])
      = Reply 200 updated /\
    logo Sample.flight = Some (Demo.url "logo") /\
    logo updated = None /\
    flight_fields updated !! "flightNumber" = Some (Json.Str "AI-101").
Proof.
  destruct (proj1 (updateFlight_clears_logo (H := Demo.platform) "f1"
                     Forms.flight_form [Sample.flight] eq_refl eq_refl)
              Sample.flight
              (default ∅ (flight_data Forms.flight_form))
              (default ∅ (flight_data Forms.flight_form))
              eq_refl eq_refl eq_refl)
    as (updated & Hr & _ & Hl & Hset & _).
  exists updated. split_and!; [exact Hr | reflexivity | exact Hl |].
  apply Hset. vm_compute. reflexivity.
Defined.

(** C10, as stated, fails: an update of the sample flight that carries
    neither a logo file nor an [existingLogo], and no [departure]
    either, is answered with status 500, and the stored logo is
    preserved. *)
Lemma updateFlight_keeps_logo_counterexample :
  let req :=
    mkFlightForm (Some "AI-101") (Some "Air India") None
      (arrival Forms.flight_form) (Some "2h 30m") (Some "[]") None None in
  let out := updateFlight (H := Demo.platform) "f1" req [Sample.flight] in
  logo_file req = None /\ existingLogo req = None /\
  reply out = Refusal 500 (Text "Failed to update flight") /\
  stored out = [Sample.flight] /\
  logo <$> findById flight_id "f1" (stored out)
  = Some (Some (Demo.url "logo")).
Proof. cbv zeta. split_and!; vm_compute; reflexivity. Qed.

(** ** Creation of a package and of a flight *)

Section CreateFacts.
Context `{Platform}.

Lemma parse_field_other (data : object) (f g : string) :
  f <> g -> parse_field data g !! f = data !! f.
Proof.
  intros Hne. unfold parse_field.
  repeat case_match; rewrite ?lookup_insert_ne by done; reflexivity.
Qed.

Lemma foldl_parse_field_other (fields : list string) (data : object) f :
  f ∉ fields -> foldl parse_field data fields !! f = data !! f.
Proof.
  revert data. induction fields as [|g fields IH]; intros data Hnot;
    [reflexivity|].
  apply not_elem_of_cons in Hnot as [Hne Hnot]. simpl.
  now rewrite IH, parse_field_other.
Qed.

(** What the loop leaves in a field it parses. *)
Lemma foldl_parse_field (fields : list string) (data : object) f text :
  NoDup fields -> f ∈ fields ->
  data !! f = Some (Json.Str text) -> text <> EmptyString ->
  foldl parse_field data fields !! f
    = Some (default (Json.Arr []) (Json.parse text)).
Proof.
  revert data. induction fields as [|g fields IH]; intros data Hnd Hin Hf Hne.
  - now apply elem_of_nil in Hin.
  - apply NoDup_cons in Hnd as [Hg Hnd]. simpl.
    destruct (decide (f = g)) as [<-|Hfg].
    + rewrite foldl_parse_field_other by done.
      unfold parse_field. rewrite Hf.
      destruct text; [done|]. cbn [Js.truthy_string].
      destruct (Json.parse _); cbn; now rewrite lookup_insert_eq.
    + apply elem_of_cons in Hin as [?|Hin]; [done|].
      apply IH; [done | done | | done]. now rewrite parse_field_other.
Qed.

Lemma NoDup_jsonFields : NoDup jsonFields.
Proof. apply (bool_decide_unpack _). vm_compute. exact I. Qed.

Lemma jsonFields_not_set f :
  f ∈ jsonFields -> f <> "id" /\ f <> "thumbnail" /\ f <> "images".
Proof.
  unfold jsonFields. rewrite !elem_of_cons, elem_of_nil.
  intros Hin. destruct_or!; subst; try done.
Qed.

Lemma parsed_fields_lookup body f text :
  f ∈ jsonFields -> body !! f = Some text -> text <> EmptyString ->
  parsed_fields body !! f = Some (default (Json.Arr []) (Json.parse text)).
Proof.
  intros Hin Hb Hne. unfold parsed_fields.
  apply foldl_parse_field; [apply NoDup_jsonFields | done | | done].
  now rewrite lookup_fmap, Hb.
Qed.

Lemma data_with_files_lookup uuid req f :
  f ∈ jsonFields ->
  data_with_files uuid req !! f = parsed_fields (package_body req) !! f.
Proof.
  intros (Hid & Hth & Him)%jsonFields_not_set.
  unfold data_with_files. cbv zeta.
  destruct (thumbnail_files _), (images_files _);
    now rewrite ?lookup_insert_ne by done.
Qed.

End CreateFacts.

Section LenientParsing.
Context `{Platform}.

Lemma package_data_malformed uuid req f text data :
  f ∈ jsonFields -> package_body req !! f = Some text ->
  text <> EmptyString -> Json.parse text = None ->
  package_data uuid req = Returned data -> data !! f = Some (Json.Arr []).
Proof.
  intros Hin Hb Hne Hparse.
  assert (data_with_files uuid req !! f = Some (Json.Arr [])) as Hf.
  { rewrite (data_with_files_lookup uuid req f Hin).
    now rewrite (parsed_fields_lookup _ _ _ Hin Hb Hne), Hparse. }
  unfold package_data. cbv zeta.
  destruct (decide (f = "activities")) as [->|Hact].
  - rewrite Hf. cbn [Json.truthy_opt Json.truthy andb assign_images].
    destruct (negb _); intros [= <-]; [|exact Hf].
    now rewrite lookup_insert_eq.
  - destruct (_ && _)%bool; [|now intros [= <-]].
    destruct (data_with_files uuid req !! "activities") as [[]|];
      try discriminate.
    destruct (assign_images _ _ _); [|discriminate].
    intros [= <-]. now rewrite lookup_insert_ne.
Qed.

Lemma package_data_returns uuid req f text :
  f ∈ jsonFields -> package_body req !! f = Some text ->
  text <> EmptyString -> Json.parse text = None ->
  f = "activities" \/ activityImages (package_files req) = [] ->
  exists data, package_data uuid req = Returned data.
Proof.
  intros Hin Hb Hne Hparse Hcase.
  assert (data_with_files uuid req !! f = Some (Json.Arr [])) as Hf.
  { rewrite (data_with_files_lookup uuid req f Hin).
    now rewrite (parsed_fields_lookup _ _ _ Hin Hb Hne), Hparse. }
  unfold package_data. cbv zeta. destruct Hcase as [-> | Hnone].
  - rewrite Hf. cbn [Json.truthy_opt Json.truthy andb assign_images].
    destruct (negb _); eauto.
  - rewrite Hnone. cbn [length Nat.eqb negb]. rewrite andb_false_r. eauto.
Qed.

(** C5, as the code has it. In a package create request, a non-empty
    text that is not JSON in one of the twelve encoded fields is
    replaced by an empty array; the object built for the store has this empty array in the
    field, it is built whenever the field is [activities] or no activity
    image is uploaded, and the request then succeeds as soon as the store
    accepts the object. In a flight create request, a [departure],
    [arrival] or [services] that is not JSON fails the whole request with
    status 500 and nothing is stored. *)
Theorem create_with_malformed_field :
  (forall uuid req f text,
     f ∈ jsonFields -> package_body req !! f = Some text ->
     text <> EmptyString -> Json.parse text = None ->
     parsed_fields (package_body req) !! f = Some (Json.Arr []) /\
     (f = "activities" \/ activityImages (package_files req) = [] ->
      exists data, package_data uuid req = Returned data) /\
     (forall data,
        package_data uuid req = Returned data ->
        data !! f = Some (Json.Arr []) /\
        forall db doc,
          new_destination data = Returned doc ->
          reply (createPackage uuid req db)
            = Reply 200 ("Package added successfully", doc) /\
          stored (createPackage uuid req db) = db ++ [doc])) /\
  (forall req db,
     parse_sent (departure req) = None \/ parse_sent (arrival req) = None \/
     parse_sent (services req) = None ->
     createFlight req db = refuse 500 (Text "Failed to add flight") db).
Proof.
  split.
  - intros uuid req f text Hin Hb Hne Hparse. split_and!.
    + rewrite (parsed_fields_lookup _ _ _ Hin Hb Hne), Hparse. reflexivity.
    + now apply (package_data_returns uuid req f text).
    + intros data Hdata. split.
      * now apply (package_data_malformed uuid req f text).
      * intros db doc Hnew. unfold createPackage. now rewrite Hdata, Hnew.
  - intros req db Hbad. unfold createFlight, flight_data.
    destruct (parse_sent (departure req)), (parse_sent (arrival req)),
      (parse_sent (services req)); try reflexivity.
    destruct Hbad as [?|[?|?]]; discriminate.
Qed.

End LenientParsing.

(** A package sent with an itinerary that is not JSON: the itinerary
    becomes the empty array. *)
Lemma create_with_malformed_field_witness :
  parsed_fields (<["title" := "Goa"]> (<["itinerary" := "{oops"]> ∅))
    !! "itinerary" = Some (Json.Arr []).
Proof.
  destruct (proj1 (create_with_malformed_field (H := Demo.platform)) "uuid-1"
              (mkPackageForm
                 (<["title" := "Goa"]> (<["itinerary" := "{oops"]> ∅))
                 Forms.no_files)
              "itinerary" "{oops") as [Hempty _].
  - apply list_elem_of_here.
  - vm_compute. reflexivity.
  - discriminate.
  - vm_compute. reflexivity.
  - exact Hempty.
Defined.

(** C5, as stated, fails: a flight sent with a [departure] that is not
    JSON is refused with status 500 and not stored, while the same
    request with its [departure] in JSON is stored. *)
Lemma create_flight_malformed_counterexample :
  let bad :=
    mkFlightForm (Some "AI-101") (Some "Air India") (Some "{oops")
      (arrival Forms.flight_form) (Some "2h 30m") (Some "[]") None None in
  Json.parse "{oops" = None /\
  createFlight (H := Demo.platform) bad []
    = mkOutcome (Refusal 500 (Text "Failed to add flight")) [] [] /\
  exists flight,
    createFlight (H := Demo.platform) Forms.flight_form []
      = mkOutcome (Reply 201 flight) [flight] [].
Proof.
  cbv zeta. split_and!; [vm_compute; reflexivity.. |].
  eexists. vm_compute. reflexivity.
Qed.

(** ** The images of the activities *)

Section ActivityImages.
Context `{Platform}.






End ActivityImages.

Section ActivityImagesOfHandlers.
Context `{Platform}.



End ActivityImagesOfHandlers.



(** * Further properties of the handlers *)

(** ** Login and the default administrator *)

Section LoginFacts.
Context `{Platform} `{Services}.

(** X1. A login with a user name succeeds exactly when the first stored
    administrator of that name has exactly the password sent, and then
    answers the token signed for this administrator; an unknown name and
    a wrong password get the same refusal, with status 400. *)
Theorem login_spec (u : string) (p : option string) (admins : list Admin) :
  let r := login (mkLogin (Some u) p) admins in
  (forall admin,
     findOne_username (Some u) admins = Some admin ->
     p = Some (password admin) ->
     r = match jwt_sign (admin_id admin) with
         | Returned token => Reply 200 token
         | Thrown e => Refusal 500 (MessageOf e)
         end) /\
  (findOne_username (Some u) admins = None \/
   (exists admin, findOne_username (Some u) admins = Some admin /\
                  p <> Some (password admin)) ->
   r = Refusal 400 (Text "Invalid username or password")) /\
  (forall token,
     r = Reply 200 token ->
     exists admin,
       In admin admins /\ username admin = u /\ p = Some (password admin) /\
       jwt_sign (admin_id admin) = Returned token).
Proof.
  cbv zeta. unfold login. cbn [login_username login_password].
  destruct (findOne_username (Some u) admins) as [admin|] eqn:Hfind.
  - case_bool_decide as Hp; cbn [negb]; split_and!.
    + intros ? [= <-] _. reflexivity.
    + intros [[=]|(a & [= <-] & Hne)]. congruence.
    + intros token Htok. exists admin.
      apply List.find_some in Hfind as [Hin Hname%String.eqb_eq].
      split_and!; [done.. |]. now destruct (jwt_sign _); simplify_eq.
    + intros ? [= <-] ->. done.
    + reflexivity.
    + discriminate.
  - split_and!; [discriminate | reflexivity | discriminate].
Qed.

Lemma findOne_put u id admin admin' admins :
  NoDup (admin_id <$> admins) ->
  findOne_username (Some u) admins = Some admin ->
  admin_id admin = id -> admin_id admin' = id -> username admin' = u ->
  findOne_username (Some u) (put admin_id id admin' admins) = Some admin'.
Proof.
  cbn [findOne_username]. intros Hnd Hfind Hid Hid' Hu.
  induction admins as [|a admins IH]; [discriminate|].
  csimpl in Hnd. apply NoDup_cons in Hnd as [Ha Hnd].
  cbn [List.find put] in *.
  destruct (String.eqb (username a) u) eqn:Ea.
  - injection Hfind as ->. rewrite Hid, String.eqb_refl.
    cbn [List.find]. now rewrite Hu, String.eqb_refl.
  - destruct (String.eqb (admin_id a) id) eqn:Eid.
    + exfalso. apply String.eqb_eq in Eid. apply Ha.
      apply List.find_some in Hfind as [Hin _].
      rewrite Eid, <- Hid. apply list_elem_of_fmap.
      exists admin. split; [reflexivity | now apply list_elem_of_In].
    + cbn [List.find]. rewrite Ea. now apply IH.
Qed.

Lemma split_on_head sep s : (Js.split_on sep s).1 = Js.split_head sep s.
Proof.
  induction s as [|c s IH]; [reflexivity|]. cbn [Js.split_on Js.split_head].
  destruct (Js.split_on sep s) as [piece rest]. cbn in IH. subst piece.
  now destruct (Ascii.eqb c sep).
Qed.

Lemma bearer_token_of token :
  Js.split_head " " token = token ->
  bearer_token (Some ("Bearer " +:+ token)) = Some token.
Proof.
  intros Hspace. unfold bearer_token, Js.split. cbn.
  pose proof (split_on_head " " token) as Hhead.
  destruct (Js.split_on " " token) as [piece rest]. cbn in *. congruence.
Qed.

Lemma findById_In {D} (key : D -> string) d docs :
  NoDup (key <$> docs) -> In d docs -> findById key (key d) docs = Some d.
Proof.
  unfold findById. induction docs as [|x docs IH]; [done|].
  csimpl. intros [Hx Hnd]%NoDup_cons [->|Hin]; cbn [List.find].
  - now rewrite String.eqb_refl.
  - destruct (String.eqb (key x) (key d)) eqn:E; [|now apply IH].
    exfalso. apply String.eqb_eq in E. apply Hx. rewrite E.
    apply list_elem_of_fmap. exists d.
    split; [reflexivity | now apply list_elem_of_In].
Qed.

Lemma find_app_None {A} (f : A -> bool) (l l' : list A) :
  List.find f l = None -> List.find f (l ++ l') = List.find f l'.
Proof.
  induction l as [|x l IH]; [reflexivity|]. cbn [List.find app].
  now destruct (f x).
Qed.

(** X2. After a change of password made with the token of a login, the
    same administrator logs in with the new password and is refused with
    the old one. *)
Theorem login_after_changePassword (u p new token : string) (admin : Admin)
    (admins : list Admin) :
  NoDup (admin_id <$> admins) ->
  findOne_username (Some u) admins = Some admin ->
  password admin = p ->
  jwt_sign (admin_id admin) = Returned token ->
  token <> EmptyString -> Js.split_head " " token = token ->
  jwt_verify token = Returned (admin_id admin) ->
  new <> EmptyString ->
  let out :=
    changePassword
      (mkChangePassword (Some ("Bearer " +:+ token)) (Some p) (Some new))
      admins in
  login (mkLogin (Some u) (Some p)) admins = Reply 200 token /\
  reply out = Reply 200 "Password changed successfully" /\
  login (mkLogin (Some u) (Some new)) (stored out) = Reply 200 token /\
  (p <> new ->
   login (mkLogin (Some u) (Some p)) (stored out)
   = Refusal 400 (Text "Invalid username or password")).
Proof.
  intros Hnd Hfind Hp Hsign Htok Hspace Hverify Hnew. cbv zeta.
  pose proof Hfind as [Hin Hname%String.eqb_eq]%List.find_some.
  assert (findById admin_id (admin_id admin) admins = Some admin) as Hid
    by now apply findById_In.
  assert (changePassword
            (mkChangePassword (Some ("Bearer " +:+ token)) (Some p) (Some new))
            admins
          = mkOutcome (Reply 200 "Password changed successfully")
              (put admin_id (admin_id admin)
                 (mkAdmin (admin_id admin) (username admin) new) admins) [])
    as ->.
  { unfold changePassword. cbn [authorization oldPassword newPassword].
    rewrite (bearer_token_of _ Hspace).
    destruct token as [|c t]; [done|]. rewrite Hverify, Hid, Hp.
    rewrite bool_decide_eq_true_2 by done. cbn [negb].
    now destruct new. }
  cbn [reply stored].
  pose proof (findOne_put u (admin_id admin) admin
                (mkAdmin (admin_id admin) (username admin) new) admins
                Hnd Hfind eq_refl eq_refl Hname) as Hfound.
  split_and!.
  - unfold login. cbn [login_username login_password]. rewrite Hfind, Hp.
    rewrite bool_decide_eq_true_2 by done. cbn [negb]. now rewrite Hsign.
  - reflexivity.
  - unfold login. cbn [login_username login_password]. rewrite Hfound.
    cbn [password admin_id].
    rewrite bool_decide_eq_true_2 by done. cbn [negb]. now rewrite Hsign.
  - intros Hne. unfold login. cbn [login_username login_password].
    rewrite Hfound. cbn [password].
    rewrite bool_decide_eq_false_2 by congruence. reflexivity.
Qed.

(** X3. Seeding the default administrator twice is seeding it once, and
    seeding changes no stored administrator: the administrators before
    are a prefix of those after. *)
Theorem seedAdmin_idempotent (fresh fresh' : string)
    (env_user env_pass : option string) (admins : list Admin) :
  seedAdmin fresh' env_user env_pass (seedAdmin fresh env_user env_pass admins)
  = seedAdmin fresh env_user env_pass admins /\
  admins `prefix_of` seedAdmin fresh env_user env_pass admins.
Proof.
  unfold seedAdmin.
  destruct (findOne_username env_user admins) as [a|] eqn:Hfind.
  { rewrite Hfind. split; [reflexivity | done]. }
  destruct env_user as [[|a u]|], env_pass as [[|b p]|];
    try (rewrite Hfind; split; [reflexivity | done]).
  split; [|now apply prefix_app_r].
  cbn [findOne_username] in *.
  rewrite (find_app_None _ _ _ Hfind). cbn [List.find username].
  now rewrite String.eqb_refl.
Qed.

(** X4. When no administrator has the configured name, the seeded one
    logs in with the configured password; when one has, with another
    password, seeding stores nothing and a login with the configured
    password is refused: a restart does not reset the password. *)
Theorem login_after_seedAdmin (fresh u p : string) (admins : list Admin) :
  u <> EmptyString -> p <> EmptyString ->
  let seeded := seedAdmin fresh (Some u) (Some p) admins in
  (findOne_username (Some u) admins = None ->
   login (mkLogin (Some u) (Some p)) seeded
   = match jwt_sign fresh with
     | Returned token => Reply 200 token
     | Thrown e => Refusal 500 (MessageOf e)
     end) /\
  (forall admin,
     findOne_username (Some u) admins = Some admin -> password admin <> p ->
     seeded = admins /\
     login (mkLogin (Some u) (Some p)) seeded
     = Refusal 400 (Text "Invalid username or password")).
Proof.
  intros Hu Hp. cbv zeta. unfold seedAdmin. split.
  - intros Hfind. rewrite Hfind. destruct u as [|a u]; [done|].
    destruct p as [|b p]; [done|].
    unfold login. cbn [login_username login_password findOne_username] in *.
    rewrite (find_app_None _ _ _ Hfind). cbn [List.find username].
    rewrite String.eqb_refl. cbn [password admin_id].
    now rewrite bool_decide_eq_true_2.
  - intros admin Hfind Hne. rewrite Hfind. split; [reflexivity|].
    unfold login. cbn [login_username login_password]. rewrite Hfind.
    rewrite bool_decide_eq_false_2 by congruence. reflexivity.
Qed.

End LoginFacts.

(** ** More on [getPublicId] *)

Module PublicIdMore.
Import Regex RegexFacts PublicIdFacts.

Lemma strip_append_r t s post x :
  strip t s = Some post -> strip t (s +:+ x) = Some (post +:+ x).
Proof. intros ->%strip_Some. rewrite append_assoc. apply strip_append. Qed.

Lemma strip_None_append t s x :
  strip t s = None -> (String.length t <= String.length s)%nat ->
  strip t (s +:+ x) = None.
Proof.
  revert s. induction t as [|a t IH]; intros s; [discriminate|].
  destruct s as [|b s]; [simpl; lia|]. cbn [strip String.append].
  destruct (Ascii.eqb a b); [|reflexivity].
  intros Hs Hlen. apply IH; [exact Hs | simpl in Hlen; lia].
Qed.

Lemma find_text_length t s pre post :
  find_text t s = Some (pre, post) -> (String.length t <= String.length s)%nat.
Proof.
  revert pre post. induction s as [|c s IH]; intros pre post; cbn [find_text].
  - destruct (strip t EmptyString) eqn:E; [|discriminate].
    apply JsonFacts.strip_length in E. simpl in *. lia.
  - destruct (strip t (String c s)) eqn:E.
    + apply JsonFacts.strip_length in E. lia.
    + destruct (find_text t s) as [[p q]|] eqn:Ef; [|discriminate].
      intros _. specialize (IH _ _ eq_refl). simpl. lia.
Qed.

Lemma find_text_append t s pre post x :
  find_text t s = Some (pre, post) ->
  find_text t (s +:+ x) = Some (pre, post +:+ x).
Proof.
  revert pre post. induction s as [|c s IH]; intros pre post; cbn [find_text].
  - destruct (strip t EmptyString) as [p|] eqn:E; [|discriminate].
    intros [= <- <-]. apply (strip_append_r _ _ _ x) in E.
    destruct (EmptyString +:+ x) eqn:Ex; cbn [find_text]; now rewrite E.
  - destruct (strip t (String c s)) as [p|] eqn:E.
    + intros [= <- <-]. apply (strip_append_r _ _ _ x) in E.
      cbn [String.append] in *. cbn [find_text]. now rewrite E.
    + destruct (find_text t s) as [[p q]|] eqn:Ef; [|discriminate].
      intros [= <- <-].
      assert (strip t (String c s +:+ x) = None) as Hn.
      { apply strip_None_append; [exact E|].
        apply find_text_length in Ef. simpl. lia. }
      cbn [String.append find_text] in *. rewrite Hn.
      now rewrite (IH _ _ eq_refl).
Qed.

Lemma split_head_append c a b :
  Js.split_head c a = a ->
  Js.split_head c (a +:+ b) = a +:+ Js.split_head c b.
Proof.
  induction a as [|x a IH]; [reflexivity|]. cbn [Js.split_head String.append].
  destruct (Ascii.eqb x c); [discriminate|]. intros [= Ha]. now rewrite IH.
Qed.

Lemma split_head_all_ok a s :
  atom_ok a "?" = false -> all_ok a s = true -> Js.split_head "?" s = s.
Proof.
  intros Hq. induction s as [|c s IH]; [reflexivity|].
  cbn [all_ok Js.split_head]. intros [Hc Hs]%andb_prop.
  destruct (Ascii.eqb_spec c "?") as [->|_]; [congruence|]. now rewrite IH.
Qed.

End PublicIdMore.

(** X5. The identifier of a URL does not depend on its version segment,
    on its extension or on its query: when the marker first occurs after
    [pre] and [id] does not begin with [v], the URL with a version, any
    extension and any query, and the URL without version, with any other
    extension, both give [id]. *)
Theorem getPublicId_independent (pre ds id ext ext' q : string) :
  Regex.find_text "/upload/" (pre +:+ "/upload/") = Some (pre, EmptyString) ->
  Js.split_head "?" pre = pre -> Js.split_head "?" id = id ->
  ds <> EmptyString -> Regex.all_ok Regex.Digit ds = true ->
  id <> EmptyString -> Regex.all_ok Regex.Dot id = true ->
  begins_with_v id = false ->
  extension ext -> extension ext' ->
  getPublicId (pre +:+ "/upload/" +:+ "v" +:+ ds +:+ "/" +:+ id +:+ "." +:+ ext
               +:+ String "?" q) = Some id /\
  getPublicId (pre +:+ "/upload/" +:+ id +:+ "." +:+ ext') = Some id.
Proof.
  intros Hfirst Hpre Hidq Hds Hdigits Hid Hdot Hv Hext Hext'.
  assert (forall body,
            Js.split_head "?" body = body ->
            Js.split_head "?" (pre +:+ "/upload/" +:+ body)
            = pre +:+ "/upload/" +:+ body) as Hclean.
  { intros body Hb. rewrite (PublicIdMore.split_head_append "?"%char _ _ Hpre).
    now rewrite (PublicIdMore.split_head_append "?"%char "/upload/" body eq_refl), Hb. }
  assert (forall e, extension e -> Js.split_head "?" ("." +:+ e) = "." +:+ e)
    as Hdotext.
  { intros e [_ He].
    rewrite (PublicIdMore.split_head_append "?"%char "." e eq_refl).
    now rewrite (PublicIdMore.split_head_all_ok Regex.Word). }
  assert (forall e, extension e ->
                    Js.split_head "?" (id +:+ "." +:+ e) = id +:+ "." +:+ e)
    as Hidext.
  { intros e He. rewrite (PublicIdMore.split_head_append "?"%char _ _ Hidq).
    now rewrite Hdotext. }
  split.
  - replace (pre +:+ "/upload/" +:+ "v" +:+ ds +:+ "/" +:+ id +:+ "." +:+ ext
             +:+ String "?" q)
      with ((pre +:+ "/upload/" +:+ ("v" +:+ ds +:+ "/") +:+ id +:+ "." +:+ ext)
            +:+ String "?" q)
      by (now rewrite !append_assoc).
    unfold getPublicId at 1. rewrite PublicIdFacts.split_head_query.
    fold (getPublicId (pre +:+ "/upload/" +:+ ("v" +:+ ds +:+ "/") +:+ id +:+ "." +:+ ext)).
    apply (PublicIdFacts.getPublicId_at_first_marker _ pre
             ("v" +:+ ds +:+ "/") id ext); try done.
    + rewrite Hclean.
      * replace (pre +:+ "/upload/" +:+ ("v" +:+ ds +:+ "/") +:+ id +:+ "." +:+ ext)
          with ((pre +:+ "/upload/")
                +:+ (("v" +:+ ds +:+ "/") +:+ id +:+ "." +:+ ext))
          by (now rewrite !append_assoc).
        now rewrite (PublicIdMore.find_text_append _ _ _ _ _ Hfirst).
      * rewrite !append_assoc.
        rewrite (PublicIdMore.split_head_append "?"%char "v" _ eq_refl).
        rewrite (PublicIdMore.split_head_append "?"%char ds _
                   (PublicIdMore.split_head_all_ok Regex.Digit ds eq_refl Hdigits)).
        rewrite (PublicIdMore.split_head_append "?"%char "/" _ eq_refl).
        now rewrite Hidext.
    + right. eauto.
  - apply (PublicIdFacts.getPublicId_at_first_marker _ pre EmptyString id ext');
      try done.
    + rewrite Hclean by now apply Hidext.
      replace (pre +:+ "/upload/" +:+ id +:+ "." +:+ ext')
        with ((pre +:+ "/upload/") +:+ (id +:+ "." +:+ ext'))
        by (now rewrite !append_assoc).
      now rewrite (PublicIdMore.find_text_append _ _ _ _ _ Hfirst).
    + now left.
Qed.


(** A login with the stored password, and two refusals, on the sample
    platform. *)
Lemma login_spec_witness :
  login (H0 := DemoServices.services) (mkLogin (Some "admin") (Some "secret"))
    [Sample.admin]
  = Reply 200 "signed.for.admin-1" /\
  login (H0 := DemoServices.services) (mkLogin (Some "nobody") (Some "secret"))
    [Sample.admin]
  = Refusal 400 (Text "Invalid username or password").
Proof.
  split.
  - apply (proj1 (login_spec (H0 := DemoServices.services) "admin"
                    (Some "secret") [Sample.admin]) Sample.admin);
      reflexivity.
  - apply (proj1 (proj2 (login_spec (H0 := DemoServices.services) "nobody"
                           (Some "secret") [Sample.admin]))).
    left. reflexivity.
Defined.

(** The token of a login changes the password; then the new password
    logs in and the old one does not. *)
Lemma login_after_changePassword_witness :
  let out :=
    changePassword (H := Demo.platform)
      (mkChangePassword (Some "Bearer signed.for.admin-1") (Some "secret")
         (Some "s3cret"))
      [Sample.admin] in
  login (H0 := DemoServices.services) (mkLogin (Some "admin") (Some "s3cret"))
    (stored out)
  = Reply 200 "signed.for.admin-1" /\
  login (H0 := DemoServices.services) (mkLogin (Some "admin") (Some "secret"))
    (stored out)
  = Refusal 400 (Text "Invalid username or password").
Proof.
  destruct (login_after_changePassword (H := Demo.platform)
              (H0 := DemoServices.services)
              "admin" "secret" "s3cret" "signed.for.admin-1" Sample.admin
              [Sample.admin])
    as (_ & _ & Hnew & Hold);
    [ repeat constructor; set_solver
    | reflexivity | reflexivity | reflexivity | discriminate | reflexivity
    | reflexivity | discriminate | ].
  split; [exact Hnew | apply Hold; discriminate].
Defined.

(** The first start of a server without administrators, then a login. *)
Lemma login_after_seedAdmin_witness :
  login (H0 := DemoServices.services) (mkLogin (Some "root") (Some "toor"))
    (seedAdmin (H0 := DemoServices.services) "admin-2" (Some "root")
       (Some "toor") [Sample.admin])
  = Reply 200 "signed.for.admin-2".
Proof.
  apply (proj1 (login_after_seedAdmin (H0 := DemoServices.services)
                  "admin-2" "root" "toor" [Sample.admin]
                  ltac:(discriminate) ltac:(discriminate))).
  reflexivity.
Defined.

(** The same asset under two versions, extensions and queries. *)
Lemma getPublicId_independent_witness :
  getPublicId "https://host/image/upload/v1700000000/destinations/abc123.jpg?x=1"
    = Some "destinations/abc123" /\
  getPublicId "https://host/image/upload/destinations/abc123.webp"
    = Some "destinations/abc123".
Proof.
  apply (getPublicId_independent "https://host/image" "1700000000"
           "destinations/abc123" "jpg" "webp" "x=1");
    try reflexivity; try discriminate; split; (discriminate || reflexivity).
Defined.

(** ** What a deletion and an update leave of the collection *)

Section CollectionMore.
Context {D : Type} (key : D -> string).

Lemma findById_delete_other id id' docs :
  id' <> id ->
  findById key id' (findByIdAndDelete key id docs) = findById key id' docs.
Proof.
  intros Hne. unfold findById.
  induction docs as [|x docs IH]; [reflexivity|].
  cbn [findByIdAndDelete List.find].
  destruct (String.eqb (key x) id) eqn:E.
  - apply String.eqb_eq in E.
    destruct (String.eqb_spec (key x) id') as [E'|_]; [congruence | reflexivity].
  - cbn [List.find]. now rewrite IH.
Qed.

Lemma length_delete id docs d :
  findById key id docs = Some d ->
  length docs = S (length (findByIdAndDelete key id docs)).
Proof.
  unfold findById. induction docs as [|x docs IH]; [discriminate|].
  cbn [findByIdAndDelete List.find].
  destruct (String.eqb (key x) id); [reflexivity|].
  intros Hf. cbn [length]. now rewrite <- IH.
Qed.

Lemma delete_sublist id docs : findByIdAndDelete key id docs `sublist_of` docs.
Proof.
  induction docs as [|x docs IH]; [done|]. cbn [findByIdAndDelete].
  destruct (String.eqb (key x) id).
  - now apply sublist_cons.
  - now apply sublist_skip.
Qed.

Lemma put_fmap {B} (f : D -> B) id d' docs :
  (forall d, findById key id docs = Some d -> f d' = f d) ->
  f <$> put key id d' docs = f <$> docs.
Proof.
  unfold findById. induction docs as [|x docs IH]; [reflexivity|].
  cbn [put List.find]. destruct (String.eqb (key x) id).
  - intros Hd. csimpl. now rewrite (Hd x).
  - intros Hd. csimpl. now rewrite IH.
Qed.

Lemma findById_put_other id id' d' docs :
  id' <> id -> key d' = id ->
  findById key id' (put key id d' docs) = findById key id' docs.
Proof.
  intros Hne Hk. unfold findById.
  induction docs as [|x docs IH]; [reflexivity|].
  cbn [put List.find]. destruct (String.eqb (key x) id) eqn:E.
  - apply String.eqb_eq in E. cbn [List.find]. rewrite Hk.
    destruct (String.eqb_spec id id') as [?|_]; [congruence|].
    destruct (String.eqb_spec (key x) id') as [?|_]; [congruence | reflexivity].
  - cbn [List.find]. now rewrite IH.
Qed.

End CollectionMore.

Section DeleteMore.
Context `{Platform}.

Lemma destroy_then_remove_gone {D} (key : D -> string) id ids done docs d :
  NoDup (key <$> docs) -> findById key id docs = Some d ->
  let out := destroy_then_remove key id ids done docs in
  status_of (reply out) = 200%nat ->
  findById key id (stored out) = None /\
  (forall id', id' <> id ->
               findById key id' (stored out) = findById key id' docs) /\
  length docs = S (length (stored out)) /\
  NoDup (key <$> stored out).
Proof.
  intros Hnd Hfind. cbv zeta. unfold destroy_then_remove.
  destruct (promise_all _); [|discriminate]. intros _. cbn [stored].
  split_and!.
  - now apply findById_deleted.
  - intros id' Hne. now apply findById_delete_other.
  - now apply (length_delete key id docs d).
  - eapply sublist_NoDup; [exact Hnd|]. apply fmap_sublist, delete_sublist.
Qed.

(** X6. A deletion that reports success has removed the document it
    names and only that one: when the identifiers of the stored
    documents are distinct, the document is no longer found, every other
    document is found as before, the collection has one document fewer,
    and a second deletion answers 404, removes nothing and issues no
    remote deletion. This holds for packages, hotels, visas and flights. *)
Theorem delete_removes_one_document :
  (forall id db,
     NoDup (dest_id <$> db) ->
     let out := deletePackage id db in
     status_of (reply out) = 200%nat ->
     getPackage id (stored out) = Refusal 404 (Text "Package not found") /\
     (forall id', id' <> id -> getPackage id' (stored out) = getPackage id' db) /\
     length db = S (length (stored out)) /\
     deletePackage id (stored out)
     = mkOutcome (Refusal 404 (Text "Package not found")) (stored out) []) /\
  (forall id db,
     NoDup (hotel_id <$> db) ->
     let out := deleteHotel id db in
     status_of (reply out) = 200%nat ->
     getHotel id (stored out) = Refusal 404 (Text "Hotel not found") /\
     (forall id', id' <> id -> getHotel id' (stored out) = getHotel id' db) /\
     length db = S (length (stored out)) /\
     deleteHotel id (stored out)
     = mkOutcome (Refusal 404 (Text "Hotel not found")) (stored out) []) /\
  (forall id db,
     NoDup (visa_id <$> db) ->
     let out := deleteVisa id db in
     status_of (reply out) = 200%nat ->
     getVisa id (stored out) = Refusal 404 (Text "Visa not found") /\
     (forall id', id' <> id -> getVisa id' (stored out) = getVisa id' db) /\
     length db = S (length (stored out)) /\
     deleteVisa id (stored out)
     = mkOutcome (Refusal 404 (Text "Visa not found")) (stored out) []) /\
  (forall id db,
     NoDup (flight_id <$> db) ->
     let out := deleteFlight id db in
     status_of (reply out) = 200%nat ->
     getFlight id (stored out) = Refusal 404 (Text "Flight not found") /\
     (forall id', id' <> id -> getFlight id' (stored out) = getFlight id' db) /\
     length db = S (length (stored out)) /\
     deleteFlight id (stored out)
     = mkOutcome (Refusal 404 (Text "Flight not found")) (stored out) []).
Proof.
  split_and!; intros [id|text] db Hnd; cbv zeta;
    unfold deletePackage, deleteHotel, deleteVisa, deleteFlight,
      getPackage, getHotel, getFlight, getVisa, getById;
    try discriminate.
  - destruct (findById dest_id id db) as [d|] eqn:Hfind; [|discriminate].
    intros Hok.
    destruct (destroy_then_remove_gone dest_id id _ _ db d Hnd Hfind Hok)
      as (Hgone & Hother & Hlen & _).
    rewrite Hgone. split_and!; [done | | done | done].
    intros [id'|text'] Hne; [|reflexivity]. rewrite Hother; [done|congruence].
  - destruct (findById hotel_id id db) as [d|] eqn:Hfind; [|discriminate].
    intros Hok.
    destruct (destroy_then_remove_gone hotel_id id _ _ db d Hnd Hfind Hok)
      as (Hgone & Hother & Hlen & _).
    rewrite Hgone. split_and!; [done | | done | done].
    intros [id'|text'] Hne; [|reflexivity]. rewrite Hother; [done|congruence].
  - destruct (findById visa_id id db) as [d|] eqn:Hfind; [|discriminate].
    intros Hok.
    destruct (destroy_then_remove_gone visa_id id _ _ db d Hnd Hfind Hok)
      as (Hgone & Hother & Hlen & _).
    rewrite Hgone. split_and!; [done | | done | done].
    intros [id'|text'] Hne; [|reflexivity]. rewrite Hother; [done|congruence].
  - destruct (findById flight_id id db) as [d|] eqn:Hfind; [|discriminate].
    intros Hok.
    destruct (destroy_then_remove_gone flight_id id _ _ db d Hnd Hfind Hok)
      as (Hgone & Hother & Hlen & _).
    rewrite Hgone. split_and!; [done | | done | done].
    intros [id'|text'] Hne; [|reflexivity]. rewrite Hother; [done|congruence].
Qed.

End DeleteMore.

(** The deletion of the first of two packages. *)
Lemma delete_removes_one_document_witness :
  let out := deletePackage (H := Demo.platform) "p1" [Sample.goa; Sample.kerala] in
  getPackage "p1" (stored out) = Refusal 404 (Text "Package not found") /\
  getPackage "p2" (stored out) = Reply 200 Sample.kerala /\
  deletePackage (H := Demo.platform) "p1" (stored out)
  = mkOutcome (Refusal 404 (Text "Package not found")) (stored out) [].
Proof.
  destruct (proj1 (delete_removes_one_document (H := Demo.platform))
              "p1" [Sample.goa; Sample.kerala])
    as (Hgone & Hother & _ & Hagain).
  - apply (bool_decide_unpack _). vm_compute. reflexivity.
  - vm_compute. reflexivity.
  - cbv zeta. split_and!; [exact Hgone | | exact Hagain].
    rewrite Hother by discriminate. reflexivity.
Defined.

Section UpdateMore.
Context `{Platform} `{Services}.

Lemma put_found {D} (key : D -> string) id d d' docs :
  findById key id docs = Some d -> key d' = key d ->
  key <$> put key id d' docs = key <$> docs /\
  (forall id', id' <> id ->
               findById key id' (put key id d' docs) = findById key id' docs).
Proof.
  intros Hfind Hk. split.
  - apply put_fmap. intros d0 Hd0. congruence.
  - intros id' Hne. apply findById_put_other; [done|].
    rewrite Hk. now apply (findById_key key id docs).
Qed.

(** X7. An update changes at most the document it names: whatever the
    request and whether it succeeds or not, the stored documents keep
    their identifiers, in the same order, and every document with
    another identifier is stored as before; this includes the requests
    whose [:id] is no identifier. This holds for the updates of hotels,
    packages, flights and visas; a change of password keeps the
    identifiers and the user names of all administrators. *)
Theorem update_changes_one_document :
  (forall (id : route_id) req db,
     let out := updateHotel id req db in
     hotel_id <$> stored out = hotel_id <$> db /\
     forall id' : string,
       id <> id' ->
       findById hotel_id id' (stored out) = findById hotel_id id' db) /\
  (forall (id : route_id) req db,
     let out := updatePackage id req db in
     dest_id <$> stored out = dest_id <$> db /\
     forall id' : string,
       id <> id' ->
       findById dest_id id' (stored out) = findById dest_id id' db) /\
  (forall (id : route_id) req db,
     let out := updateFlight id req db in
     flight_id <$> stored out = flight_id <$> db /\
     forall id' : string,
       id <> id' ->
       findById flight_id id' (stored out) = findById flight_id id' db) /\
  (forall (id : route_id) body file db,
     let out := updateVisa id body file db in
     visa_id <$> stored out = visa_id <$> db /\
     forall id' : string,
       id <> id' ->
       findById visa_id id' (stored out) = findById visa_id id' db) /\
  (forall req admins,
     let out := changePassword req admins in
     admin_id <$> stored out = admin_id <$> admins /\
     username <$> stored out = username <$> admins).
Proof.
  assert (forall {D} (key : D -> string) (id : string) d d' docs,
            findById key id docs = Some d -> key d' = key d ->
            key <$> put key id d' docs = key <$> docs /\
            (forall id' : string,
               ObjectId id <> ObjectId id' ->
               findById key id' (put key id d' docs) = findById key id' docs))
    as Hput.
  { intros D key id d d' docs Hfind Hk.
    destruct (put_found key id d d' docs Hfind Hk) as [Hkeys Hother].
    split; [exact Hkeys|]. intros id' Hne. apply Hother. congruence. }
  split_and!.
  - intros [id|text] req db; cbv zeta; unfold updateHotel; cbv zeta;
      (destruct (old_images _) as [oldImages|]; [|done]);
      (destruct (Access.spread oldImages) as [olds|]; [|done]); [|done].
    destruct (cast_strings _) as [imgs|e]; [|done].
    destruct (cast_update _ _) as [set|e]; [|done].
    destruct (findById hotel_id id db) as [hotel|] eqn:Hfind; [|done].
    cbn [stored]. now apply (Hput _ hotel_id id hotel).
  - intros [id|text] req db; cbv zeta; unfold updatePackage; [|done].
    destruct (findById dest_id id db) as [pkg|] eqn:Hfind; [|done]. cbv zeta.
    destruct (cast_update _ _) as [set|e]; [|done].
    cbn [stored]. now apply (Hput _ dest_id id pkg).
  - intros [id|text] req db; cbv zeta; unfold updateFlight;
      (destruct (flight_data req) as [data|]; [|done]); [|done].
    destruct (cast_update _ _) as [set|e]; [|done].
    destruct (findById flight_id id db) as [flight|] eqn:Hfind; [|done].
    cbn [stored]. now apply (Hput _ flight_id id flight).
  - intros [id|text] body file db; cbv zeta; unfold updateVisa; cbv zeta;
      [|done].
    destruct (cast_visa_update _) as [set|e]; [|done].
    destruct (findById visa_id id db) as [v|] eqn:Hfind; [|done].
    cbn [stored]. now apply (Hput _ visa_id id v).
  - intros req admins. cbv zeta. unfold changePassword.
    destruct (bearer_token _) as [[|c t]|]; [done | | done].
    destruct (jwt_verify _) as [id|e]; [|done].
    destruct (findById admin_id id admins) as [admin|] eqn:Hfind; [|done].
    destruct (negb _); [done|].
    destruct (newPassword req) as [[|d n]|]; [done | | done].
    cbn [stored]. split; apply put_fmap; intros a Ha; cbn; congruence.
Qed.

(** X8. An update that names no stored document stores nothing and
    creates nothing. When the [:id] is an identifier that no stored
    document has, the update of a package answers 404; those of a
    hotel and of a flight answer 404, or 500 when the request is
    rejected before the store is asked; the update of a visa, whose
    attributes the store accepts, answers 200 with [null] for the
    visa. When the [:id] is no identifier, every update answers 500:
    those of a package and of a visa with the message of the cast
    error, that of a hotel with the same message once its
    [existingImages] are read, and that of a flight with its fixed
    message. *)
Theorem update_of_missing_document :
  (forall (id : string) req db,
     findById dest_id id db = None ->
     updatePackage id req db
     = mkOutcome (Refusal 404 (Text "Package not found")) db []) /\
  (forall (id : string) req db,
     findById hotel_id id db = None ->
     let out := updateHotel id req db in
     stored out = db /\ destroyed out = [] /\
     (reply out = Refusal 404 (Text "Hotel not found") \/
      exists why, reply out = Refusal 500 why)) /\
  (forall (id : string) req db,
     findById flight_id id db = None ->
     let out := updateFlight id req db in
     stored out = db /\ destroyed out = [] /\
     (reply out = Refusal 404 (Text "Flight not found") \/
      reply out = Refusal 500 (Text "Failed to update flight"))) /\
  (forall (id : string) body file db set,
     findById visa_id id db = None ->
     cast_visa_update (delete "image" (visa_update_data body file))
       = Returned set ->
     updateVisa id body file db
     = mkOutcome (Reply 200 ("Visa updated successfully", None)) db []) /\
  (forall text req db,
     updatePackage (NotObjectId text) req db
     = mkOutcome (Refusal 500 (MessageOf (CastError text))) db []) /\
  (forall text req db,
     let out := updateHotel (NotObjectId text) req db in
     stored out = db /\ destroyed out = [] /\
     (exists why, reply out = Refusal 500 why) /\
     (forall oldImages olds,
        old_images (hotel_body req) = Some oldImages ->
        Access.spread oldImages = Some olds ->
        reply out = Refusal 500 (MessageOf (CastError text)))) /\
  (forall text req db,
     updateFlight (NotObjectId text) req db
     = mkOutcome (Refusal 500 (Text "Failed to update flight")) db []) /\
  (forall text body file db,
     updateVisa (NotObjectId text) body file db
     = mkOutcome (Refusal 500 (MessageOf (CastError text))) db []).
Proof.
  split_and!.
  - intros id req db Hfind. unfold updatePackage. now rewrite Hfind.
  - intros id req db Hfind. cbv zeta. unfold updateHotel. cbv zeta.
    rewrite Hfind.
    destruct (old_images _) as [oldImages|]; [|split_and!; eauto].
    destruct (Access.spread oldImages) as [olds|]; [|split_and!; eauto].
    destruct (cast_strings _) as [imgs|e]; [|split_and!; eauto].
    destruct (cast_update _ _) as [set|e]; [|split_and!; eauto].
    split_and!; [done | done | now left].
  - intros id req db Hfind. cbv zeta. unfold updateFlight. rewrite Hfind.
    destruct (flight_data req) as [data|]; [|split_and!; eauto].
    destruct (cast_update _ _) as [set|e]; split_and!; eauto.
  - intros id body file db set Hfind Hcast. unfold updateVisa. cbv zeta.
    now rewrite Hcast, Hfind.
  - reflexivity.
  - intros text req db. cbv zeta. unfold updateHotel. cbv zeta.
    destruct (old_images _) as [oldImages|].
    + destruct (Access.spread oldImages) as [olds|] eqn:E.
      * split_and!; eauto.
      * split_and!; eauto. intros ? ? [= <-] Hspread.
        rewrite Hspread in E. discriminate E.
    + split_and!; eauto. intros ? ? [=].
  - intros text req db. unfold updateFlight.
    now destruct (flight_data req).
  - reflexivity.
Qed.



End UpdateMore.


(** The update of one hotel of two: the other is stored as before. *)
Lemma update_changes_one_document_witness :
  findById hotel_id "h2"
    (stored (updateHotel (H := Demo.platform) "h1" (mkHotelForm ∅ [])
               [Sample.hotel; Sample.big_hotel]))
  = Some Sample.big_hotel.
Proof.
  rewrite (proj2 (proj1 (update_changes_one_document (H := Demo.platform)
                           (H0 := DemoServices.services))
                    "h1" (mkHotelForm ∅ []) [Sample.hotel; Sample.big_hotel]))
    by discriminate.
  reflexivity.
Defined.

(** The update of a visa that is not stored, on the sample platform. *)
Lemma update_of_missing_document_witness :
  updateVisa (H0 := DemoServices.services) "v9" ∅ None [Sample.visa]
  = mkOutcome (Reply 200 ("Visa updated successfully", None)) [Sample.visa] [].
Proof.
  eapply (proj1 (proj2 (proj2 (proj2 (update_of_missing_document
                                        (H := Demo.platform)
                                        (H0 := DemoServices.services)))))
            "v9" ∅ None [Sample.visa]);
    reflexivity.
Defined.

(** ** The lists of a hotel *)

Section HotelLists.

Lemma split_on_without sep s :
  Js.split_head sep s = s -> Js.split_on sep s = (s, []).
Proof.
  induction s as [|c s IH]; [reflexivity|]. cbn [Js.split_head Js.split_on].
  destruct (Ascii.eqb c sep); [discriminate|]. intros [= Hs]. now rewrite IH.
Qed.

Lemma split_on_append sep a b :
  Js.split_head sep a = a ->
  Js.split_on sep (a +:+ String sep b) = (a, Js.split sep b).
Proof.
  induction a as [|c a IH]; cbn [Js.split_head String.append Js.split_on].
  - intros _. unfold Js.split. destruct (Js.split_on sep b) as [p r].
    now rewrite Ascii.eqb_refl.
  - destruct (Ascii.eqb c sep); [discriminate|]. intros [= Ha].
    now rewrite IH.
Qed.

Lemma split_comma_separated items :
  items <> [] -> Forall (fun s => Js.split_head "," s = s) items ->
  Js.split "," (comma_separated items) = items.
Proof.
  intros Hne Hall. induction Hall as [|s items Hs Hall IH]; [done|].
  destruct items as [|s' items].
  - cbn [comma_separated]. unfold Js.split. now rewrite split_on_without.
  - change (comma_separated (s :: s' :: items))
      with (s +:+ String "," (comma_separated (s' :: items))).
    unfold Js.split at 1. rewrite split_on_append by done. now rewrite IH.
Qed.

Lemma parse_or_split_other (data : object) (f g : string) :
  f <> g -> parse_or_split data g !! f = data !! f.
Proof.
  intros Hne. unfold parse_or_split.
  repeat case_match; rewrite ?lookup_insert_ne by done; reflexivity.
Qed.

Lemma parse_or_split_field (data : object) (f text : string) :
  data !! f = Some (Json.Str text) -> text <> EmptyString ->
  parse_or_split data f !! f
  = Some (default (Json.Arr (Json.Str <$> (Js.trim <$> Js.split "," text)))
            (Json.parse text)).
Proof.
  intros Hf Hne. unfold parse_or_split. rewrite Hf.
  destruct text; [done|]. cbn [Js.truthy_string].
  destruct (Json.parse _); cbn [default]; now rewrite lookup_insert_eq.
Qed.

Lemma hotel_lists_lookup (data : object) (f text : string) :
  f = "popularAmenities" \/ f = "highlights" ->
  data !! f = Some (Json.Str text) -> text <> EmptyString ->
  foldl parse_or_split data ["popularAmenities"; "highlights"] !! f
  = Some (default (Json.Arr (Json.Str <$> (Js.trim <$> Js.split "," text)))
            (Json.parse text)).
Proof.
  intros [-> | ->] Hf Hne; cbn [foldl].
  - rewrite parse_or_split_other by done. now apply parse_or_split_field.
  - apply parse_or_split_field; [|done]. now rewrite parse_or_split_other.
Qed.

Lemma hotel_lists_absent (data : object) (f : string) :
  data !! f = None ->
  foldl parse_or_split data ["popularAmenities"; "highlights"] !! f = None.
Proof.
  intros Hf. cbn [foldl].
  assert (forall d g, d !! f = None -> parse_or_split d g !! f = None) as Hstep.
  { intros d g Hd. destruct (decide (f = g)) as [<-|Hne].
    - unfold parse_or_split. now rewrite Hd.
    - now rewrite parse_or_split_other. }
  now apply Hstep, Hstep.
Qed.

(** X10. The lists of a hotel ([popularAmenities], [highlights]) are
    taken from the text the form sends: the value of the text when it is
    JSON, or else its pieces between commas, each trimmed, so that a
    list of items without commas sent joined by commas is stored item by
    item. On update the text [null] leaves the attribute out; on
    creation it is parsed like any JSON text. *)
Theorem hotel_lists_from_text (req : HotelForm) (field text : string) :
  field = "popularAmenities" \/ field = "highlights" ->
  hotel_body req !! field = Some text -> text <> EmptyString ->
  let sent :=
    default (Json.Arr (Json.Str <$> (Js.trim <$> Js.split "," text)))
      (Json.parse text) in
  hotel_create_data req !! field = Some sent /\
  (text <> "null" -> hotel_data (hotel_body req) !! field = Some sent) /\
  (text = "null" -> hotel_data (hotel_body req) !! field = None) /\
  (forall items,
     text = comma_separated items ->
     Forall (fun s => Js.split_head "," s = s) items ->
     Json.parse text = None ->
     sent = Json.Arr (Json.Str <$> (Js.trim <$> items))).
Proof.
  intros Hfield Hbody Hne. cbv zeta. split_and!.
  - unfold hotel_create_data. cbv zeta.
    assert (field <> "images") as Himg by (destruct Hfield; now subst).
    assert (foldl parse_or_split (Json.Str <$> hotel_body req)
              ["popularAmenities"; "highlights"] !! field
            = Some (default
                      (Json.Arr (Json.Str <$> (Js.trim <$> Js.split "," text)))
                      (Json.parse text))) as Hl.
    { apply hotel_lists_lookup; [done | | done].
      now rewrite lookup_fmap, Hbody. }
    destruct (hotel_files req); [exact Hl|].
    now rewrite lookup_insert_ne.
  - intros Hnull. unfold hotel_data.
    apply hotel_lists_lookup; [done | | done].
    unfold non_empty. rewrite lookup_fmap.
    erewrite map_lookup_filter_Some_2; [reflexivity | exact Hbody | done].
  - intros ->. unfold hotel_data. apply hotel_lists_absent.
    unfold non_empty. rewrite lookup_fmap.
    rewrite map_lookup_filter_None_2; [reflexivity|].
    right. intros x Hx [_ Hn]. cbn in Hn. congruence.
  - intros items -> Hall ->. cbn [default].
    rewrite split_comma_separated; [reflexivity | | done].
    now intros ->.
Qed.

End HotelLists.

(** Three highlights sent as one text, on creation and on update. *)
Lemma hotel_lists_from_text_witness :
  let req :=
    mkHotelForm (<["title" := "Sea View"]> (<["highlights" := "pool, spa ,gym"]> ∅))
      [] in
  hotel_create_data req !! "highlights"
    = Some (Json.Arr [Json.Str "pool"; Json.Str "spa"; Json.Str "gym"]) /\
  hotel_data (hotel_body req) !! "highlights"
    = Some (Json.Arr [Json.Str "pool"; Json.Str "spa"; Json.Str "gym"]).
Proof.
  cbv zeta.
  destruct (hotel_lists_from_text
              (mkHotelForm
                 (<["title" := "Sea View"]>
                    (<["highlights" := "pool, spa ,gym"]> ∅)) [])
              "highlights" "pool, spa ,gym")
    as (Hcreate & Hupdate & _ & Hitems).
  - now right.
  - vm_compute. reflexivity.
  - discriminate.
  - rewrite Hcreate, Hupdate by discriminate.
    rewrite (Hitems ["pool"; " spa "; "gym"]);
      [split; reflexivity | reflexivity | | vm_compute; reflexivity].
    repeat (apply Forall_cons; split; [reflexivity|]). constructor.
Defined.

(** ** Visas *)

Section VisaFacts.
Context `{Platform} `{Services}.

Lemma parse_documents_other (data : object) (k : string) :
  k <> "requiredDocuments" -> parse_documents data !! k = data !! k.
Proof.
  intros Hne. unfold parse_documents.
  repeat case_match; rewrite ?lookup_insert_ne by done; reflexivity.
Qed.

Lemma parse_documents_set (data : object) :
  parse_documents data !! "requiredDocuments"
  = Some match data !! "requiredDocuments" with
         | Some (Json.Str text) =>
             if Js.truthy_string text
             then default (Json.Arr (Json.Str <$> split_documents text))
                    (Json.parse text)
             else Json.Arr []
         | Some v => if Json.truthy v then v else Json.Arr []
         | None => Json.Arr []
         end.
Proof.
  unfold parse_documents.
  destruct (data !! "requiredDocuments") as [v|] eqn:Hd;
    [|now rewrite lookup_insert_eq].
  destruct v; try (destruct (Json.truthy _); [exact Hd | now rewrite lookup_insert_eq]).
  destruct (Js.truthy_string _); [|now rewrite lookup_insert_eq].
  destruct (Json.parse _); now rewrite lookup_insert_eq.
Qed.

Lemma split_documents_items (items : list string) :
  items <> [] -> Forall (fun s => Js.split_head "," s = s) items ->
  split_documents (comma_separated items)
  = List.filter Js.truthy_string (Js.trim <$> items).
Proof.
  intros Hne Hall. unfold split_documents.
  now rewrite split_comma_separated.
Qed.

Lemma split_documents_truthy (text : string) :
  Forall (fun s => s <> EmptyString) (split_documents text).
Proof.
  unfold split_documents. apply Forall_forall. intros s Hs.
  apply list_elem_of_In, List.filter_In in Hs as [_ Hs]. now destruct s.
Qed.

(** X11. The object a visa creation hands to the store always has an
    [image] that is a string and a [requiredDocuments]; its other
    attributes are the texts of the body. With an uploaded file the image
    is the first of its [path], [filename] and [secure_url] that is not
    empty, and the request is refused with status 400, nothing stored,
    exactly when none is; without a file the image is [existingImage],
    or the empty string. Documents sent as a text that is not JSON are
    its pieces between commas, trimmed, without the empty ones; no
    documents, or an empty text, give the empty list. *)
Theorem visa_create_data_spec (req : VisaForm) :
  (visa_create_data req = None <->
   exists file rest,
     visa_files req = file :: rest /\ Js.truthy (file_path file) = false /\
     Js.truthy (file_filename file) = false /\
     Js.truthy (file_secure_url file) = false) /\
  (visa_create_data req = None ->
   forall db, createVisa req db
              = mkOutcome (Refusal 400 (Text "Image upload failed")) db []) /\
  (forall data,
     visa_create_data req = Some data ->
     (exists url,
        data !! "image" = Some (Json.Str url) /\
        (forall file rest,
           visa_files req = file :: rest ->
           url <> EmptyString /\
           Some url
           = JsText.or_string (file_path file)
               (JsText.or_string (file_filename file) (file_secure_url file))) /\
        (visa_files req = [] ->
         url = if Js.truthy (visa_body req !! "existingImage")
               then default EmptyString (visa_body req !! "existingImage")
               else EmptyString)) /\
     (forall k, k <> "image" -> k <> "requiredDocuments" ->
                data !! k = Json.Str <$> visa_body req !! k) /\
     (exists documents, data !! "requiredDocuments" = Some documents) /\
     (Js.truthy (visa_body req !! "requiredDocuments") = false ->
      data !! "requiredDocuments" = Some (Json.Arr [])) /\
     (forall text,
        visa_body req !! "requiredDocuments" = Some text ->
        text <> EmptyString -> Json.parse text = None ->
        data !! "requiredDocuments"
          = Some (Json.Arr (Json.Str <$> split_documents text)) /\
        Forall (fun s => s <> EmptyString) (split_documents text) /\
        forall items,
          text = comma_separated items ->
          Forall (fun s => Js.split_head "," s = s) items ->
          split_documents text
          = List.filter Js.truthy_string (Js.trim <$> items))).
Proof.
  assert (forall image data,
            data = parse_documents
                     (<["image" := Json.Str image]> (Json.Str <$> visa_body req)) ->
            data !! "image" = Some (Json.Str image) /\
            (forall k, k <> "image" -> k <> "requiredDocuments" ->
                       data !! k = Json.Str <$> visa_body req !! k) /\
            (exists documents, data !! "requiredDocuments" = Some documents) /\
            (Js.truthy (visa_body req !! "requiredDocuments") = false ->
             data !! "requiredDocuments" = Some (Json.Arr [])) /\
            (forall text,
               visa_body req !! "requiredDocuments" = Some text ->
               text <> EmptyString -> Json.parse text = None ->
               data !! "requiredDocuments"
                 = Some (Json.Arr (Json.Str <$> split_documents text)) /\
               Forall (fun s => s <> EmptyString) (split_documents text) /\
               forall items,
                 text = comma_separated items ->
                 Forall (fun s => Js.split_head "," s = s) items ->
                 split_documents text
                 = List.filter Js.truthy_string (Js.trim <$> items)))
    as Hdata.
  { intros image data ->. split_and!.
    - rewrite parse_documents_other by done. now rewrite lookup_insert_eq.
    - intros k Hi Hd. rewrite parse_documents_other by done.
      now rewrite lookup_insert_ne, lookup_fmap by done.
    - rewrite parse_documents_set. eauto.
    - intros Hfalsy. rewrite parse_documents_set.
      rewrite lookup_insert_ne, lookup_fmap by done.
      destruct (visa_body req !! "requiredDocuments") as [[|c t]|];
        [reflexivity | discriminate | reflexivity].
    - intros text Hb Hne Hparse. split_and!.
      + rewrite parse_documents_set.
        rewrite lookup_insert_ne, lookup_fmap, Hb by done. cbn [fmap option_fmap option_map].
        destruct text; [done|]. cbn [Js.truthy_string]. now rewrite Hparse.
      + apply split_documents_truthy.
      + intros items -> Hall. apply split_documents_items; [|done].
        now intros ->. }
  unfold createVisa, visa_create_data. cbv zeta.
  destruct (visa_files req) as [|file rest].
  - split_and!.
    + split; [discriminate | intros (f & r & [=] & _)].
    + discriminate.
    + intros data [= <-]. edestruct Hdata as (Hi & Hk & Hd & He & Ht);
        [reflexivity|].
      split_and!; [|done..]. eexists. split_and!; [exact Hi | done | done].
  - pose (url := JsText.or_string (file_path file)
                   (JsText.or_string (file_filename file) (file_secure_url file))).
    fold url. destruct (Js.truthy url) eqn:Hurl.
    + split_and!.
      * split; [discriminate|]. intros (f & r & [= <- <-] & Hp & Hf & Hs).
        subst url. unfold JsText.or_string in Hurl.
        rewrite Hp, Hf in Hurl. congruence.
      * discriminate.
      * intros data [= <-]. edestruct Hdata as (Hi & Hk & Hd & He & Ht);
          [reflexivity|].
        split_and!; [|done..]. eexists. split_and!; [exact Hi | | done].
        intros f r [= <- <-]. fold url.
        destruct url as [[|c u]|]; try discriminate. split; done.
    + split_and!.
      * split; [|done]. intros _. exists file, rest.
        subst url. unfold JsText.or_string in Hurl.
        destruct (Js.truthy (file_path file)) eqn:Hp; [congruence|].
        destruct (Js.truthy (file_filename file)) eqn:Hf; [congruence|].
        done.
      * done.
      * discriminate.
Qed.

(** X12. A visa update stores, for a visa that is stored, an image that
    is the path of the uploaded file, or else the [existingImage] sent,
    or else the [image] text of the body, or else the image stored
    before. It always sends [requiredDocuments] to the store: the empty
    list when the body has none, so that an update that does not send
    the documents again asks the store to erase them. *)
Theorem updateVisa_spec (id : string) (body : gmap string string)
    (file : option string) (db : list Visa) (v : Visa) (set : object) :
  findById visa_id id db = Some v ->
  cast_visa_update (delete "image" (visa_update_data body file)) = Returned set ->
  let out := updateVisa id body file db in
  exists v',
    reply out = Reply 200 ("Visa updated successfully", Some v') /\
    findById visa_id id (stored out) = Some v' /\
    visa_id v' = visa_id v /\
    visa_fields v' = set ∪ visa_fields v /\
    image v'
    = match file with
      | Some path => Some path
      | None =>
          if Js.truthy (body !! "existingImage") then body !! "existingImage"
          else match body !! "image" with
               | Some text => Some text
               | None => image v
               end
      end /\
    (exists documents,
       delete "image" (visa_update_data body file) !! "requiredDocuments"
       = Some documents) /\
    (Js.truthy (body !! "requiredDocuments") = false ->
     delete "image" (visa_update_data body file) !! "requiredDocuments"
     = Some (Json.Arr [])).
Proof.
  intros Hfind Hcast. cbv zeta. unfold updateVisa. cbv zeta.
  rewrite Hcast, Hfind. eexists. split_and!; [reflexivity | | reflexivity..| | |].
  - cbn [stored]. eapply findById_put; [exact Hfind|]. cbn.
    now apply (findById_key visa_id id db).
  - cbn [image]. unfold visa_update_data. cbv zeta.
    rewrite parse_documents_other by done.
    destruct file as [path|]; [now rewrite lookup_insert_eq|].
    destruct (body !! "existingImage") as [[|c e]|] eqn:He; cbn [Js.truthy Js.truthy_string];
      rewrite ?lookup_insert_eq, ?lookup_fmap; try reflexivity;
      now destruct (body !! "image").
  - rewrite lookup_delete_ne by done. unfold visa_update_data. cbv zeta.
    rewrite parse_documents_set. eauto.
  - intros Hfalsy. rewrite lookup_delete_ne by done.
    unfold visa_update_data. cbv zeta. rewrite parse_documents_set.
    assert (forall d : object,
              d !! "requiredDocuments" = Json.Str <$> body !! "requiredDocuments" ->
              match d !! "requiredDocuments" with
              | Some (Json.Str text) =>
                  if Js.truthy_string text
                  then default (Json.Arr (Json.Str <$> split_documents text))
                         (Json.parse text)
                  else Json.Arr []
              | Some v0 => if Json.truthy v0 then v0 else Json.Arr []
              | None => Json.Arr []
              end = Json.Arr []) as Hd.
    { intros d ->. now destruct (body !! "requiredDocuments") as [[|c t]|]. }
    f_equal. apply Hd.
    destruct file as [path|]; [now rewrite lookup_insert_ne, lookup_fmap by done|].
    destruct (Js.truthy (body !! "existingImage"));
      now rewrite ?lookup_insert_ne, lookup_fmap by done.
Qed.

End VisaFacts.

(** A visa created without a file, with its documents in one text. *)
Lemma visa_create_data_spec_witness :
  exists data,
    visa_create_data
      (mkVisaForm (<["name" := "Tourist"]>
                     (<["requiredDocuments" := "passport, photo,,"]> ∅)) [])
    = Some data /\
    data !! "image" = Some (Json.Str EmptyString) /\
    data !! "requiredDocuments"
    = Some (Json.Arr [Json.Str "passport"; Json.Str "photo"]).
Proof.
  eexists. split; [reflexivity|].
  destruct (proj2 (proj2 (visa_create_data_spec (H0 := DemoServices.services)
                            (mkVisaForm
                               (<["name" := "Tourist"]>
                                  (<["requiredDocuments" := "passport, photo,,"]> ∅))
                               [])))
              _ eq_refl)
    as ((url & Himage & _ & Hurl) & _ & _ & _ & Htext).
  split.
  - rewrite Himage, (Hurl eq_refl). reflexivity.
  - destruct (Htext "passport, photo,," ltac:(vm_compute; reflexivity)
                ltac:(discriminate) ltac:(vm_compute; reflexivity))
      as (Hdocs & _ & _).
    rewrite Hdocs. reflexivity.
Defined.

(** An update of the sample visa that sends only a new name. *)
Lemma updateVisa_spec_witness :
  exists v',
    findById visa_id "v1"
      (stored (updateVisa (H0 := DemoServices.services) "v1"
                 (<["name" := "Business"]> ∅) None [Sample.visa]))
    = Some v' /\
    image v' = image Sample.visa /\
    visa_fields v' !! "requiredDocuments" = Some (Json.Arr []).
Proof.
  destruct (updateVisa_spec (H0 := DemoServices.services) "v1"
              (<["name" := "Business"]> ∅) None [Sample.visa] Sample.visa
              _ eq_refl eq_refl)
    as (v' & _ & Hstored & _ & Hfields & Himage & _ & Hdocs).
  exists v'. split_and!; [exact Hstored | exact Himage |].
  rewrite Hfields. apply lookup_union_Some_l. now apply Hdocs.
Defined.

(** ** The search of flights *)

Section FlightSearchFacts.
Context `{Platform} `{Services}.

Lemma upper_upper (c : ascii) : JsText.upper (JsText.upper c) = JsText.upper c.
Proof. destruct c as [[] [] [] [] [] [] [] []]; reflexivity. Qed.

Lemma toUpperCase_idempotent (s : string) :
  JsText.toUpperCase (JsText.toUpperCase s) = JsText.toUpperCase s.
Proof.
  induction s as [|c s IH]; [reflexivity|]. cbn [JsText.toUpperCase].
  now rewrite upper_upper, IH.
Qed.

Lemma toUpperCase_truthy (s : string) :
  Js.truthy_string (JsText.toUpperCase s) = Js.truthy_string s.
Proof. now destruct s. Qed.

(** X13. The search of flights does not depend on the case of the
    letters of the origin and of the destination: a request and the same
    request with both codes in upper case get the same response from the
    same query, and the codes of a query are in upper case. Without an
    origin or without a destination the response has status 400 and the
    store is not queried. *)
Theorem flightSearch_ignores_case (q : FlightSearch) (db : list Flight) :
  flightSearch q db
  = flightSearch
      (mkFlightSearch (JsText.toUpperCase <$> origin q)
         (JsText.toUpperCase <$> destination q) (departureDate q)) db /\
  Forall (fun query =>
            JsText.toUpperCase (departure_iataCode query)
              = departure_iataCode query /\
            JsText.toUpperCase (arrival_iataCode query)
              = arrival_iataCode query)
    (flightSearch q db).2 /\
  (Js.truthy (origin q) && Js.truthy (destination q) = false ->
   flightSearch q db
   = (Refusal 400 (Text "Origin and destination are required"), [])) /\
  (Js.truthy (origin q) && Js.truthy (destination q) = true ->
   exists query, (flightSearch q db).2 = [query] /\
                 status_of (flightSearch q db).1 <> 400%nat).
Proof.
  unfold flightSearch. cbn [origin destination departureDate].
  destruct (origin q) as [[|a o]|], (destination q) as [[|b d]|];
    cbn [fmap option_fmap option_map JsText.toUpperCase Js.truthy
           Js.truthy_string andb];
    try (split_and!; [reflexivity | constructor | reflexivity | discriminate]).
  rewrite !upper_upper, !toUpperCase_idempotent.
  split_and!; [reflexivity | | discriminate |].
  - destruct (find_flights _ db); cbn [snd];
      (constructor; [|constructor]);
      cbn [departure_iataCode arrival_iataCode JsText.toUpperCase];
      now rewrite !upper_upper, !toUpperCase_idempotent.
  - intros _. destruct (find_flights _ db); eexists; split; try reflexivity;
      cbn; lia.
Qed.

End FlightSearchFacts.

(** A search for [del] to [goi] is the search for [DEL] to [GOI]. *)
Lemma flightSearch_ignores_case_witness :
  flightSearch (H0 := DemoServices.services)
    (mkFlightSearch (Some "del") (Some "goi") None) [Sample.flight]
  = flightSearch (H0 := DemoServices.services)
      (mkFlightSearch (Some "DEL") (Some "GOI") None) [Sample.flight] /\
  flightSearch (H0 := DemoServices.services)
    (mkFlightSearch (Some "del") None None) [Sample.flight]
  = (Refusal 400 (Text "Origin and destination are required"), []).
Proof.
  split.
  - apply (proj1 (flightSearch_ignores_case (H0 := DemoServices.services)
                    (mkFlightSearch (Some "del") (Some "goi") None)
                    [Sample.flight])).
  - apply (proj1 (proj2 (proj2 (flightSearch_ignores_case
                                  (H0 := DemoServices.services)
                                  (mkFlightSearch (Some "del") None None)
                                  [Sample.flight])))).
    reflexivity.
Defined.

(** ** The prices and the enquiries *)

Section PricesFacts.
Context `{Platform} `{Services}.

Lemma StronglySorted_lookup {A} (R : relation A) (l : list A) i j x y :
  StronglySorted R l -> l !! i = Some x -> l !! j = Some y -> (i < j)%nat ->
  R x y.
Proof.
  intros Hs. revert i j. induction Hs as [|a l Hs IH Hall]; intros i j; [done|].
  destruct i as [|i], j as [|j]; cbn; try lia.
  - intros [= <-] Hy _. rewrite Forall_forall in Hall.
    apply Hall. now apply list_elem_of_lookup_2 in Hy.
  - intros Hx Hy Hij. apply (IH i j); [done | done | lia].
Qed.

(** X14. The prices are answered in ascending order: the response is
    the sorted rearrangement of the distinct prices of the store, and
    the only one. *)
Theorem packagePrices_sorted (db : list Destination) (prices : list Z) :
  distinct_prices db = Returned prices ->
  exists sorted,
    packagePrices db = Reply 200 sorted /\
    sorted ≡ₚ prices /\ StronglySorted Z.le sorted /\
    (forall i j x y, sorted !! i = Some x -> sorted !! j = Some y ->
                     (i <= j)%nat -> x <= y) /\
    (forall l, l ≡ₚ prices -> Sorted Z.le l -> l = sorted).
Proof.
  intros Hp. unfold packagePrices. rewrite Hp. eexists.
  split; [reflexivity|].
  assert (StronglySorted Z.le (merge_sort Z.le prices)) as Hs
    by apply (StronglySorted_merge_sort _).
  split_and!.
  - apply merge_sort_Permutation.
  - exact Hs.
  - intros i j x y Hi Hj Hij.
    destruct (decide (i = j)) as [->|Hne]; [simplify_eq; lia|].
    eapply (StronglySorted_lookup Z.le _ i j); eauto. lia.
  - intros l Hperm Hl. apply (Sorted_unique Z.le); [done | |].
    + now apply Sorted_merge_sort, _.
    + now rewrite merge_sort_Permutation.
Qed.

End PricesFacts.

Lemma packagePrices_sorted_witness :
  packagePrices (H0 := DemoServices.services) [Sample.goa; Sample.kerala]
  = Reply 200 [1500; 5000].
Proof.
  destruct (packagePrices_sorted (H0 := DemoServices.services)
              [Sample.goa; Sample.kerala] [5000; 1500])
    as (sorted & Hreply & _ & _ & _ & Hunique);
    [vm_compute; reflexivity|].
  rewrite Hreply. f_equal. symmetry. apply Hunique.
  - apply Permutation_swap.
  - repeat constructor. lia.
Defined.

(** ** The enquiries by month *)

Section MonthlyFacts.
Context `{Services}.

Lemma key_le_refl k : key_le k k.
Proof. destruct k; cbn; [lia | done]. Qed.

Lemma key_le_trans : Transitive key_le.
Proof. intros [x|] [y|] [z|]; cbn; try done. lia. Qed.

Lemma key_le_total : Total key_le.
Proof. intros [x|] [y|]; cbn; try tauto. lia. Qed.

Lemma key_le_antisym a b : key_le a b -> key_le b a -> a = b.
Proof. destruct a, b; cbn; try done. intros. f_equal. lia. Qed.

Lemma sum_list_plus {A} (f g : A -> nat) (l : list A) :
  sum_list ((fun x => f x + g x)%nat <$> l)
  = (sum_list (f <$> l) + sum_list (g <$> l))%nat.
Proof. induction l as [|x l IH]; csimpl; [reflexivity | rewrite IH; lia]. Qed.

Lemma sum_indicator (x : option nat) (ks : list (option nat)) :
  NoDup ks -> x ∈ ks ->
  sum_list ((fun k => if bool_decide (x = k) then 1 else 0)%nat <$> ks) = 1%nat.
Proof.
  induction 1 as [|k ks Hk Hnd IH]; [now intros ?%elem_of_nil|].
  csimpl. intros [<-|Hin]%elem_of_cons.
  - rewrite bool_decide_eq_true_2 by done.
    rewrite (sum_list_fmap_same 0%nat); [lia|].
    apply Forall_forall. intros k Hin.
    rewrite bool_decide_eq_false_2; [done | now intros <-].
  - rewrite bool_decide_eq_false_2 by (now intros <-). now rewrite IH.
Qed.

Lemma sum_counts (docs : list Enquiry) (ks : list (option nat)) :
  NoDup ks -> (forall e, e ∈ docs -> month_key e ∈ ks) ->
  sum_list
    ((fun k => length (List.filter (fun e => bool_decide (month_key e = k)) docs))
     <$> ks)
  = length docs.
Proof.
  intros Hnd. induction docs as [|e docs IH]; intros Hin.
  - cbn [List.filter length]. rewrite sum_list_fmap_const. lia.
  - transitivity
      (sum_list
         ((fun k =>
             (if bool_decide (month_key e = k) then 1 else 0)
             + length (List.filter (fun e => bool_decide (month_key e = k)) docs))%nat
          <$> ks)).
    { f_equal. apply list_fmap_ext. intros _ k _. cbn [List.filter].
      now destruct (bool_decide _). }
    rewrite sum_list_plus.
    rewrite sum_indicator; [| done | apply Hin; now left].
    rewrite IH; [reflexivity|]. intros e' He'. apply Hin. now right.
Qed.

Lemma remove_dups_StronglySorted {A} `{EqDecision A} (R : relation A)
    (l : list A) :
  StronglySorted R l -> StronglySorted R (remove_dups l).
Proof.
  induction 1 as [|x l Hs IH Hall]; [constructor|]. cbn [remove_dups].
  case_decide; [exact IH|]. constructor; [exact IH|].
  apply Forall_forall. intros y Hy.
  apply (proj1 (elem_of_remove_dups _ _)) in Hy.
  rewrite Forall_forall in Hall. now apply Hall.
Qed.

Lemma monthly_keys (docs : list Enquiry) :
  let ks := remove_dups (merge_sort key_le (month_key <$> docs)) in
  NoDup ks /\ StronglySorted key_le ks /\
  (forall k, k ∈ ks <-> exists e, e ∈ docs /\ month_key e = k).
Proof.
  cbv zeta. split_and!.
  - apply NoDup_remove_dups.
  - apply remove_dups_StronglySorted.
    apply StronglySorted_merge_sort; [apply key_le_trans | apply key_le_total].
  - intros k. rewrite elem_of_remove_dups, merge_sort_Permutation.
    rewrite list_elem_of_fmap. split.
    + intros (e & -> & He). eauto.
    + intros (e & He & <-). eauto.
Qed.

Lemma names_in_order (ks : list (option nat)) (n : nat) :
  StronglySorted key_le ks -> NoDup ks ->
  Forall (fun k => exists m, k = Some m /\ (n < m <= 12)%nat) ks ->
  month_name <$> ks `sublist_of` Some <$> drop n monthNames.
Proof.
  intros Hs. revert n. induction Hs as [|k ks Hs IH Hall]; intros n Hnd Hks.
  - apply sublist_nil_l.
  - apply NoDup_cons in Hnd as [Hk Hnd].
    apply Forall_cons in Hks as [(m & -> & Hm) Hks].
    destruct m as [|i]; [lia|]. rewrite fmap_cons.
    change (month_name (Some (S i))) with (monthNames !! i).
    destruct (lookup_lt_is_Some_2 monthNames i) as [x Hx]; [cbn; lia|].
    rewrite Hx.
    rewrite <- (take_drop (i - n) (drop n monthNames)), drop_drop.
    replace (n + (i - n))%nat with i by lia.
    rewrite (drop_S _ _ _ Hx), fmap_app, fmap_cons.
    apply sublist_inserts_l, sublist_skip, IH; [done|].
    rewrite Forall_forall in *. intros k Hin.
    destruct (Hks k Hin) as (m & -> & Hm'). exists m. split; [done|].
    specialize (Hall _ Hin). cbn in Hall.
    assert (m <> S i) by (intros ->; done). lia.
Qed.

(** X15. The monthly chart counts every enquiry once: the totals of
    its rows add up to the number of enquiries, which is the number the
    statistics of the dashboard report, and no row has the total 0. When
    every enquiry has a date, with a month from 1 to 12, the rows carry
    the names of months in calendar order, none twice; when an enquiry
    has no date, the first row has no month name. *)
Theorem queryMonthly_spec (docs : list Enquiry) :
  exists rows,
    queryMonthly docs = Reply 200 rows /\
    sum_list (snd <$> rows) = length docs /\
    Forall (fun row => (0 < row.2)%nat) rows /\
    (forall packages hotels visas flights stats,
       adminStats packages hotels visas flights docs = Reply 200 stats ->
       n_enquiries stats = sum_list (snd <$> rows)) /\
    (Forall (fun e => exists ms, enquiry_date e = Some ms /\
                                 (1 <= month_of ms <= 12)%nat) docs ->
     fst <$> rows `sublist_of` Some <$> monthNames) /\
    (Exists (fun e => enquiry_date e = None) docs ->
     exists total rest, rows = (None, total) :: rest).
Proof.
  unfold queryMonthly, monthly_totals. eexists. split; [reflexivity|].
  destruct (monthly_keys docs) as (Hnd & Hs & Hin). cbv zeta in *.
  set (ks := remove_dups (merge_sort key_le (month_key <$> docs))) in *.
  assert (sum_list
            (snd <$>
               ((fun m : option nat * nat => (month_name m.1, m.2)) <$>
                  ((fun k =>
                      (k, length (List.filter
                                    (fun e => bool_decide (month_key e = k)) docs)))
                   <$> ks)))
          = length docs) as Hsum.
  { rewrite <- !list_fmap_compose. apply sum_counts; [done|].
    intros e He. apply Hin. eauto. }
  split_and!.
  - exact Hsum.
  - rewrite !Forall_fmap. apply Forall_forall. intros k Hk. cbn.
    apply Hin in Hk as (e & He & Hk).
    assert (e ∈ List.filter (fun e => bool_decide (month_key e = k)) docs) as Hf.
    { apply list_elem_of_In, List.filter_In. split; [now apply list_elem_of_In|].
      now apply bool_decide_eq_true_2. }
    destruct (List.filter _ docs); [now apply elem_of_nil in Hf | cbn; lia].
  - intros packages hotels visas flights stats [= <-]. cbn [n_enquiries].
    now rewrite Hsum.
  - intros Hdated. rewrite <- !list_fmap_compose.
    apply (names_in_order ks 0); [done | done |].
    apply Forall_forall. intros k (e & He & <-)%Hin.
    rewrite Forall_forall in Hdated. destruct (Hdated e He) as (ms & Hms & Hm).
    exists (month_of ms). unfold month_key. rewrite Hms. split; [done | lia].
  - intros (e & He & Hnone)%Exists_exists.
    assert (None ∈ ks) as Hk.
    { apply Hin. exists e. split; [done|]. unfold month_key. now rewrite Hnone. }
    destruct ks as [|k ks']; [now apply elem_of_nil in Hk|].
    assert (k = None) as ->.
    { apply elem_of_cons in Hk as [->|Hk]; [done|].
      apply StronglySorted_inv in Hs as [_ Hall].
      rewrite Forall_forall in Hall. specialize (Hall _ Hk). now destruct k. }
    csimpl. eauto.
Qed.

End MonthlyFacts.

(** Three enquiries, two of them in the same month. *)
Lemma queryMonthly_spec_witness :
  queryMonthly (H0 := DemoServices.services)
    [DemoServices.enquiry 2592000000; DemoServices.enquiry 0;
     DemoServices.enquiry 2592000001]
  = Reply 200 [(Some "January", 1%nat); (Some "February", 2%nat)].
Proof.
  destruct (queryMonthly_spec (H := DemoServices.services)
              [DemoServices.enquiry 2592000000; DemoServices.enquiry 0;
               DemoServices.enquiry 2592000001])
    as (rows & Hrows & _).
  rewrite Hrows. f_equal.
  assert (Reply 200 rows
          = Reply 200 [(Some "January", 1%nat); (Some "February", 2%nat)]) as E
    by (rewrite <- Hrows; vm_compute; reflexivity).
  now injection E.
Defined.

(** ** More on the creation of documents *)

Section CreateMore.
Context `{Platform} `{Services}.

Lemma package_data_other uuid req data k :
  package_data uuid req = Returned data -> k <> "activities" ->
  data !! k = data_with_files uuid req !! k.
Proof.
  unfold package_data. cbv zeta. intros Hdata Hk.
  destruct (_ && _)%bool; [|now injection Hdata as <-].
  destruct (data_with_files uuid req !! "activities") as [[]|];
    try discriminate.
  destruct (assign_images _ _ _); [|discriminate].
  injection Hdata as <-. now rewrite lookup_insert_ne.
Qed.

(** X16. In the object the handler builds for a new package, the
    attribute [id] is the one the server draws, whatever the body sends
    as [id] (this is not the [_id] the store gives the document); its
    thumbnail and its images are those of the uploaded files when there
    are some, and the texts of the body only when there are none; every
    other attribute that is not one of the twelve encoded fields is the
    text of the body. *)
Theorem createPackage_server_fields (uuid : string) (req : PackageForm)
    (data : object) :
  package_data uuid req = Returned data ->
  let body := package_body req in
  let files := package_files req in
  data !! "id" = Some (Json.Str uuid) /\
  data !! "thumbnail"
  = match thumbnail_files files with
    | file :: _ => Some (Json.Str file)
    | [] => Json.Str <$> body !! "thumbnail"
    end /\
  data !! "images"
  = match images_files files with
    | _ :: _ => Some (Json.Arr (Json.Str <$> images_files files))
    | [] => Json.Str <$> body !! "images"
    end /\
  (forall k, k ∉ jsonFields -> k <> "id" -> k <> "thumbnail" -> k <> "images" ->
             data !! k = Json.Str <$> body !! k).
Proof.
  intros Hdata. cbv zeta.
  assert (forall k, k ∉ jsonFields ->
                    parsed_fields (package_body req) !! k
                    = Json.Str <$> package_body req !! k) as Hparsed.
  { intros k Hk. unfold parsed_fields.
    now rewrite foldl_parse_field_other, lookup_fmap. }
  assert (("id" ∉ jsonFields) /\ ("thumbnail" ∉ jsonFields) /\
          ("images" ∉ jsonFields)) as (Hid & Hth & Him).
  { split_and!; intros Hin%jsonFields_not_set; tauto. }
  split_and!.
  - rewrite (package_data_other _ _ _ _ Hdata) by done.
    unfold data_with_files. cbv zeta.
    destruct (thumbnail_files _), (images_files _);
      rewrite ?lookup_insert_ne by done; now rewrite lookup_insert_eq.
  - rewrite (package_data_other _ _ _ _ Hdata) by done.
    unfold data_with_files. cbv zeta.
    destruct (thumbnail_files _), (images_files _);
      rewrite ?(lookup_insert_ne _ "images") by done;
      rewrite ?lookup_insert_eq; try reflexivity;
      rewrite lookup_insert_ne by done; now apply Hparsed.
  - rewrite (package_data_other _ _ _ _ Hdata) by done.
    unfold data_with_files. cbv zeta.
    destruct (thumbnail_files _), (images_files _);
      rewrite ?lookup_insert_eq; try reflexivity;
      rewrite !lookup_insert_ne by done; now apply Hparsed.
  - intros k Hk Hi Ht Hm.
    assert (k <> "activities") as Ha.
    { intros ->. apply Hk. unfold jsonFields. set_solver. }
    rewrite (package_data_other _ _ _ _ Hdata) by done.
    unfold data_with_files. cbv zeta.
    destruct (thumbnail_files _), (images_files _);
      rewrite !lookup_insert_ne by done; now apply Hparsed.
Qed.

Lemma assign_images_null acts imgIdx files :
  Json.Null ∈ acts ->
  assign_images acts imgIdx files
  = Thrown (TypeError "Cannot read properties of null (reading 'imageCount')").
Proof.
  revert imgIdx. induction acts as [|act acts IH]; intros imgIdx Hin.
  - now apply elem_of_nil in Hin.
  - apply elem_of_cons in Hin as [<-|Hin]; [reflexivity|].
    cbn [assign_images]. rewrite (IH _ Hin). now destruct act.
Qed.

(** X17. A package sent with activity images and with activities that
    are not an array of objects is refused: when [null] is among the
    activities, or when the activities are a value that is not an array,
    the response has status 500 and nothing is stored. Without activity
    images the same activities are handed to the store as they are. *)
Theorem createPackage_activities_malformed (uuid : string) (req : PackageForm)
    (db : list Destination) (text : string) (sent : Json.value) :
  package_body req !! "activities" = Some text ->
  Json.parse text = Some sent -> Json.truthy sent = true ->
  (activityImages (package_files req) <> [] ->
   (forall acts,
      sent = Json.Arr acts -> Json.Null ∈ acts ->
      createPackage uuid req db
      = mkOutcome
          (Refusal 500
             (MessageOf
                (TypeError "Cannot read properties of null (reading 'imageCount')")))
          db []) /\
   ((forall acts, sent <> Json.Arr acts) ->
    createPackage uuid req db
    = mkOutcome
        (Refusal 500
           (MessageOf (TypeError "data.activities.forEach is not a function")))
        db [])) /\
  (activityImages (package_files req) = [] ->
   exists data, package_data uuid req = Returned data /\
                data !! "activities" = Some sent).
Proof.
  intros Hbody Hparse Htruthy.
  assert (text <> EmptyString) as Hne by (intros ->; discriminate).
  assert (data_with_files uuid req !! "activities" = Some sent) as Hact.
  { rewrite data_with_files_lookup by (unfold jsonFields; set_solver).
    rewrite (parsed_fields_lookup _ _ text);
      [now rewrite Hparse | unfold jsonFields; set_solver | done | done]. }
  split.
  - intros Hfiles.
    assert (negb (length (activityImages (package_files req)) =? 0)%nat = true)
      as Hlen by (now destruct (activityImages (package_files req))).
    split.
    + intros acts -> Hnull. unfold createPackage, package_data. cbv zeta.
      rewrite Hact. cbn [Json.truthy_opt Json.truthy]. rewrite Hlen.
      cbn [andb]. now rewrite assign_images_null.
    + intros Hnot. unfold createPackage, package_data. cbv zeta.
      rewrite Hact. cbn [Json.truthy_opt]. rewrite Htruthy, Hlen. cbn [andb].
      destruct sent; try reflexivity. now destruct (Hnot items).
  - intros Hfiles. unfold package_data. cbv zeta.
    rewrite Hfiles. cbn [length Nat.eqb negb]. rewrite andb_false_r. eauto.
Qed.

(** X19. A creation only appends: it leaves the stored documents as
    they are, in their order, adds at most one document, at the end,
    which is the one it answers, and asks the asset host for nothing;
    when it answers an error nothing is stored. This holds for
    packages, hotels, visas and flights. *)
Theorem creation_appends :
  (forall uuid req db,
     let out := createPackage uuid req db in
     destroyed out = [] /\
     ((exists doc, reply out = Reply 200 ("Package added successfully", doc) /\
                   stored out = db ++ [doc]) \/
      (exists why, reply out = Refusal 500 why) /\ stored out = db)) /\
  (forall req db,
     let out := createHotel req db in
     destroyed out = [] /\
     ((exists doc, reply out = Reply 200 ("Hotel added", doc) /\
                   stored out = db ++ [doc]) \/
      (exists why, reply out = Refusal 500 why) /\ stored out = db)) /\
  (forall req db,
     let out := createVisa req db in
     destroyed out = [] /\
     ((exists doc, reply out = Reply 200 ("Visa added successfully", doc) /\
                   stored out = db ++ [doc]) \/
      (exists status why, reply out = Refusal status why /\
                          (status = 400 \/ status = 500)%nat) /\
      stored out = db)) /\
  (forall req db,
     let out := createFlight req db in
     destroyed out = [] /\
     ((exists doc, reply out = Reply 201 doc /\ stored out = db ++ [doc]) \/
      reply out = Refusal 500 (Text "Failed to add flight") /\ stored out = db)).
Proof.
  split_and!.
  - intros uuid req db. cbv zeta. unfold createPackage.
    destruct (package_data uuid req) as [data|e]; [|split; eauto].
    destruct (new_destination data) as [doc|e]; split; eauto.
  - intros req db. cbv zeta. unfold createHotel.
    destruct (new_hotel _) as [doc|e]; split; eauto.
  - intros req db. cbv zeta. unfold createVisa.
    destruct (visa_create_data req) as [data|]; [|split; [done|right; eauto 6]].
    destruct (new_visa data) as [doc|e]; split; eauto 7.
  - intros req db. cbv zeta. unfold createFlight.
    destruct (flight_data req) as [data|]; [|split; eauto].
    destruct (new_flight _) as [doc|e]; split; eauto.
Qed.

End CreateMore.

(** A package sent with the identifier [mine] and one thumbnail file. *)
Lemma createPackage_server_fields_witness :
  let req :=
    mkPackageForm (<["id" := "mine"]> (<["title" := "Goa"]> ∅))
      (mkPackageFiles [Demo.url "cover"] [] []) in
  package_data (H := Demo.platform) "uuid-1" req
    = Returned (data_with_files "uuid-1" req) /\
  data_with_files "uuid-1" req !! "id" = Some (Json.Str "uuid-1") /\
  data_with_files "uuid-1" req !! "thumbnail" = Some (Json.Str (Demo.url "cover")).
Proof.
  cbv zeta.
  assert (package_data (H := Demo.platform) "uuid-1"
            (mkPackageForm (<["id" := "mine"]> (<["title" := "Goa"]> ∅))
               (mkPackageFiles [Demo.url "cover"] [] []))
          = Returned
              (data_with_files "uuid-1"
                 (mkPackageForm (<["id" := "mine"]> (<["title" := "Goa"]> ∅))
                    (mkPackageFiles [Demo.url "cover"] [] [])))) as Hdata
    by (vm_compute; reflexivity).
  destruct (createPackage_server_fields (H := Demo.platform) "uuid-1"
              (mkPackageForm (<["id" := "mine"]> (<["title" := "Goa"]> ∅))
                 (mkPackageFiles [Demo.url "cover"] [] []))
              _ Hdata)
    as (Hid & Hthumb & _).
  split_and!; [exact Hdata | exact Hid | exact Hthumb].
Defined.

(** A package whose second activity is [null], with one activity image. *)
Lemma createPackage_activities_malformed_witness :
  createPackage (H := Demo.platform) "uuid-1"
    (mkPackageForm (<["title" := "Goa"]> (<["activities" := "[{}, null]"]> ∅))
       (mkPackageFiles [] [] [Demo.url "kayak"]))
    [Sample.kerala]
  = mkOutcome
      (Refusal 500
         (MessageOf
            (TypeError "Cannot read properties of null (reading 'imageCount')")))
      [Sample.kerala] [].
Proof.
  destruct (createPackage_activities_malformed (H := Demo.platform) "uuid-1"
              (mkPackageForm
                 (<["title" := "Goa"]> (<["activities" := "[{}, null]"]> ∅))
                 (mkPackageFiles [] [] [Demo.url "kayak"]))
              [Sample.kerala] "[{}, null]" (Json.Arr [Json.Obj ∅; Json.Null]))
    as [Hfiles _].
  - vm_compute. reflexivity.
  - vm_compute. reflexivity.
  - reflexivity.
  - destruct Hfiles as [Hnull _]; [discriminate|].
    apply (Hnull [Json.Obj ∅; Json.Null] eq_refl). set_solver.
Defined.

(** A visa refused for its file, and a flight that is stored. *)
Lemma creation_appends_witness :
  stored (createVisa (H0 := DemoServices.services)
            (mkVisaForm (<["name" := "Tourist"]> ∅)
               [mkUploadedFile None None None])
            [Sample.visa])
  = [Sample.visa] /\
  exists doc,
    stored (createFlight (H := Demo.platform) Forms.flight_form [Sample.flight])
    = [Sample.flight] ++ [doc].
Proof.
  split.
  - destruct (proj2 (proj1 (proj2 (proj2 (creation_appends
                                            (H := Demo.platform)
                                            (H0 := DemoServices.services))))
                       (mkVisaForm (<["name" := "Tourist"]> ∅)
                          [mkUploadedFile None None None])
                       [Sample.visa]))
      as [(doc & Hreply & _)|[_ Hstored]]; [discriminate Hreply | exact Hstored].
  - destruct (proj2 (proj2 (proj2 (proj2 (creation_appends
                                            (H := Demo.platform)
                                            (H0 := DemoServices.services))))
                       Forms.flight_form [Sample.flight]))
      as [(doc & _ & Hstored)|[Hreply _]]; [eauto | discriminate Hreply].
Defined.

(** ** More on the search of packages *)

Section SearchMore.
Context `{Platform}.


End SearchMore.


(** ** The identifiers a deletion asks to delete *)

Section DeletedIdentifiers.
Context `{Platform}.

Lemma filter_Boolean_getPublicId (urls : list string) :
  filter_Boolean (getPublicId <$> urls) = omap getPublicId urls.
Proof.
  unfold filter_Boolean. induction urls as [|url urls IH]; [reflexivity|].
  csimpl. rewrite IH. destruct (getPublicId url) as [id|] eqn:Hid; [|reflexivity].
  apply getPublicId_sound in Hid as (_ & _ & _ & _ & _ & Hne & _).
  now destruct id.
Qed.

Lemma filter_Boolean_app (a b : list (option string)) :
  filter_Boolean (a ++ b) = filter_Boolean a ++ filter_Boolean b.
Proof. apply omap_app. Qed.

Lemma single_publicId_omap (url : option string) :
  single_publicId url = omap getPublicId (option_list url).
Proof.
  destruct url as [[|c u]|]; [reflexivity | | reflexivity].
  unfold single_publicId. cbn [Js.truthy_string option_list].
  apply (filter_Boolean_getPublicId [String c u]).
Qed.

Lemma package_publicIds_omap (pkg : Destination) :
  filter_Boolean (package_publicIds pkg)
  = omap getPublicId
      (option_list (thumbnail pkg) ++ images pkg
       ++ mjoin (act_images <$> activities pkg)).
Proof.
  unfold package_publicIds. rewrite !filter_Boolean_app, !omap_app.
  f_equal; [|f_equal].
  - destruct (thumbnail pkg) as [[|c u]|]; [reflexivity | | reflexivity].
    apply (filter_Boolean_getPublicId [String c u]).
  - apply filter_Boolean_getPublicId.
  - induction (activities pkg) as [|act acts IH]; [reflexivity|].
    csimpl. rewrite filter_Boolean_app, omap_app, IH.
    now rewrite filter_Boolean_getPublicId.
Qed.

Lemma deletePackage_destroyed id db pkg :
  findById dest_id id db = Some pkg ->
  destroyed (deletePackage id db)
  = omap getPublicId
      (option_list (thumbnail pkg) ++ images pkg
       ++ mjoin (act_images <$> activities pkg)).
Proof.
  intros Hfind. unfold deletePackage, destroy_then_remove.
  rewrite Hfind, package_publicIds_omap. now destruct (promise_all _).
Qed.

Lemma deleteHotel_destroyed id db hotel :
  findById hotel_id id db = Some hotel ->
  destroyed (deleteHotel id db) = omap getPublicId (hotel_images hotel).
Proof.
  intros Hfind. unfold deleteHotel, destroy_then_remove.
  rewrite Hfind, filter_Boolean_getPublicId. now destruct (promise_all _).
Qed.

(** X20. A deletion asks the asset host to delete the identifiers of
    the images of the document, one request for each image whose URL
    has an identifier, in the order of the images: the thumbnail, the
    images and the images of the activities for a package, the images
    for a hotel, the image for a visa, the logo for a flight. An image
    whose URL has no identifier is passed over, and no identifier asked
    for is empty. *)
Theorem delete_asks_for_the_identifiers :
  (forall id db pkg,
     findById dest_id id db = Some pkg ->
     destroyed (deletePackage id db)
     = omap getPublicId
         (option_list (thumbnail pkg) ++ images pkg
          ++ mjoin (act_images <$> activities pkg))) /\
  (forall id db hotel,
     findById hotel_id id db = Some hotel ->
     destroyed (deleteHotel id db) = omap getPublicId (hotel_images hotel)) /\
  (forall id db v,
     findById visa_id id db = Some v ->
     destroyed (deleteVisa id db) = omap getPublicId (option_list (image v))) /\
  (forall id db flight,
     findById flight_id id db = Some flight ->
     destroyed (deleteFlight id db)
     = omap getPublicId (option_list (logo flight))) /\
  (forall (urls : list string) id,
     id ∈ omap getPublicId urls -> id <> EmptyString).
Proof.
  split_and!.
  - apply deletePackage_destroyed.
  - apply deleteHotel_destroyed.
  - intros id db v Hfind. unfold deleteVisa, destroy_then_remove.
    rewrite Hfind, single_publicId_omap. now destruct (promise_all _).
  - intros id db flight Hfind. unfold deleteFlight, destroy_then_remove.
    rewrite Hfind, single_publicId_omap. now destruct (promise_all _).
  - intros urls id (url & _ & Hid)%list_elem_of_omap.
    now apply getPublicId_sound in Hid as (_ & _ & _ & _ & _ & Hne & _).
Qed.

End DeletedIdentifiers.

(** A hotel with an image whose URL has no extension: only the other
    image is asked for. *)
Lemma delete_asks_for_the_identifiers_witness :
  destroyed
    (deleteHotel (H := Demo.platform) "h3"
       [mkHotel "h3" ["https://host/upload/hotels/lobby"; Demo.url "pool"] ∅])
  = ["destinations/pool"].
Proof.
  rewrite (proj1 (proj2 (delete_asks_for_the_identifiers (H := Demo.platform)))
             "h3"
             [mkHotel "h3" ["https://host/upload/hotels/lobby"; Demo.url "pool"] ∅]
             (mkHotel "h3" ["https://host/upload/hotels/lobby"; Demo.url "pool"] ∅)
             eq_refl).
  vm_compute. reflexivity.
Defined.

(** ** More on the update of a hotel and of a package *)

Section UpdateErrors.
Context `{Platform}.

Lemma characters_fmap (s : string) :
  Access.characters s
  = Json.Str <$> ((fun c => String c EmptyString) <$> list_ascii_of_string s).
Proof.
  induction s as [|c s IH]; [reflexivity|].
  cbn [Access.characters list_ascii_of_string]. rewrite IH.
  now rewrite !fmap_cons.
Qed.

(** X21. A hotel update whose [existingImages] is not a JSON text, or
    is the JSON text of a value that cannot be spread into an array
    ([null], a number, an object), answers an error with status 500 and
    leaves the store as it is, although the same request may send its
    lists as texts that are not JSON. A JSON string is spread into its
    characters. *)
Theorem updateHotel_existingImages_malformed (id : string) (req : HotelForm)
    (db : list Hotel) (text : string) :
  hotel_body req !! "existingImages" = Some text -> text <> EmptyString ->
  (Json.parse text = None ->
   updateHotel id req db
   = mkOutcome (Refusal 500 (MessageOf (SyntaxError text))) db []) /\
  (forall v,
     Json.parse text = Some v ->
     (forall items, v <> Json.Arr items) -> (forall s, v <> Json.Str s) ->
     updateHotel id req db
     = mkOutcome (Refusal 500 (MessageOf (TypeError "oldImages is not iterable")))
         db []) /\
  (forall s hotel set,
     Json.parse text = Some (Json.Str s) ->
     cast_update HotelModel (delete "images" (hotel_data (hotel_body req)))
       = Returned set ->
     findById hotel_id id db = Some hotel ->
     exists hotel',
       reply (updateHotel id req db) = Reply 200 ("Hotel updated", hotel') /\
       hotel_images hotel'
       = ((fun c => String c EmptyString) <$> list_ascii_of_string s)
         ++ hotel_files req).
Proof.
  intros Hbody Hne.
  assert (old_images (hotel_body req) = Json.parse text) as Hold.
  { unfold old_images. rewrite Hbody. now destruct text. }
  split_and!.
  - intros Hparse. unfold updateHotel. cbv zeta.
    now rewrite Hold, Hparse, Hbody.
  - intros v Hparse Harr Hstr. unfold updateHotel. cbv zeta.
    rewrite Hold, Hparse.
    destruct v; try reflexivity; [now destruct (Hstr s) | now destruct (Harr items)].
  - intros s hotel set Hparse Hcast Hfind. unfold updateHotel. cbv zeta.
    rewrite Hold, Hparse. cbn [Access.spread].
    rewrite characters_fmap.
    rewrite <- fmap_app, cast_strings_Str, Hcast, Hfind. eauto.
Qed.



End UpdateErrors.

Section ReadVisa.

(** X22. A visa is always answered with an image that is a string and
    with documents that are an array: the stored image, or the empty
    string when there is none, and the stored documents, or the empty
    array when what is stored is not an array; its other attributes are
    the stored ones. An [:id] that is an identifier of no stored visa
    is answered with status 404, and an [:id] that is no identifier
    with status 500 and the message of the cast error. *)
Theorem getVisa_shape (id : string) (db : list Visa) :
  (findById visa_id id db = None ->
   getVisa id db = Refusal 404 (Text "Visa not found")) /\
  (forall v,
     findById visa_id id db = Some v ->
     exists answered url items,
       getVisa id db = Reply 200 answered /\
       visa_id answered = id /\
       image answered = Some url /\
       (image v = Some url \/ url = EmptyString /\ Js.truthy (image v) = false) /\
       visa_fields answered !! "requiredDocuments" = Some (Json.Arr items) /\
       (visa_fields v !! "requiredDocuments" = Some (Json.Arr items) \/
        items = [] /\
        forall l, visa_fields v !! "requiredDocuments" <> Some (Json.Arr l)) /\
       (forall k, k <> "requiredDocuments" ->
                  visa_fields answered !! k = visa_fields v !! k)) /\
  (forall text,
     getVisa (NotObjectId text) db = Refusal 500 (MessageOf (CastError text))).
Proof.
  unfold getVisa. split_and!.
  - now intros ->.
  - intros v Hfind. rewrite Hfind. cbv zeta.
    pose proof (findById_key visa_id id db v Hfind) as Hid.
    assert (exists items,
              match visa_fields v !! "requiredDocuments" with
              | Some (Json.Arr l) => Json.Arr l
              | _ => Json.Arr []
              end = Json.Arr items /\
              (visa_fields v !! "requiredDocuments" = Some (Json.Arr items) \/
               items = [] /\
               forall l, visa_fields v !! "requiredDocuments" <> Some (Json.Arr l)))
      as (items & -> & Hitems).
    { destruct (visa_fields v !! "requiredDocuments") as [[]|];
        try (exists []; split; [reflexivity|]; right;
             split; [reflexivity | congruence]).
      eexists. split; [reflexivity | now left]. }
    eexists _, _, items. split; [reflexivity|]. cbn [visa_id image visa_fields].
    split_and!; [exact Hid | reflexivity | | | exact Hitems |].
    + destruct (image v) as [[|c u]|]; cbn; auto.
    + now rewrite lookup_insert_eq.
    + intros k Hk. now rewrite lookup_insert_ne.
  - reflexivity.
Qed.

End ReadVisa.

(** A hotel update with [existingImages] that is the text [null]. *)
Lemma updateHotel_existingImages_malformed_witness :
  updateHotel (H := Demo.platform) "h1"
    (mkHotelForm (<["existingImages" := "null"]> ∅) []) [Sample.hotel]
  = mkOutcome (Refusal 500 (MessageOf (TypeError "oldImages is not iterable")))
      [Sample.hotel] [].
Proof.
  destruct (updateHotel_existingImages_malformed (H := Demo.platform) "h1"
              (mkHotelForm (<["existingImages" := "null"]> ∅) [])
              [Sample.hotel] "null")
    as (_ & Hspread & _).
  - vm_compute. reflexivity.
  - discriminate.
  - apply (Hspread Json.Null); [vm_compute; reflexivity | discriminate..].
Defined.


(** The sample visa, a visa that is not stored and a text that is no
    identifier. *)
Lemma getVisa_shape_witness :
  getVisa "v2" [Sample.visa] = Refusal 404 (Text "Visa not found") /\
  getVisa (NotObjectId "new") [Sample.visa]
  = Refusal 500 (MessageOf (CastError "new")) /\
  exists answered,
    getVisa "v1" [Sample.visa] = Reply 200 answered /\
    visa_fields answered !! "requiredDocuments" = Some (Json.Arr []).
Proof.
  split_and!.
  - apply (proj1 (getVisa_shape "v2" [Sample.visa])). reflexivity.
  - apply (proj2 (proj2 (getVisa_shape "v2" [Sample.visa]))).
  - destruct (proj1 (proj2 (getVisa_shape "v1" [Sample.visa]))
                Sample.visa eq_refl)
      as (answered & url & items & Hreply & _ & _ & _ & Hdocs & Hitems & _).
    exists answered. split; [exact Hreply|].
    destruct Hitems as [Hstored|[-> _]]; [discriminate Hstored | exact Hdocs].
Defined.

(** ** The session token of a change of password *)

Section TokenFacts.
Context `{Platform}.

Lemma bearer_token_second_word (scheme token : string) :
  Js.split_head " " scheme = scheme -> Js.split_head " " token = token ->
  bearer_token (Some (scheme +:+ String " " token)) = Some token.
Proof.
  intros Hscheme Htoken. unfold bearer_token, Js.split.
  rewrite split_on_append by done. unfold Js.split.
  now rewrite split_on_without.
Qed.

Lemma bearer_token_one_word (header : string) :
  Js.split_head " " header = header -> bearer_token (Some header) = None.
Proof.
  intros Hheader. unfold bearer_token, Js.split.
  now rewrite split_on_without.
Qed.

(** X24. The change of password takes as session token the second word
    of the [Authorization] header and does not look at the first: the
    header [Bearer t] and the header [s t], for any word [s], have the
    same outcome. A header of one word, or no header, is answered with
    status 401 and changes nothing. *)
Theorem changePassword_reads_second_word (old new : option string)
    (admins : list Admin) :
  (forall scheme token,
     Js.split_head " " scheme = scheme -> Js.split_head " " token = token ->
     changePassword (mkChangePassword (Some (scheme +:+ String " " token)) old new)
       admins
     = changePassword (mkChangePassword (Some ("Bearer " +:+ token)) old new)
         admins) /\
  (forall header,
     Js.split_head " " header = header ->
     changePassword (mkChangePassword (Some header) old new) admins
     = mkOutcome (Refusal 401 (Text "Unauthorized")) admins []) /\
  changePassword (mkChangePassword None old new) admins
  = mkOutcome (Refusal 401 (Text "Unauthorized")) admins [].
Proof.
  split_and!.
  - intros scheme token Hscheme Htoken. unfold changePassword.
    cbn [authorization oldPassword newPassword].
    rewrite (bearer_token_second_word scheme token) by done.
    change ("Bearer " +:+ token) with ("Bearer" +:+ String " " token).
    now rewrite (bearer_token_second_word "Bearer" token).
  - intros header Hheader. unfold changePassword. cbn [authorization].
    now rewrite bearer_token_one_word.
  - reflexivity.
Qed.

End TokenFacts.

(** The header [Token signed.for.admin-1] changes the password. *)
Lemma changePassword_reads_second_word_witness :
  reply (changePassword (H := Demo.platform)
           (mkChangePassword (Some "Token signed.for.admin-1") (Some "secret")
              (Some "s3cret"))
           [Sample.admin])
  = Reply 200 "Password changed successfully".
Proof.
  change "Token signed.for.admin-1"
    with ("Token" +:+ String " " "signed.for.admin-1").
  rewrite (proj1 (changePassword_reads_second_word (H := Demo.platform)
                    (Some "secret") (Some "s3cret") [Sample.admin])
             "Token" "signed.for.admin-1" eq_refl eq_refl).
  reflexivity.
Defined.

(** ** A deletion after an update *)

Section Lifecycle.
Context `{Platform}.





End Lifecycle.

